(** * gaia_isochrones: catalog lookup and isochrone fit

    A shallow embedding of [gaia_isochrones/stellar.py]: the catalog
    lookup [get_gaia_data] and the model fit [fit_gaia_data] with its two
    closures [prior_transform] and [loglike].

    Numbers are IEEE 754 binary64 values (Rocq's primitive [float]), which
    is what NumPy's [float64] and Python's [float] are.  The transcendental
    functions ([np.exp], [np.log], [**]) come from the platform's math
    library, which is not correctly rounded and so not fixed by IEEE 754:
    they are a parameter ([Libm]) of every definition that uses them.
    The catalog service, the isochrones model, the nested sampler and
    pandas are external as well and enter as records of functions. *)

From Stdlib Require Import ZArith Lia List String Ascii Bool Floats.
From stdpp Require Import base option gmap strings list.

#[local] Set Warnings "-inexact-float".
#[local] Set Warnings "-clear-no-such-hyp".
#[local] Open Scope float_scope.

(* ===================================================================== *)
(** ** Python exceptions and results                                     *)
(* ===================================================================== *)

Inductive exn : Type :=
  | ValueError (msg : string)
  | ZeroDivisionError
  | KeyError (key : string)
  | IndexError
  | TypeError
  | AttributeError
  | OSError (path : string).

Inductive result (A : Type) : Type :=
  | Ok (a : A)
  | Raise (e : exn).
Arguments Ok {A} a.
Arguments Raise {A} e.

Definition rbind {A B} (r : result A) (k : A -> result B) : result B :=
  match r with
  | Ok a => k a
  | Raise e => Raise e
  end.

Declare Scope result_scope.
Delimit Scope result_scope with res.
Notation "x <- c1 ;; c2" := (rbind c1 (fun x => c2))
  (at level 100, c1 at next level, right associativity) : result_scope.

(** A [for] loop whose body may raise: the first exception leaves the loop. *)
Fixpoint for_each {A S} (xs : list A) (s : S) (body : S -> A -> result S)
  : result S :=
  match xs with
  | [] => Ok s
  | x :: xs' => rbind (body s x) (fun s' => for_each xs' s' body)
  end.

(* ===================================================================== *)
(** ** NumPy and Python arithmetic on binary64                           *)
(* ===================================================================== *)

Module Np.

(** The math library: [np.exp], [np.log] and the power behind [**]. *)
Record Libm : Type := {
  exp : float -> float;
  log : float -> float;
  pow : float -> float -> float
}.

Definition inf : float := infinity.
Definition isfinite (x : float) : bool := is_finite x.

(** [np.clip] on a scalar: [min (max x lo) hi], where a NaN [x] is
    returned as it is (NumPy's clip loop tests the first operand). *)
Definition clip_max (a b : float) : float :=
  if is_nan a then a else if b <? a then a else b.
Definition clip_min (a b : float) : float :=
  if is_nan a then a else if a <? b then a else b.
Definition clip (x lo hi : float) : float :=
  clip_min (clip_max x lo) hi.

(** Python's [/] on two built-in floats raises on a zero divisor (of
    either sign); NumPy's does not and follows IEEE 754. *)
Definition py_truediv (x y : float) : result float :=
  if y =? 0 then Raise ZeroDivisionError else Ok (x / y).

End Np.

(** Single precision (binary32), the dtype of the catalog's magnitude
    columns.  NumPy keeps the dtype of an array in arithmetic with a
    Python float, which it converts to that dtype: the subtraction and
    the comparison of line 47 are single-precision operations.  A value
    is held in its IEEE 754 form, with the precision and the exponent
    bound of the format. *)
Module F32.

Definition prec : Z := 24.
Definition emax : Z := 128.

(** [np.float32(x)]: round to nearest, ties to even. *)
Definition of_float64 (x : float) : spec_float :=
  match Prim2SF x with
  | S754_finite s m e => binary_round prec emax s m e
  | v => v
  end.

Definition sub (x y : spec_float) : spec_float := SFsub prec emax x y.
Definition abs (x : spec_float) : spec_float := SFabs x.
Definition ltb (x y : spec_float) : bool := SFltb x y.
Definition leb (x y : spec_float) : bool := SFleb x y.
Definition is_nan (x : spec_float) : bool :=
  match x with
  | S754_nan => true
  | _ => false
  end.

End F32.

(* ===================================================================== *)
(** ** Strings: [str.lower], [str.format] with one field, [os.path.join] *)
(* ===================================================================== *)

Definition lower_ascii (c : ascii) : ascii :=
  let n := nat_of_ascii c in
  if (Nat.leb 65 n && Nat.leb n 90)%bool then ascii_of_nat (n + 32) else c.

Fixpoint lower (s : string) : string :=
  match s with
  | EmptyString => EmptyString
  | String c s' => String (lower_ascii c) (lower s')
  end.

Definition starts_with_sep (s : string) : bool :=
  match s with
  | String c _ => Ascii.eqb c "/"%char
  | EmptyString => false
  end.

Fixpoint ends_with_sep (s : string) : bool :=
  match s with
  | EmptyString => false
  | String c EmptyString => Ascii.eqb c "/"%char
  | String _ s' => ends_with_sep s'
  end.

(** [posixpath.join a b]. *)
Definition path_join (a b : string) : string :=
  if starts_with_sep b then b
  else if (String.eqb a "" || ends_with_sep a)%bool then (a ++ b)%string
  else (a ++ "/" ++ b)%string.

(* ===================================================================== *)
(** ** Catalog rows and the measurement record                           *)
(* ===================================================================== *)

(** One row of the cone-search table (the columns the lookup reads).  The
    three magnitude columns are single precision in the archive's table;
    the row holds what [float(r[name])] gives, the same number in double
    precision. *)
Record Row : Type := {
  parallax : float;
  parallax_error : float;
  phot_g_mean_mag : float;
  phot_g_mean_flux : float;
  phot_g_mean_flux_error : float;
  phot_bp_mean_mag : float;
  phot_bp_mean_flux : float;
  phot_bp_mean_flux_error : float;
  phot_rp_mean_mag : float;
  phot_rp_mean_flux : float;
  phot_rp_mean_flux_error : float
}.

(** [r[name]] for a column name. *)
Definition row_getitem (r : Row) (name : string) : result float :=
  if String.eqb name "parallax" then Ok (parallax r)
  else if String.eqb name "parallax_error" then Ok (parallax_error r)
  else if String.eqb name "phot_g_mean_mag" then Ok (phot_g_mean_mag r)
  else if String.eqb name "phot_g_mean_flux" then Ok (phot_g_mean_flux r)
  else if String.eqb name "phot_g_mean_flux_error"
       then Ok (phot_g_mean_flux_error r)
  else if String.eqb name "phot_bp_mean_mag" then Ok (phot_bp_mean_mag r)
  else if String.eqb name "phot_bp_mean_flux" then Ok (phot_bp_mean_flux r)
  else if String.eqb name "phot_bp_mean_flux_error"
       then Ok (phot_bp_mean_flux_error r)
  else if String.eqb name "phot_rp_mean_mag" then Ok (phot_rp_mean_mag r)
  else if String.eqb name "phot_rp_mean_flux" then Ok (phot_rp_mean_flux r)
  else if String.eqb name "phot_rp_mean_flux_error"
       then Ok (phot_rp_mean_flux_error r)
  else Raise (KeyError name).

(** The values a measurement record holds: NumPy arrays, tuples of floats,
    NumPy scalars, and whatever else a caller passes as an extra field. *)
Inductive pyobj : Type :=
  | NdArray (xs : list float)
  | Tuple (xs : list float)
  | Float64 (x : float)
  | PyOther (repr : string).

(** [v[i]] for a non-negative index. *)
Definition getitem (v : pyobj) (i : nat) : result float :=
  match v with
  | NdArray xs | Tuple xs =>
      match nth_error xs i with
      | Some x => Ok x
      | None => Raise IndexError
      end
  | Float64 _ => Raise IndexError
  | PyOther _ => Raise TypeError
  end.

(** [np.array(v, dtype=np.float64)]. *)
Definition np_array (v : pyobj) : pyobj :=
  match v with
  | NdArray xs | Tuple xs => NdArray xs
  | Float64 x => Float64 x
  | PyOther r => PyOther r
  end.

(** [d[k]] on a dictionary. *)
Definition dict_getitem (d : gmap string pyobj) (k : string) : result pyobj :=
  match d !! k with
  | Some v => Ok v
  | None => Raise (KeyError k)
  end.

Inductive AngleUnit : Type := arcsec | arcmin | deg.
Record Quantity : Type := { qvalue : float; qunit : AngleUnit }.
Record SkyCoord : Type := { ra : float; dec : float }.

(** The catalog service: [Gaia.cone_search_async(coord, radius)
    .get_results()], the candidate rows in the order the service returns
    them. *)
Record Gaia : Type := {
  cone_search : SkyCoord -> Quantity -> list Row
}.

(* ===================================================================== *)
(** ** [get_gaia_data]                                                   *)
(* ===================================================================== *)

Section Lookup.
Variable libm : Np.Libm.
Variable gaia : Gaia.

#[local] Open Scope result_scope.

(** Line 47: [np.abs(r["phot_g_mean_mag"] - approx_mag)] on the column,
    at the column's single precision, and the rows kept when [approx_mag]
    is given. *)
Definition mag_diff (approx_mag : float) (r : Row) : spec_float :=
  F32.abs (F32.sub (F32.of_float64 (phot_g_mean_mag r))
                   (F32.of_float64 approx_mag)).

Definition mag_mask (approx_mag mag_tol : float) (r : Row) : bool :=
  F32.ltb (mag_diff approx_mag r) (F32.of_float64 mag_tol).

Definition select_candidates (approx_mag : option float) (mag_tol : float)
    (rows : list Row) : list Row :=
  match approx_mag with
  | Some am => List.filter (mag_mask am mag_tol) rows
  | None => rows
  end.

(** Lines 56-57. *)
Definition corrected_parallax (r : Row) : float := parallax r + 0.082.
Definition corrected_parallax_error (r : Row) : float :=
  sqrt (Np.pow libm (parallax_error r) 2 + Np.pow libm 0.033 2).

Definition mag_factor : float := 2.5 / Np.log libm 10.

(** Lines 66-72: the body of the loop over the bands. *)
Definition band_entry (r : Row) (params : gmap string pyobj) (band : string)
    : result (gmap string pyobj) :=
  mag <- row_getitem r ("phot_" ++ lower band ++ "_mean_mag")%string ;;
  err <- row_getitem r ("phot_" ++ lower band ++ "_mean_flux_error")%string ;;
  flux <- row_getitem r ("phot_" ++ lower band ++ "_mean_flux")%string ;;
  err <- Np.py_truediv err flux ;;
  let err := err * mag_factor in
  if negb (Np.isfinite mag && Np.isfinite err)
  then Raise (ValueError "non finite params")
  else Ok (<[band := Tuple [mag; err]]> params).

(** Lines 64-80: the record computed from the selected row, before the
    caller's extra fields are merged. *)
Definition computed_record (r : Row) : result (gmap string pyobj) :=
  let plx := corrected_parallax r in
  let plx_err := corrected_parallax_error r in
  if negb (Np.isfinite plx && Np.isfinite plx_err)
  then Raise (ValueError "non finite parallax")
  else
    params <- for_each ["G"; "BP"; "RP"]%string ∅ (band_entry r) ;;
    let params := <["parallax" := Tuple [plx; plx_err]]> params in
    let params := np_array <$> params in
    p <- dict_getitem params "parallax" ;;
    p0 <- getitem p 0 ;;
    Ok (if 0 <? p0
        then <["max_distance" := Float64 (Np.clip (2000 / plx) 100 Np.inf)]>
               params
        else params).

(** Lines 40-47: the search and the optional selection by magnitude. *)
Definition default_radius : Quantity := {| qvalue := 20; qunit := arcsec |}.

Definition candidates (coord : SkyCoord) (approx_mag : option float)
    (radius : option Quantity) (mag_tol : float) : list Row :=
  let radius := default default_radius radius in
  let r := cone_search gaia coord radius in
  select_candidates approx_mag mag_tol r.

Definition get_gaia_data (coord : SkyCoord) (approx_mag : option float)
    (radius : option Quantity) (mag_tol : float)
    (kwargs : gmap string pyobj) : result (gmap string pyobj) :=
  match candidates coord approx_mag radius mag_tol with
  | [] => Raise (ValueError "no matches found")
  | r :: _ =>
      params <- computed_record r ;;
      (* dict(params, **kwargs): the keyword arguments are written last *)
      Ok (kwargs ∪ params)
  end.

End Lookup.

(* ===================================================================== *)
(** ** The world [fit_gaia_data] runs in                                 *)
(* ===================================================================== *)

(** A [pandas.DataFrame] of float columns; all frames of one fit carry the
    default row index, so a column is the list of its values by row. *)
Abbreviation DataFrame := (gmap string (list float)).

(** A two-dimensional float array: its second dimension and its rows. *)
Record Array2 : Type := { ncols : nat; rows : list (list float) }.

(** [a.T], the array of the columns. *)
Definition transpose (a : Array2) : list (list float) :=
  map (fun j => map (fun r => nth j r nan) (rows a)) (seq 0 (ncols a)).

Inductive json : Type :=
  | JFloat (x : float)
  | JInt (n : Z)
  | JList (xs : list float).

Inductive File : Type :=
  | EmptyFile
  | HDFStore (tables : gmap string DataFrame)
  | JsonFile (doc : gmap string json)
  | CsvFile (table : DataFrame).

Inductive event : Type :=
  | NestedSamplerCreated (ndim : nat)
  | RunNested
  | Printed (template : string) (arg : float).

(** Dictionaries are objects: a reference is a location of the heap. *)
Abbreviation loc := nat.

Record World : Type := {
  heap : gmap loc (gmap string pyobj);
  dirs : gset string;
  files : gmap string File;
  clock : nat -> float;     (* the successive readings of [time.time()] *)
  ticks : nat;
  trace : list event        (* most recent event first *)
}.

Definition with_heap (h : gmap loc (gmap string pyobj)) (w : World) : World :=
  {| heap := h; dirs := dirs w; files := files w;
     clock := clock w; ticks := ticks w; trace := trace w |}.
Definition with_dirs (d : gset string) (w : World) : World :=
  {| heap := heap w; dirs := d; files := files w;
     clock := clock w; ticks := ticks w; trace := trace w |}.
Definition with_files (f : gmap string File) (w : World) : World :=
  {| heap := heap w; dirs := dirs w; files := f;
     clock := clock w; ticks := ticks w; trace := trace w |}.
Definition with_ticks (n : nat) (w : World) : World :=
  {| heap := heap w; dirs := dirs w; files := files w;
     clock := clock w; ticks := n; trace := trace w |}.
Definition with_trace (t : list event) (w : World) : World :=
  {| heap := heap w; dirs := dirs w; files := files w;
     clock := clock w; ticks := ticks w; trace := t |}.

(** Computations that read and write the world and may raise; the world
    an exception leaves behind is kept. *)
Definition M (A : Type) : Type := World -> result A * World.

Definition ret {A} (a : A) : M A := fun w => (Ok a, w).
Definition throw {A} (e : exn) : M A := fun w => (Raise e, w).
Definition lift {A} (r : result A) : M A := fun w => (r, w).
Definition bind {A B} (c : M A) (k : A -> M B) : M B :=
  fun w =>
    match c w with
    | (Ok a, w') => k a w'
    | (Raise e, w') => (Raise e, w')
    end.

Declare Scope world_scope.
Delimit Scope world_scope with world.
Notation "x <- c1 ;; c2" := (bind c1 (fun x => c2))
  (at level 100, c1 at next level, right associativity) : world_scope.
Notation "c1 ;;; c2" := (bind c1 (fun _ => c2))
  (at level 100, right associativity) : world_scope.

Fixpoint mfor {A S} (xs : list A) (s : S) (body : S -> A -> M S) : M S :=
  match xs with
  | [] => ret s
  | x :: xs' => bind (body s x) (fun s' => mfor xs' s' body)
  end.

Section WorldOps.
#[local] Open Scope world_scope.

(** Reading the dictionary behind a reference. *)
Definition deref (l : loc) : M (gmap string pyobj) :=
  fun w =>
    match heap w !! l with
    | Some d => (Ok d, w)
    | None => (Raise TypeError, w)
    end.

(** [d[k] = v] on the dictionary behind [l]. *)
Definition dict_setitem (l : loc) (k : string) (v : pyobj) : M unit :=
  d <- deref l ;;
  fun w => (Ok tt, with_heap (<[l := <[k := v]> d]> (heap w)) w).

(** A new dictionary object holding [d]. *)
Definition alloc (d : gmap string pyobj) : M loc :=
  fun w =>
    let l := fresh (dom (heap w)) in
    (Ok l, with_heap (<[l := d]> (heap w)) w).

Definition emit (e : event) : M unit :=
  fun w => (Ok tt, with_trace (e :: trace w) w).

(** [time.time()]. *)
Definition time_time : M float :=
  fun w => (Ok (clock w (ticks w)), with_ticks (S (ticks w)) w).

(** [os.makedirs(path, exist_ok=True)] for a path whose parents are
    directories or missing.  The parents it creates are not recorded, and
    a parent that is a regular file is not looked at: a statement that
    depends on either says so. *)
Definition makedirs (path : string) : M unit :=
  fun w =>
    match files w !! path with
    | Some _ => (Raise (OSError path), w)
    | None => (Ok tt, with_dirs ({[path]} ∪ dirs w) w)
    end.

(** [os.path.exists(path)]. *)
Definition path_exists (path : string) : M bool :=
  fun w => (Ok (bool_decide (is_Some (files w !! path))
                || bool_decide (path ∈ dirs w)), w).

(** [open(path, "w")] followed by a dump of [content]. *)
Definition open_w (path : string) : M unit :=
  fun w => (Ok tt, with_files (<[path := EmptyFile]> (files w)) w).
Definition write_file (path : string) (content : File) : M unit :=
  fun w => (Ok tt, with_files (<[path := content]> (files w)) w).

(** [pd.read_hdf(path, key)]. *)
Definition read_hdf (path key : string) : M DataFrame :=
  fun w =>
    match files w !! path with
    | Some (HDFStore tables) =>
        match tables !! key with
        | Some df => (Ok df, w)
        | None => (Raise (KeyError key), w)
        end
    | _ => (Raise (OSError path), w)
    end.

(** [df.to_hdf(path, key)]: the store is opened in append mode. *)
Definition to_hdf (df : DataFrame) (path key : string) : M unit :=
  fun w =>
    match files w !! path with
    | None =>
        (Ok tt, with_files (<[path := HDFStore {[key := df]}]> (files w)) w)
    | Some (HDFStore tables) =>
        (Ok tt,
         with_files (<[path := HDFStore (<[key := df]> tables)]> (files w)) w)
    | Some _ => (Raise (OSError path), w)
    end.

End WorldOps.

(* ===================================================================== *)
(** ** The external libraries of the fit                                 *)
(* ===================================================================== *)

(** The isochrones model class: what [fit_gaia_data] uses of
    [isochrones.SingleStarModel] bound to the MIST grid in the bands G, BP
    and RP.  [lnpost] reads the model's keyword dictionary. *)
Record Isochrones : Type := {
  init_kwargs : gmap string pyobj -> gmap string pyobj;
  n_params : nat;
  param_names : list string;
  mnest_prior : list float -> list float;
  lnpost : gmap string pyobj -> list float -> float;
  ic : list (list float) -> DataFrame
}.

(** A model object: [mod.kwargs] is a dictionary of the model's own. *)
Record SingleStarModel : Type := {
  kwargs : loc;
  _samples : option DataFrame;
  _derived_samples : option DataFrame
}.

(** [sampler.results]. *)
Record Results : Type := {
  samples : Array2;
  logwt : list float;
  logz : list float;
  logzerr : list float;
  nlive : Z;
  niter : Z;
  ncall : list Z;
  eff : float
}.

(** A run of the nested sampler, seen from its two callbacks: it asks for
    likelihoods and prior transforms, in an order and number of its own
    choosing that may depend on the answers, and ends with its results. *)
Inductive SamplerRun : Type :=
  | CallLoglike (theta : list float) (k : float -> SamplerRun)
  | CallPriorTransform (u : list float) (k : list float -> SamplerRun)
  | Finished (r : Results).

Record Dynesty : Type := {
  run_nested : nat -> SamplerRun;
  resample_equal : Array2 -> list float -> Array2
}.

Inductive FitOutcome : Type :=
  | Loaded (mod_ : SingleStarModel)
  | Fitted (mod_ : SingleStarModel) (sampler : Results).

(** [xs[-1]]. *)
Definition last_item (xs : list float) : result float :=
  match last xs with
  | Some x => Ok x
  | None => Raise IndexError
  end.

(** [dict(pairs)]: a later pair overwrites an earlier one with its key. *)
Definition py_dict {V} (pairs : list (string * V)) : gmap string V :=
  fold_left (fun d kv => <[kv.1 := kv.2]> d) pairs ∅.

(** [v.tolist()]. *)
Definition tolist (v : pyobj) : result json :=
  match v with
  | NdArray xs => Ok (JList xs)
  | Float64 x => Ok (JFloat x)
  | Tuple _ | PyOther _ => Raise AttributeError
  end.

(** [df[c]]. *)
Definition column (df : DataFrame) (c : string) : result (list float) :=
  match df !! c with
  | Some xs => Ok xs
  | None => Raise (KeyError c)
  end.

(* ===================================================================== *)
(** ** [fit_gaia_data]                                                   *)
(* ===================================================================== *)

Section Fit.
Variable libm : Np.Libm.
Variable iso : Isochrones.
Variable dynesty : Dynesty.
Variable describe : DataFrame -> DataFrame.   (* [df.describe().transpose()] *)
Variable __version__ : string.

#[local] Open Scope world_scope.

Definition jitter_vars : list string := ["G"; "BP"; "RP"]%string.

(** [enumerate(xs)]. *)
Definition enumerate {A} (xs : list A) : list (nat * A) :=
  combine (seq 0 (length xs)) xs.

(** Line 93: a call [f ( **d )] hands the callee a dictionary of its
    own with the entries of [d]. *)
Definition new_model (gaia_data : loc) : M SingleStarModel :=
  d <- deref gaia_data ;;
  l <- alloc (init_kwargs iso d) ;;
  ret {| kwargs := l; _samples := None; _derived_samples := None |}.

Section Closures.
Variable mod_ : SingleStarModel.
Variable gaia_data : loc.

(** Lines 113-117. *)
Definition prior_transform (u : list float) : list float :=
  let cube := u in
  mnest_prior iso (take (n_params iso) cube)
    ++ map (fun c => -10 + 20 * c) (drop (n_params iso) cube).

(** Lines 123-125: the body of the loop over the jitter variables. *)
Definition loglike_band (theta : list float) (ind0 : nat) (lp0 : float)
    (ik : nat * string) : M float :=
  let '(i, k) := ik in
  gd <- deref gaia_data ;;
  v <- lift (dict_getitem gd k) ;;
  e <- lift (getitem v 1) ;;
  t <- lift (getitem (NdArray theta) (ind0 + i)) ;;
  let err := sqrt (Np.pow libm e 2 + Np.exp libm t) in
  let lp0 := lp0 - 2 * Np.log libm err in
  gd <- deref gaia_data ;;
  v <- lift (dict_getitem gd k) ;;
  m <- lift (getitem v 0) ;;
  dict_setitem (kwargs mod_) k (Tuple [m; err]) ;;;
  ret lp0.

(** Lines 119-129. *)
Definition loglike (theta : list float) : M float :=
  let ind0 := n_params iso in
  lp0 <- mfor (enumerate jitter_vars) 0 (loglike_band theta ind0) ;;
  kw <- deref (kwargs mod_) ;;
  let lp := lp0 + lnpost iso kw (take (n_params iso) theta) in
  if Np.isfinite lp
  then ret (Np.clip lp (-1e10) Np.inf)
  else ret (-1e10).

(** Line 136: the sampler runs and calls back. *)
Fixpoint run_sampler (p : SamplerRun) : M Results :=
  match p with
  | Finished r => ret r
  | CallLoglike theta k => v <- loglike theta ;; run_sampler (k v)
  | CallPriorTransform u k => run_sampler (k (prior_transform u))
  end.

End Closures.

(** Lines 146-158: the two sample sets from the resampled chain. *)
Definition posterior_frame (samples : Array2) : DataFrame :=
  py_dict (combine (param_names iso
                    ++ map (fun k => "log_jitter_" ++ k)%string jitter_vars)
                   (transpose samples)).

Definition derived_frame (df : DataFrame) : result DataFrame :=
  (cols <- for_each (param_names iso) []
            (fun acc c => v <- column df c ;; Ok (acc ++ [v])) ;;
   let derived := ic iso cols in
   distance <- column df "distance" ;;
   let derived := <["parallax" := map (fun d => 1000.0 / d) distance]> derived in
   distance <- column df "distance" ;;
   let derived := <["distance" := distance]> derived in
   av <- column df "AV" ;;
   Ok (<["AV" := av]> derived))%res.

(** Lines 170-178. *)
Definition sampling_summary (results : Results) (total_time : float)
    : result (gmap string json) :=
  (z <- last_item (logz results) ;;
   zerr <- last_item (logzerr results) ;;
   Ok (py_dict [("nlive", JInt (nlive results));
                ("niter", JInt (niter results));
                ("ncall", JInt (fold_left Z.add (ncall results) 0%Z));
                ("eff", JFloat (eff results));
                ("logz", JFloat z);
                ("logzerr", JFloat zerr);
                ("total_time", JFloat total_time)]%string))%res.

Definition fit_gaia_data (name : string) (gaia_data : loc) (clobber : bool)
    (output_dir : string) : M FitOutcome :=
  mod_ <- new_model gaia_data ;;
  let output_dir := path_join (path_join output_dir __version__) name in
  makedirs output_dir ;;;
  let fn := path_join output_dir "star.h5" in
  found <- path_exists fn ;;
  if negb clobber && found then
    s <- read_hdf fn "samples" ;;
    let mod_ := {| kwargs := kwargs mod_; _samples := Some s;
                  _derived_samples := _derived_samples mod_ |} in
    d <- read_hdf fn "derived_samples" ;;
    let mod_ := {| kwargs := kwargs mod_; _samples := _samples mod_;
                  _derived_samples := Some d |} in
    ret (Loaded mod_)
  else
    open_w (path_join output_dir "gaia.json") ;;;
    gd <- deref gaia_data ;;
    doc <- lift (for_each (map_to_list gd) ∅
                   (fun acc kv => (j <- tolist kv.2 ;;
                                   Ok (<[kv.1 := j]> acc))%res)) ;;
    write_file (path_join output_dir "gaia.json") (JsonFile doc) ;;;
    emit (NestedSamplerCreated (n_params iso + length jitter_vars)) ;;;
    strt <- time_time ;;
    emit RunNested ;;;
    results <- run_sampler mod_ gaia_data
                 (run_nested dynesty (n_params iso + length jitter_vars)) ;;
    stop <- time_time ;;
    let total_time := (stop - strt) / 60.0 in
    emit (Printed "Sampling took {0} minutes" total_time) ;;;
    z <- lift (last_item (logz results)) ;;
    let samples := resample_equal dynesty (samples results)
                     (map (fun lw => Np.exp libm (lw - z)) (logwt results)) in
    let df := posterior_frame samples in
    let mod_ := {| kwargs := kwargs mod_; _samples := Some df;
                  _derived_samples := _derived_samples mod_ |} in
    derived <- lift (derived_frame df) ;;
    let mod_ := {| kwargs := kwargs mod_; _samples := _samples mod_;
                  _derived_samples := Some derived |} in
    to_hdf df fn "samples" ;;;
    to_hdf derived fn "derived_samples" ;;;
    write_file (path_join output_dir "star_summary.csv")
               (CsvFile (describe derived)) ;;;
    summary <- lift (sampling_summary results total_time) ;;
    open_w (path_join output_dir "star_sampling_summary.json") ;;;
    write_file (path_join output_dir "star_sampling_summary.json")
               (JsonFile summary) ;;;
    ret (Fitted mod_ results).

End Fit.

(* ===================================================================== *)
(** ** The log-likelihood as the specification words it                  *)
(* ===================================================================== *)

Section ClaimedLoglike.
Variable libm : Np.Libm.
Variable iso : Isochrones.

(** "An inflated error sqrt(original_error^2 + exp(log_jitter))". *)
Definition inflated_error (original_error log_jitter : float) : float :=
  sqrt (Np.pow libm original_error 2 + Np.exp libm log_jitter).

(** "Clipped below at [floor]": the larger of the value and the floor. *)
Definition clipped_below (x floor : float) : float :=
  if floor <? x then x else floor.

(** The three bands with their measured pairs and log-jitters, in the
    order G, BP, RP: the correction total, and the model parameters
    after the substitution of the inflated errors. *)
Definition correction_total (errs : list float) : float :=
  fold_left (fun total err => total - 2 * Np.log libm err) errs 0.

Definition substituted (kw : gmap string pyobj)
    (bands : list (string * (float * float))) : gmap string pyobj :=
  fold_left (fun kw b => <[b.1 := Tuple [b.2.1; b.2.2]]> kw) bands kw.

(** The total log-probability of one evaluation and the model parameters
    it is evaluated with: [mg], [mb], [mr] are the magnitudes and [eg],
    [eb], [er] the original errors of G, BP and RP. *)
Definition total_logprob (mg eg mb eb mr er : float)
    (kw : gmap string pyobj) (theta : list float)
    : float * gmap string pyobj :=
  let n := n_params iso in
  let err_g := inflated_error eg (nth n theta nan) in
  let err_b := inflated_error eb (nth (n + 1) theta nan) in
  let err_r := inflated_error er (nth (n + 2) theta nan) in
  let kw' := substituted kw [("G", (mg, err_g)); ("BP", (mb, err_b));
                             ("RP", (mr, err_r))]%string in
  (correction_total [err_g; err_b; err_r] + lnpost iso kw' (take n theta),
   kw').

(** The claim as written: the total, clipped below at -1e10. *)
Definition claimed_loglike (mg eg mb eb mr er : float)
    (kw : gmap string pyobj) (theta : list float) : float :=
  clipped_below (total_logprob mg eg mb eb mr er kw theta).1 (-1e10).

(** What the guard of lines 127-129 does with a total. *)
Definition floored (total : float) : float :=
  if Np.isfinite total then clipped_below total (-1e10) else -1e10.

End ClaimedLoglike.

(* ===================================================================== *)
(** ** A software math library, to run the definitions                   *)
(* ===================================================================== *)

(** An instance of [Np.Libm] written with binary64 operations only: range
    reduction and a truncated series, accurate to a few units in the last
    place, with the special values of C99 Annex F ([exp] underflows to 0
    and overflows to infinity, [log 0] is minus infinity, [log] of a
    negative number is NaN). *)
Module SoftLibm.

Definition float_of_Z (z : Z) : float :=
  match z with
  | Z0 => 0
  | Zpos _ => of_uint63 (Uint63.of_Z z)
  | Zneg p => - of_uint63 (Uint63.of_Z (Zpos p))
  end.

(** The value of an integral float. *)
Definition Z_of_float (x : float) : Z :=
  match Prim2SF x with
  | S754_finite s m e =>
      let v := Z.shiftl (Zpos m) e in if s then Z.opp v else v
  | _ => 0%Z
  end.

Definition ln2_hi : float := 0x1.62e42fee00000p-1.
Definition ln2_lo : float := 0x1.a39ef35793c76p-33.
Definition ln2 : float := 0x1.62e42fefa39efp-1.
Definition inv_ln2 : float := 0x1.71547652b82fep+0.
Definition round_magic : float := 0x1.8p52.

(** [1 + r/1 (1 + r/2 (1 + ... (1 + r/k)))], from the inside out. *)
Fixpoint exp_series (n : nat) (k r acc : float) : float :=
  match n with
  | O => acc
  | S n' => exp_series n' (k - 1) r (1 + r / k * acc)
  end.

Definition exp (x : float) : float :=
  if is_nan x then x
  else if 709.782712893384 <? x then infinity
  else if x <? -745.2 then 0
  else
    let kf := (x * inv_ln2 + round_magic) - round_magic in
    let r := (x - kf * ln2_hi) - kf * ln2_lo in
    Z.ldexp (exp_series 20 20 r 1) (Z_of_float kf).

(** [1 + s2/3 + s2^2/5 + ...], from the inside out. *)
Fixpoint atanh_series (n : nat) (d s2 acc : float) : float :=
  match n with
  | O => acc
  | S n' => atanh_series n' (d - 2) s2 (1 / d + s2 * acc)
  end.

Definition log (x : float) : float :=
  if is_nan x then x
  else if x <? 0 then nan
  else if x =? 0 then neg_infinity
  else if x =? infinity then x
  else
    let (m, e) := Z.frexp x in
    let (m, e) :=
      if m <? 0x1.6a09e667f3bcdp-1 then (m * 2, (e - 1)%Z) else (m, e) in
    let s := (m - 1) / (m + 1) in
    float_of_Z e * ln2 + 2 * s * atanh_series 13 25 (s * s) 0.

Definition pow (x y : float) : float :=
  if y =? 0 then 1
  else if y =? 1 then x
  else if y =? 2 then x * x
  else exp (y * log x).

Definition libm : Np.Libm :=
  {| Np.exp := exp; Np.log := log; Np.pow := pow |}.

End SoftLibm.

(* ===================================================================== *)
(** ** Concrete inputs                                                   *)
(* ===================================================================== *)

Module Sample.

Definition coord : SkyCoord := {| ra := 290.5; dec := 44.25 |}.

(** A bright star 100 pc away. *)
Definition star : Row :=
  {| parallax := 10; parallax_error := 0.05;
     phot_g_mean_mag := 6; phot_g_mean_flux := 80000;
     phot_g_mean_flux_error := 40;
     phot_bp_mean_mag := 6.25; phot_bp_mean_flux := 40000;
     phot_bp_mean_flux_error := 50;
     phot_rp_mean_mag := 5.5; phot_rp_mean_flux := 60000;
     phot_rp_mean_flux_error := 60 |}.

(** The same star with a negative catalog parallax. *)
Definition far_star : Row :=
  {| parallax := -0.5; parallax_error := 0.05;
     phot_g_mean_mag := 6; phot_g_mean_flux := 80000;
     phot_g_mean_flux_error := 40;
     phot_bp_mean_mag := 6.25; phot_bp_mean_flux := 40000;
     phot_bp_mean_flux_error := 50;
     phot_rp_mean_mag := 5.5; phot_rp_mean_flux := 60000;
     phot_rp_mean_flux_error := 60 |}.

(** The same star with a BP flux of zero in the catalog. *)
Definition no_bp_flux : Row :=
  {| parallax := 10; parallax_error := 0.05;
     phot_g_mean_mag := 6; phot_g_mean_flux := 80000;
     phot_g_mean_flux_error := 40;
     phot_bp_mean_mag := 6.25; phot_bp_mean_flux := 0;
     phot_bp_mean_flux_error := 50;
     phot_rp_mean_mag := 5.5; phot_rp_mean_flux := 60000;
     phot_rp_mean_flux_error := 60 |}.

(** What the lookup makes of [star]. *)
Definition star_record : gmap string pyobj :=
  {[ "G" := NdArray [6; 40 / 80000 * (2.5 / SoftLibm.log 10)];
     "BP" := NdArray [6.25; 50 / 40000 * (2.5 / SoftLibm.log 10)];
     "RP" := NdArray [5.5; 60 / 60000 * (2.5 / SoftLibm.log 10)];
     "parallax" :=
       NdArray [10 + 0.082;
                sqrt (SoftLibm.pow 0.05 2 + SoftLibm.pow 0.033 2)];
     "max_distance" :=
       Float64 (Np.clip (2000 / (10 + 0.082)) 100 Np.inf) ]}%string.

(** A catalog that answers every cone search with the given rows. *)
Definition catalog (table : list Row) : Gaia :=
  {| cone_search := fun _ _ => table |}.

(** A measurement record, and one whose G error is zero. *)
Definition record : gmap string pyobj :=
  {[ "G" := NdArray [6; 0.0005]; "BP" := NdArray [6.25; 0.001];
     "RP" := NdArray [5.5; 0.001]; "parallax" := NdArray [10; 0.06];
     "max_distance" := Float64 200 ]}%string.

Definition exact_g_record : gmap string pyobj :=
  <["G" := NdArray [6; 0]]> record.

(** A model with five parameters whose log-posterior reads the errors
    the likelihood substituted. *)
Definition band_error (kw : gmap string pyobj) (k : string) : float :=
  match kw !! k with
  | Some (Tuple [_; e]) | Some (NdArray [_; e]) => e
  | _ => nan
  end.

Definition iso : Isochrones :=
  {| init_kwargs := fun d => d;
     n_params := 5;
     param_names := ["eep"; "age"; "feh"; "distance"; "AV"]%string;
     mnest_prior := map (fun c => 100 * c);
     lnpost := fun kw p =>
       - (band_error kw "G" + band_error kw "BP" + band_error kw "RP");
     ic := fun cols => {[ "radius" := nth 0 cols [] ]}%string |}.

Definition theta0 : list float := [350; 9.5; 0; 100; 0.1; 0; 0; 0].

(** A jitter on G so negative that its exponential underflows. *)
Definition theta_underflow : list float :=
  [350; 9.5; 0; 100; 0.1; -1000; 0; 0].

(** A sampler that transforms one point of the unit cube, evaluates the
    likelihood there, and stops with two samples. *)
Definition dynesty : Dynesty :=
  {| run_nested := fun ndim =>
       CallPriorTransform (repeat 0.5 ndim) (fun theta =>
       CallLoglike theta (fun l =>
       Finished {| samples := {| ncols := ndim;
                                 rows := [theta; map (fun t => t + 1) theta] |};
                   logwt := [l; l]; logz := [l]; logzerr := [0.1];
                   nlive := 2; niter := 1; ncall := [1%Z]; eff := 100 |}));
     resample_equal := fun a _ => a |}.

Definition describe (df : DataFrame) : DataFrame := df.

(** A store as a finished fit leaves it. *)
Definition persisted_samples : DataFrame :=
  {[ "distance" := [100; 125]; "AV" := [0.1; 0.2] ]}%string.
Definition persisted_derived : DataFrame :=
  {[ "distance" := [100; 125]; "parallax" := [10; 8];
     "AV" := [0.1; 0.2]; "radius" := [1; 1.5] ]}%string.
Definition store : File :=
  HDFStore {[ "samples" := persisted_samples;
              "derived_samples" := persisted_derived ]}%string.

Definition world (d : gmap string pyobj) (fs : gmap string File) : World :=
  {| heap := {[ 0%nat := d ]}; dirs := ∅; files := fs;
     clock := fun n => 90 * SoftLibm.float_of_Z (Z.of_nat n); ticks := 0; trace := [] |}.

(** The model built for the record behind the reference 0, and the world
    its construction leaves. *)
Definition model : SingleStarModel :=
  {| kwargs := 1; _samples := None; _derived_samples := None |}.

Definition modelled (d : gmap string pyobj) : World :=
  with_heap {[ 0%nat := d; 1%nat := d ]} (world d ∅).

(** A world where the fit of "kic1" has left its store, and a fresh run
    of the fit in a world without one. *)
Definition stored_world : World :=
  world record {[ "results/0.1.0/kic1/star.h5"%string := store ]}.

Definition fit_run : result FitOutcome * World :=
  fit_gaia_data SoftLibm.libm iso dynesty describe "0.1.0" "kic1" 0 false
    "results" (world record ∅).

End Sample.

(* ===================================================================== *)
(** ** Predicates of the statements                                      *)
(* ===================================================================== *)

(** The finite values of the format. *)
Inductive finite_SF : spec_float -> Prop :=
  | finite_SF_zero (s : bool) : finite_SF (S754_zero s)
  | finite_SF_num (s : bool) (m : positive) (e : Z) :
      finite_SF (S754_finite s m e).

(** The magnitude error of a band as lines 67-69 propagate it, the test of
    line 70 over the three bands, and the record of lines 64-80. *)
Definition propagated_error (libm : Np.Libm) (flux_error flux : float)
  : float :=
  flux_error / flux * mag_factor libm.

Definition photometry_finite (libm : Np.Libm) (r : Row) : bool :=
  Np.isfinite (phot_g_mean_mag r)
  && Np.isfinite (propagated_error libm (phot_g_mean_flux_error r)
                    (phot_g_mean_flux r))
  && Np.isfinite (phot_bp_mean_mag r)
  && Np.isfinite (propagated_error libm (phot_bp_mean_flux_error r)
                    (phot_bp_mean_flux r))
  && Np.isfinite (phot_rp_mean_mag r)
  && Np.isfinite (propagated_error libm (phot_rp_mean_flux_error r)
                    (phot_rp_mean_flux r)).

Definition expected_record (libm : Np.Libm) (r : Row) : gmap string pyobj :=
  let plx := corrected_parallax r in
  let params : gmap string pyobj :=
    <["parallax" := NdArray [plx; corrected_parallax_error libm r]]>
      (<["RP" := NdArray [phot_rp_mean_mag r;
                          propagated_error libm (phot_rp_mean_flux_error r)
                            (phot_rp_mean_flux r)]]>
         (<["BP" := NdArray [phot_bp_mean_mag r;
                             propagated_error libm
                               (phot_bp_mean_flux_error r)
                               (phot_bp_mean_flux r)]]>
            (<["G" := NdArray [phot_g_mean_mag r;
                               propagated_error libm
                                 (phot_g_mean_flux_error r)
                                 (phot_g_mean_flux r)]]> ∅))) in
  if 0 <? plx
  then <["max_distance" := Float64 (Np.clip (2000 / plx) 100 Np.inf)]> params
  else params.

(** The record holds under [k] a pair whose entries are [m] and [e]. *)
Definition band_pair (gd : gmap string pyobj) (k : string) (m e : float)
  : Prop :=
  exists v, gd !! k = Some v /\ getitem v 0 = Ok m /\ getitem v 1 = Ok e.

(** [w'] is [w] but for the dictionary behind [l]. *)
Inductive writes_only (l : loc) (w : World) : World -> Prop :=
  | writes_only_heap (h : gmap loc (gmap string pyobj)) :
      (forall l', l' <> l -> h !! l' = heap w !! l') ->
      writes_only l w (with_heap h w).

(* ===================================================================== *)
(** ** The JSON document, sampler runs, and further concrete inputs      *)
(* ===================================================================== *)

(** Lines 105-106 of [fit_gaia_data]:
    [dict((k, v.tolist()) for k, v in gaia_data.items())], and one step
    of it. *)
Definition json_of_record (gd : gmap string pyobj)
  : result (gmap string json) :=
  for_each (map_to_list gd) ∅
    (fun acc kv => (j <- tolist kv.2 ;; Ok (<[kv.1 := j]> acc))%res).

Definition dump_step (acc : gmap string json) (kv : string * pyobj)
  : result (gmap string json) :=
  (j <- tolist kv.2 ;; Ok (<[kv.1 := j]> acc))%res.

(** What [v.tolist()] returns, when [v] has the method. *)
Definition json_value (v : pyobj) : option json :=
  match tolist v with
  | Ok j => Some j
  | Raise _ => None
  end.

(** A sampler run whose likelihood calls all pass a point of the
    dimension the sampler was created with. *)
Inductive well_dimensioned (iso : Isochrones) : SamplerRun -> Prop :=
  | wd_loglike (theta : list float) (k : float -> SamplerRun) :
      length theta = (n_params iso + 3)%nat ->
      (forall v, well_dimensioned iso (k v)) ->
      well_dimensioned iso (CallLoglike theta k)
  | wd_prior (u : list float) (k : list float -> SamplerRun) :
      well_dimensioned iso (k (prior_transform iso u)) ->
      well_dimensioned iso (CallPriorTransform u k)
  | wd_finished (r : Results) : well_dimensioned iso (Finished r).

(** [w'] has every dictionary of [w] but perhaps the one behind [l]. *)
Definition keeps_heap (l : loc) (w w' : World) : Prop :=
  forall l', l' <> l -> heap w' !! l' = heap w !! l'.

(** [d] is [p] cut before one of its separators: a parent of [p]. *)
Definition path_above (d p : string) : Prop :=
  exists rest : string, p = (d ++ "/" ++ rest)%string.

Module Cases.

(** The star of [Sample.star] with the G magnitude float32(6.1). *)
Definition single_precision_star : Row :=
  {| parallax := 10; parallax_error := 0.05;
     phot_g_mean_mag := 0x1.866666p+2; phot_g_mean_flux := 80000;
     phot_g_mean_flux_error := 40;
     phot_bp_mean_mag := 6.25; phot_bp_mean_flux := 40000;
     phot_bp_mean_flux_error := 50;
     phot_rp_mean_mag := 5.5; phot_rp_mean_flux := 60000;
     phot_rp_mean_flux_error := 60 |}.

(** A point that lacks the last two jitter coordinates. *)
Definition short_theta : list float := [350; 9.5; 0; 100; 0.1; 0].

(** A record without RP photometry, and one whose G entry is a tuple. *)
Definition no_rp_record : gmap string pyobj :=
  {[ "G" := NdArray [6; 0.0005]; "BP" := NdArray [6.25; 0.001] ]}%string.

Definition tuple_record : gmap string pyobj :=
  <["G" := Tuple [6; 0.0005]]> Sample.record.

(** A resampled chain of two points, and a posterior sample set. *)
Definition chain : Array2 :=
  {| ncols := 8; rows := [Sample.theta0; Sample.theta_underflow] |}.

Definition posterior : DataFrame :=
  {[ "eep" := [350; 355]; "age" := [9.5; 9.75]; "feh" := [0; 0.25];
     "distance" := [100; 125]; "AV" := [0.1; 0.2] ]}%string.

End Cases.

(* ===================================================================== *)
(** ** Facts on binary64 comparisons, clipping and division              *)
(* ===================================================================== *)

Section SpecFloatFacts.

Lemma SFcompare_refl (x : spec_float) :
  x <> S754_nan -> SFcompare x x = Some Eq.
Proof.
  destruct x as [s | s | | s m e]; simpl; try congruence.
  - intros _. destruct s; reflexivity.
  - intros _. rewrite Z.compare_refl, Pos.compare_cont_refl.
    destruct s; reflexivity.
Qed.

Lemma SFcompare_antisym (x y : spec_float) :
  SFcompare y x = option_map CompOpp (SFcompare x y).
Proof.
  destruct x as [sx | sx | | sx mx ex], y as [sy | sy | | sy my ey];
    simpl; try reflexivity;
    try (destruct sx; reflexivity); try (destruct sy; reflexivity);
    try (destruct sx, sy; reflexivity).
  f_equal.
  assert (Hm : Pos.compare_cont Eq my mx
               = CompOpp (Pos.compare_cont Eq mx my))
    by (symmetry; apply (Pos.compare_cont_antisym mx my Eq)).
  assert (He : (ey ?= ex)%Z = CompOpp (ex ?= ey)%Z)
    by apply Z.compare_antisym.
  change (PosDef.Pos.compare_cont Eq my mx)
    with (Pos.compare_cont Eq my mx).
  change (PosDef.Pos.compare_cont Eq mx my)
    with (Pos.compare_cont Eq mx my).
  rewrite Hm, He.
  destruct sx, sy, (ex ?= ey)%Z, (Pos.compare_cont Eq mx my); reflexivity.
Qed.

Variables prec emax : Z.

Lemma shr_1_nonneg (mrs : shr_record) :
  (0 <= shr_m mrs)%Z -> (0 <= shr_m (shr_1 mrs))%Z.
Proof.
  destruct mrs as [m r s]; simpl.
  destruct m as [|p|p]; simpl; [lia | | lia].
  intros _. destruct p; simpl; lia.
Qed.

Lemma iter_shr_1_nonneg (p : positive) (mrs : shr_record) :
  (0 <= shr_m mrs)%Z -> (0 <= shr_m (@SpecFloat.iter_pos shr_record shr_1 p mrs))%Z.
Proof.
  revert mrs. induction p as [p IH | p IH |]; intros mrs H; simpl.
  - apply IH, IH, shr_1_nonneg, H.
  - apply IH, IH, H.
  - apply shr_1_nonneg, H.
Qed.

Lemma shr_record_of_loc_m (m : Z) (l : location) :
  shr_m (shr_record_of_loc m l) = m.
Proof. destruct l as [|[]]; reflexivity. Qed.

Lemma shr_fexp_nonneg (m e : Z) (l : location) :
  (0 <= m)%Z -> (0 <= shr_m (fst (shr_fexp prec emax m e l)))%Z.
Proof.
  intros H. unfold shr_fexp, shr.
  destruct (_ - e)%Z; simpl; rewrite ?shr_record_of_loc_m; try assumption.
  apply iter_shr_1_nonneg. rewrite shr_record_of_loc_m. assumption.
Qed.

Lemma round_nearest_even_nonneg (m : Z) (l : location) :
  (0 <= m)%Z -> (0 <= round_nearest_even m l)%Z.
Proof.
  intros H. destruct l as [|[]]; simpl; try lia.
  destruct (Z.even m); lia.
Qed.

(** Rounding a non-negative mantissa never produces a NaN. *)
Lemma binary_round_aux_not_nan (s : bool) (m e : Z) (l : location) :
  (0 <= m)%Z -> binary_round_aux prec emax s m e l <> S754_nan.
Proof.
  intros H. unfold binary_round_aux.
  pose proof (shr_fexp_nonneg m e l H) as H1.
  destruct (shr_fexp prec emax m e l) as [mrs' e']. simpl in H1.
  pose proof (shr_fexp_nonneg _ e' loc_Exact
                (round_nearest_even_nonneg _ (loc_of_shr_record mrs') H1))
    as H2.
  destruct (shr_fexp prec emax _ e' loc_Exact) as [mrs'' e''].
  simpl in H2.
  destruct (shr_m mrs'') as [|p|p]; [discriminate | | lia].
  destruct (Z.leb e'' _); discriminate.
Qed.

Lemma SFdiv_finite_not_nan (sx sy : bool) (mx my : positive) (ex ey : Z) :
  SFdiv prec emax (S754_finite sx mx ex) (S754_finite sy my ey)
  <> S754_nan.
Proof.
  unfold SFdiv, SFdiv_core_binary.
  set (s := (ex - ey - _)%Z).
  set (m' := match s with
             | Zpos _ => Z.shiftl (Zpos mx) s
             | Z0 => Zpos mx
             | Zneg _ => 0%Z
             end).
  assert (Hm : (0 <= m')%Z).
  { unfold m'. destruct s; try lia. apply Z.shiftl_nonneg. lia. }
  pose proof (Z_div_mod m' (Zpos my) eq_refl) as Hd.
  destruct (Z.div_eucl m' (Zpos my)) as [q r].
  apply binary_round_aux_not_nan. nia.
Qed.

End SpecFloatFacts.

Section FloatFacts.

Lemma is_nan_Prim2SF (x : float) :
  is_nan x = true <-> Prim2SF x = S754_nan.
Proof.
  unfold is_nan. rewrite FloatAxioms.eqb_spec. unfold SFeqb.
  destruct (Prim2SF x) as [s | s | | s m e] eqn:E;
    try (rewrite SFcompare_refl by discriminate; simpl;
         split; discriminate).
  simpl. tauto.
Qed.

Lemma is_finite_Prim2SF (x : float) :
  is_finite x = true <-> finite_SF (Prim2SF x).
Proof.
  unfold is_finite, is_nan, is_infinity.
  rewrite !FloatAxioms.eqb_spec, abs_spec.
  replace (Prim2SF infinity) with (S754_infinity false) by reflexivity.
  destruct (Prim2SF x) as [s | s | | s m e]; simpl.
  - split; [constructor | reflexivity].
  - split; [destruct s; discriminate | inversion 1].
  - split; [discriminate | inversion 1].
  - unfold SFeqb. rewrite SFcompare_refl by discriminate. simpl.
    split; [constructor | reflexivity].
Qed.

Lemma is_finite_not_nan (x : float) :
  is_finite x = true -> is_nan x = false.
Proof.
  unfold is_finite. destruct (is_nan x); [discriminate | reflexivity].
Qed.

Lemma finite_ltb_infinity (x : float) :
  is_finite x = true -> (x <? infinity) = true.
Proof.
  rewrite is_finite_Prim2SF, FloatAxioms.ltb_spec.
  replace (Prim2SF infinity) with (S754_infinity false) by reflexivity.
  destruct 1; reflexivity.
Qed.

Lemma ltb_leb (x y : float) : (x <? y) = true -> (x <=? y) = true.
Proof.
  rewrite FloatAxioms.ltb_spec, FloatAxioms.leb_spec.
  unfold SFltb, SFleb.
  destruct (SFcompare _ _) as [[]|]; congruence.
Qed.

Lemma leb_refl (x : float) : is_nan x = false -> (x <=? x) = true.
Proof.
  intros H. rewrite FloatAxioms.leb_spec. unfold SFleb.
  rewrite SFcompare_refl; [reflexivity|].
  intros E. apply is_nan_Prim2SF in E. congruence.
Qed.

Lemma ltb_irrefl (x : float) : (x <? x) = false.
Proof.
  rewrite FloatAxioms.ltb_spec. unfold SFltb.
  destruct (Prim2SF x) eqn:E; try reflexivity;
    rewrite SFcompare_refl by discriminate; reflexivity.
Qed.

(** [x < y] fails exactly when [y <= x] or one of the two is a NaN. *)
Lemma ltb_false_iff (x y : float) :
  (x <? y) = negb ((y <=? x) || is_nan x || is_nan y).
Proof.
  rewrite FloatAxioms.ltb_spec, FloatAxioms.leb_spec.
  unfold SFltb, SFleb.
  rewrite (SFcompare_antisym (Prim2SF x) (Prim2SF y)).
  destruct (is_nan x) eqn:Hx.
  { apply is_nan_Prim2SF in Hx. rewrite Hx. reflexivity. }
  destruct (is_nan y) eqn:Hy.
  { apply is_nan_Prim2SF in Hy. rewrite Hy.
    destruct (Prim2SF x); reflexivity. }
  destruct (SFcompare (Prim2SF x) (Prim2SF y)) as [[]|] eqn:E;
    try reflexivity.
  exfalso.
  destruct (Prim2SF x) eqn:Ex, (Prim2SF y) eqn:Ey; simpl in E;
    try discriminate.
  - apply is_nan_Prim2SF in Ey. congruence.
  - apply is_nan_Prim2SF in Ey. congruence.
  - apply is_nan_Prim2SF in Ex. congruence.
  - apply is_nan_Prim2SF in Ex. congruence.
  - apply is_nan_Prim2SF in Ex. congruence.
  - apply is_nan_Prim2SF in Ex. congruence.
  - apply is_nan_Prim2SF in Ey. congruence.
Qed.

(** A finite total passes the clip as the larger of itself and the
    floor, and stays finite. *)
Lemma clip_finite (x lo : float) :
  is_finite x = true -> is_finite lo = true ->
  Np.clip x lo Np.inf = (if lo <? x then x else lo)
  /\ is_finite (Np.clip x lo Np.inf) = true
  /\ (lo <=? Np.clip x lo Np.inf) = true.
Proof.
  intros Hx Hlo. unfold Np.clip, Np.clip_max, Np.inf.
  rewrite (is_finite_not_nan x Hx).
  assert (Hm : is_finite (if lo <? x then x else lo) = true)
    by (destruct (lo <? x); assumption).
  unfold Np.clip_min.
  rewrite (is_finite_not_nan _ Hm), (finite_ltb_infinity _ Hm).
  split; [reflexivity|]. split; [assumption|].
  destruct (lo <? x) eqn:E.
  - apply ltb_leb, E.
  - apply leb_refl, is_finite_not_nan, Hlo.
Qed.

(** Clipping anything but a NaN to [[lo, inf)] gives at least [lo]. *)
Lemma clip_at_least (x lo : float) :
  is_nan x = false -> is_finite lo = true ->
  (lo <=? Np.clip x lo Np.inf) = true.
Proof.
  intros Hx Hlo. unfold Np.clip, Np.clip_max, Np.clip_min, Np.inf.
  rewrite Hx.
  pose proof (is_finite_not_nan lo Hlo) as Hn.
  destruct (lo <? x) eqn:E.
  - rewrite Hx. destruct (x <? infinity).
    + apply ltb_leb, E.
    + apply ltb_leb, finite_ltb_infinity, Hlo.
  - rewrite Hn, (finite_ltb_infinity lo Hlo). apply leb_refl, Hn.
Qed.

(** The quotient of two finite non-zero numbers is not a NaN. *)
Lemma div_pos_not_nan (x y : float) :
  is_finite x = true -> (0 <? x) = true ->
  is_finite y = true -> (0 <? y) = true ->
  is_nan (x / y) = false.
Proof.
  rewrite !is_finite_Prim2SF, !FloatAxioms.ltb_spec.
  replace (Prim2SF 0) with (S754_zero false) by reflexivity.
  intros Fx Px Fy Py.
  destruct (is_nan (x / y)) eqn:E; [|reflexivity].
  apply is_nan_Prim2SF in E. rewrite div_spec in E.
  destruct Fx as [sx | sx mx ex]; [discriminate|].
  destruct Fy as [sy | sy my ey]; [discriminate|].
  exfalso. exact (SFdiv_finite_not_nan _ _ _ _ _ _ _ _ E).
Qed.

End FloatFacts.

(* ===================================================================== *)
(** ** The catalog lookup                                                *)
(* ===================================================================== *)

Section LookupFacts.
Variable libm : Np.Libm.

Lemma band_entry_inv (r : Row) (params params' : gmap string pyobj)
    (band : string) :
  band_entry libm r params band = Ok params' ->
  exists mag err,
    params' = <[band := Tuple [mag; err]]> params
    /\ Np.isfinite mag = true /\ Np.isfinite err = true.
Proof.
  unfold band_entry, rbind, Np.py_truediv.
  destruct (row_getitem r _) as [mag|]; [|discriminate].
  destruct (row_getitem r _) as [err|]; [|discriminate].
  destruct (row_getitem r _) as [flux|]; [|discriminate].
  destruct (flux =? 0); [discriminate|].
  destruct (Np.isfinite mag) eqn:Hm; [|discriminate].
  destruct (Np.isfinite (err / flux * mag_factor libm)) eqn:He;
    [|discriminate].
  simpl. intros [= <-]. eauto.
Qed.

Lemma bands_inv (r : Row) (bp : gmap string pyobj) :
  for_each ["G"; "BP"; "RP"]%string ∅ (band_entry libm r) = Ok bp ->
  exists vg vb vr : pyobj,
    bp = <["RP" := vr]> (<["BP" := vb]> (<["G" := vg]> ∅)).
Proof.
  simpl. unfold rbind at 1.
  destruct (band_entry libm r ∅ "G") as [p1|] eqn:E1; [|discriminate].
  unfold rbind at 1.
  destruct (band_entry libm r p1 "BP") as [p2|] eqn:E2; [|discriminate].
  unfold rbind at 1.
  destruct (band_entry libm r p2 "RP") as [p3|] eqn:E3; [|discriminate].
  intros [= <-].
  apply band_entry_inv in E1 as (? & ? & -> & _).
  apply band_entry_inv in E2 as (? & ? & -> & _).
  apply band_entry_inv in E3 as (? & ? & -> & _).
  eauto.
Qed.

(** The test of line 79 reads back the corrected parallax. *)
Lemma computed_record_unfold (r : Row) :
  computed_record libm r =
    let plx := corrected_parallax r in
    let plx_err := corrected_parallax_error libm r in
    if negb (Np.isfinite plx && Np.isfinite plx_err)
    then Raise (ValueError "non finite parallax")
    else rbind (for_each ["G"; "BP"; "RP"]%string ∅ (band_entry libm r))
           (fun bp =>
              let params :=
                np_array <$> <["parallax" := Tuple [plx; plx_err]]> bp in
              Ok (if 0 <? plx
                  then <["max_distance" :=
                           Float64 (Np.clip (2000 / plx) 100 Np.inf)]> params
                  else params)).
Proof.
  unfold computed_record. cbv zeta.
  destruct (negb _); [reflexivity|].
  destruct (for_each _ _ _) as [bp|]; [|reflexivity].
  unfold rbind, dict_getitem.
  rewrite lookup_fmap, lookup_insert_eq. reflexivity.
Qed.

Lemma computed_record_inv (r : Row) (computed : gmap string pyobj) :
  computed_record libm r = Ok computed ->
  Np.isfinite (corrected_parallax r) = true
  /\ Np.isfinite (corrected_parallax_error libm r) = true
  /\ computed !! "parallax"
     = Some (NdArray [corrected_parallax r;
                      corrected_parallax_error libm r])
  /\ computed !! "max_distance"
     = (if 0 <? corrected_parallax r
        then Some (Float64 (Np.clip (2000 / corrected_parallax r)
                                    100 Np.inf))
        else None).
Proof.
  rewrite computed_record_unfold. cbv zeta.
  destruct (Np.isfinite (corrected_parallax r)); [|discriminate].
  destruct (Np.isfinite (corrected_parallax_error libm r));
    [|discriminate].
  simpl negb. cbv iota.
  destruct (for_each _ _ _) as [bp|] eqn:E; [|discriminate].
  apply bands_inv in E as (vg & vb & vr & ->).
  unfold rbind. intros [= <-].
  split; [reflexivity|]. split; [reflexivity|].
  destruct (0 <? corrected_parallax r).
  - split.
    + rewrite lookup_insert_ne by discriminate.
      rewrite lookup_fmap, lookup_insert_eq. reflexivity.
    + rewrite lookup_insert_eq. reflexivity.
  - split.
    + rewrite lookup_fmap, lookup_insert_eq. reflexivity.
    + rewrite lookup_fmap.
      rewrite !lookup_insert_ne by discriminate.
      reflexivity.
Qed.

Variable gaia : Gaia.

Lemma get_gaia_data_inv (coord : SkyCoord) (approx_mag : option float)
    (radius : option Quantity) (mag_tol : float)
    (kwargs rec : gmap string pyobj) :
  get_gaia_data libm gaia coord approx_mag radius mag_tol kwargs = Ok rec ->
  exists r computed,
    head (candidates gaia coord approx_mag radius mag_tol) = Some r
    /\ computed_record libm r = Ok computed
    /\ rec = kwargs ∪ computed.
Proof.
  unfold get_gaia_data.
  destruct (candidates _ _ _ _ _) as [|r rest]; [discriminate|].
  unfold rbind.
  destruct (computed_record libm r) as [computed|] eqn:E; [|discriminate].
  intros [= <-]. exists r, computed. auto.
Qed.

(** A flux of zero in the first band stops the lookup with Python's
    error for a division by zero. *)
Lemma zero_g_flux_raises (coord : SkyCoord) (approx_mag : option float)
    (radius : option Quantity) (mag_tol : float)
    (kwargs : gmap string pyobj) (r : Row) :
  head (candidates gaia coord approx_mag radius mag_tol) = Some r ->
  Np.isfinite (corrected_parallax r) = true ->
  Np.isfinite (corrected_parallax_error libm r) = true ->
  (phot_g_mean_flux r =? 0) = true ->
  get_gaia_data libm gaia coord approx_mag radius mag_tol kwargs
  = Raise ZeroDivisionError.
Proof.
  intros Hr Hp He Hz. unfold get_gaia_data.
  destruct (candidates _ _ _ _ _) as [|r' rest]; [discriminate|].
  injection Hr as ->.
  rewrite computed_record_unfold. cbv zeta. rewrite Hp, He.
  simpl. unfold band_entry at 1. simpl. unfold Np.py_truediv.
  rewrite Hz. reflexivity.
Qed.

End LookupFacts.

(** One band of the loop, when its flux is not zero and when it is. *)
Lemma band_entry_eval (libm : Np.Libm) (r : Row) (params : gmap string pyobj)
    (band : string) (mag err flux : float) :
  row_getitem r ("phot_" ++ lower band ++ "_mean_mag") = Ok mag ->
  row_getitem r ("phot_" ++ lower band ++ "_mean_flux_error") = Ok err ->
  row_getitem r ("phot_" ++ lower band ++ "_mean_flux") = Ok flux ->
  (flux =? 0) = false ->
  band_entry libm r params band
  = if Np.isfinite mag && Np.isfinite (propagated_error libm err flux)
    then Ok (<[band := Tuple [mag; propagated_error libm err flux]]> params)
    else Raise (ValueError "non finite params").
Proof.
  intros Hm He Hf Hz. unfold band_entry, rbind, Np.py_truediv.
  rewrite Hm, He, Hf, Hz. unfold propagated_error.
  destruct (Np.isfinite mag && _); reflexivity.
Qed.

Lemma band_entry_zero (libm : Np.Libm) (r : Row) (params : gmap string pyobj)
    (band : string) (mag err flux : float) :
  row_getitem r ("phot_" ++ lower band ++ "_mean_mag") = Ok mag ->
  row_getitem r ("phot_" ++ lower band ++ "_mean_flux_error") = Ok err ->
  row_getitem r ("phot_" ++ lower band ++ "_mean_flux") = Ok flux ->
  (flux =? 0) = true ->
  band_entry libm r params band = Raise ZeroDivisionError.
Proof.
  intros Hm He Hf Hz. unfold band_entry, rbind, Np.py_truediv.
  rewrite Hm, He, Hf, Hz. reflexivity.
Qed.

(** How a lookup ends: without a candidate, on a non-finite corrected
    parallax, on a band whose flux is zero, on a band whose magnitude or
    propagated error is not finite (the bands are visited in the order G,
    BP, RP), or with the record merged with the extra fields. *)
Lemma lookup_outcomes (libm : Np.Libm) (gaia : Gaia) (coord : SkyCoord)
    (approx_mag : option float) (radius : option Quantity) (mag_tol : float)
    (kwargs : gmap string pyobj) :
  get_gaia_data libm gaia coord approx_mag radius mag_tol kwargs
  = match head (candidates gaia coord approx_mag radius mag_tol) with
    | None => Raise (ValueError "no matches found")
    | Some r =>
        if negb (Np.isfinite (corrected_parallax r)
                 && Np.isfinite (corrected_parallax_error libm r))
        then Raise (ValueError "non finite parallax")
        else if (phot_g_mean_flux r =? 0)
                || (Np.isfinite (phot_g_mean_mag r)
                    && Np.isfinite
                         (propagated_error libm (phot_g_mean_flux_error r)
                            (phot_g_mean_flux r)))
                   && ((phot_bp_mean_flux r =? 0)
                       || (Np.isfinite (phot_bp_mean_mag r)
                           && Np.isfinite
                                (propagated_error libm
                                   (phot_bp_mean_flux_error r)
                                   (phot_bp_mean_flux r)))
                          && (phot_rp_mean_flux r =? 0))
        then Raise ZeroDivisionError
        else if negb (photometry_finite libm r)
        then Raise (ValueError "non finite params")
        else Ok (kwargs ∪ expected_record libm r)
    end.
Proof.
  unfold get_gaia_data.
  destruct (candidates _ _ _ _ _) as [|r rest]; [reflexivity|].
  cbn [head]. rewrite computed_record_unfold. cbv zeta.
  destruct (negb _); [reflexivity|].
  cbn [for_each]. unfold photometry_finite.
  destruct (phot_g_mean_flux r =? 0) eqn:Zg.
  { rewrite (band_entry_zero libm r ∅ "G" _ _ _ eq_refl eq_refl eq_refl Zg).
    reflexivity. }
  rewrite (band_entry_eval libm r ∅ "G" _ _ _ eq_refl eq_refl eq_refl Zg).
  destruct (Np.isfinite (phot_g_mean_mag r) && _); [|reflexivity].
  cbn [orb andb rbind].
  destruct (phot_bp_mean_flux r =? 0) eqn:Zb.
  { rewrite (band_entry_zero libm r _ "BP" _ _ _ eq_refl eq_refl eq_refl Zb).
    reflexivity. }
  rewrite (band_entry_eval libm r _ "BP" _ _ _ eq_refl eq_refl eq_refl Zb).
  destruct (Np.isfinite (phot_bp_mean_mag r) && _); [|reflexivity].
  cbn [orb andb rbind].
  destruct (phot_rp_mean_flux r =? 0) eqn:Zr.
  { rewrite (band_entry_zero libm r _ "RP" _ _ _ eq_refl eq_refl eq_refl Zr).
    reflexivity. }
  rewrite (band_entry_eval libm r _ "RP" _ _ _ eq_refl eq_refl eq_refl Zr).
  destruct (Np.isfinite (phot_rp_mean_mag r) && _); [|reflexivity].
  cbn [orb andb negb rbind]. unfold expected_record.
  rewrite !fmap_insert, fmap_empty. reflexivity.
Qed.

(** C4.  The lookup has a failure beside the three the claim lists: for
    the row [Sample.no_bp_flux], whose BP flux is zero and whose other
    columns are finite, the division of line 68 raises ZeroDivisionError
    where the claim has a non-finite-photometry error (the propagated
    error, a non-zero number over zero, is not finite). *)
Theorem C4_zero_flux_raises_ZeroDivisionError :
  get_gaia_data SoftLibm.libm (Sample.catalog [Sample.no_bp_flux])
    Sample.coord None None 1 ∅
  = Raise ZeroDivisionError.
Proof. vm_compute. reflexivity. Qed.

(** C5 as stated fails: called with an extra field named parallax, the
    lookup returns the caller's value under "parallax" and not the
    corrected pair of the row (line 82 writes the extra fields last). *)
Lemma C5_extra_parallax_replaces :
  get_gaia_data SoftLibm.libm (Sample.catalog [Sample.star]) Sample.coord
    None None 1 {[ "parallax" := Float64 0 ]}
  = Ok (<["parallax" := Float64 0]> Sample.star_record)
  /\ (<["parallax" := Float64 0]> Sample.star_record) !! "parallax"
     = Some (Float64 0)
  /\ Float64 0
     <> NdArray [parallax Sample.star + 0.082;
                 sqrt (SoftLibm.pow (parallax_error Sample.star) 2
                       + SoftLibm.pow 0.033 2)].
Proof.
  split; [vm_compute; reflexivity|].
  split; [apply lookup_insert_eq | discriminate].
Qed.

(** C5, amended.  A lookup that returns, called without an extra field
    named parallax, returns under "parallax" the pair (catalog parallax + 0.082,
    sqrt(catalog_parallax_error^2 + 0.033^2)) of the selected row; the pair
    is a function of these two columns, so two lookups whose selected rows
    agree on them return the same pair. *)
Theorem C5_parallax_correction (libm : Np.Libm) (gaia gaia' : Gaia)
    (coord coord' : SkyCoord) (approx_mag approx_mag' : option float)
    (radius radius' : option Quantity) (mag_tol mag_tol' : float)
    (kwargs kwargs' rec rec' : gmap string pyobj) :
  get_gaia_data libm gaia coord approx_mag radius mag_tol kwargs = Ok rec ->
  kwargs !! "parallax" = None ->
  exists r,
    head (candidates gaia coord approx_mag radius mag_tol) = Some r
    /\ rec !! "parallax"
       = Some (NdArray [parallax r + 0.082;
                        sqrt (Np.pow libm (parallax_error r) 2
                              + Np.pow libm 0.033 2)])
    /\ (get_gaia_data libm gaia' coord' approx_mag' radius' mag_tol' kwargs'
        = Ok rec' ->
        kwargs' !! "parallax" = None ->
        (parallax <$> head (candidates gaia' coord' approx_mag' radius'
                              mag_tol')) = Some (parallax r) ->
        (parallax_error <$> head (candidates gaia' coord' approx_mag' radius'
                                    mag_tol')) = Some (parallax_error r) ->
        rec' !! "parallax" = rec !! "parallax").
Proof.
  intros H Hk.
  apply get_gaia_data_inv in H as (r & computed & Hr & Hc & ->).
  apply computed_record_inv in Hc as (_ & _ & Hp & _).
  exists r. split; [exact Hr|].
  assert (Hrec : (kwargs ∪ computed) !! "parallax"
                 = Some (NdArray [parallax r + 0.082;
                                  sqrt (Np.pow libm (parallax_error r) 2
                                        + Np.pow libm 0.033 2)])).
  { rewrite lookup_union_r by exact Hk. exact Hp. }
  split; [exact Hrec|].
  intros H' Hk' Hpar Herr.
  apply get_gaia_data_inv in H' as (r' & computed' & Hr' & Hc' & ->).
  apply computed_record_inv in Hc' as (_ & _ & Hp' & _).
  rewrite Hr' in Hpar, Herr. simpl in Hpar, Herr.
  injection Hpar as Hpar. injection Herr as Herr.
  rewrite Hrec, lookup_union_r by exact Hk'.
  rewrite Hp'. unfold corrected_parallax, corrected_parallax_error.
  rewrite Hpar, Herr. reflexivity.
Qed.

Lemma C5_parallax_correction_witness :
  get_gaia_data SoftLibm.libm (Sample.catalog [Sample.star]) Sample.coord
    None None 1 ∅ = Ok Sample.star_record
  /\ (∅ : gmap string pyobj) !! "parallax" = None
  /\ Sample.star_record !! "parallax"
     = Some (NdArray [parallax Sample.star + 0.082;
                      sqrt (SoftLibm.pow (parallax_error Sample.star) 2
                            + SoftLibm.pow 0.033 2)]).
Proof.
  assert (H : get_gaia_data SoftLibm.libm (Sample.catalog [Sample.star])
                Sample.coord None None 1 ∅ = Ok Sample.star_record)
    by (vm_compute; reflexivity).
  split; [exact H|]. split; [apply lookup_empty|].
  destruct (C5_parallax_correction SoftLibm.libm
              (Sample.catalog [Sample.star]) (Sample.catalog [Sample.star])
              Sample.coord Sample.coord None None None None 1 1 ∅ ∅
              Sample.star_record ∅ H (lookup_empty _))
    as (r & Hr & Hp & _).
  injection Hr as <-. exact Hp.
Defined.

(** C6 as stated fails: called with the extra field max_distance = 5, the
    lookup returns a record with that field for [Sample.far_star], whose
    corrected parallax is not positive, and for [Sample.star] it returns
    the value 5, which is below 100. *)
Lemma C6_extra_max_distance_replaces :
  (0 <? corrected_parallax Sample.far_star) = false
  /\ get_gaia_data SoftLibm.libm (Sample.catalog [Sample.far_star])
       Sample.coord None None 1 {[ "max_distance" := Float64 5 ]}
     = Ok ({[ "max_distance" := Float64 5 ]}
           ∪ expected_record SoftLibm.libm Sample.far_star)
  /\ ({[ "max_distance" := Float64 5 ]}
      ∪ expected_record SoftLibm.libm Sample.far_star) !! "max_distance"
     = Some (Float64 5)
  /\ get_gaia_data SoftLibm.libm (Sample.catalog [Sample.star])
       Sample.coord None None 1 {[ "max_distance" := Float64 5 ]}
     = Ok (<["max_distance" := Float64 5]> Sample.star_record)
  /\ (<["max_distance" := Float64 5]> Sample.star_record) !! "max_distance"
     = Some (Float64 5)
  /\ (100 <=? 5) = false.
Proof.
  split; [vm_compute; reflexivity|].
  split; [vm_compute; reflexivity|].
  split.
  { apply lookup_union_Some_l. apply lookup_singleton_eq. }
  split; [vm_compute; reflexivity|].
  split; [apply lookup_insert_eq | reflexivity].
Qed.

(** C6, amended.  A lookup that returns, called without an extra field
    named max_distance, returns a record with a max_distance field exactly
    when
    the corrected parallax of the selected row is strictly positive; the
    field is then clip(2000 / corrected parallax, 100, inf), which is at
    least 100. *)
Theorem C6_max_distance (libm : Np.Libm) (gaia : Gaia) (coord : SkyCoord)
    (approx_mag : option float) (radius : option Quantity) (mag_tol : float)
    (kwargs rec : gmap string pyobj) :
  get_gaia_data libm gaia coord approx_mag radius mag_tol kwargs = Ok rec ->
  kwargs !! "max_distance" = None ->
  exists r,
    head (candidates gaia coord approx_mag radius mag_tol) = Some r
    /\ rec !! "max_distance"
       = (if 0 <? parallax r + 0.082
          then Some (Float64 (Np.clip (2000 / (parallax r + 0.082))
                                      100 Np.inf))
          else None)
    /\ (if 0 <? parallax r + 0.082
        then 100 <=? Np.clip (2000 / (parallax r + 0.082)) 100 Np.inf
        else true) = true.
Proof.
  intros H Hk.
  apply get_gaia_data_inv in H as (r & computed & Hr & Hc & ->).
  apply computed_record_inv in Hc as (Hfin & _ & _ & Hm).
  exists r. split; [exact Hr|]. split.
  - rewrite lookup_union_r by exact Hk. exact Hm.
  - unfold corrected_parallax in Hfin.
    destruct (0 <? parallax r + 0.082) eqn:Hpos; [|reflexivity].
    apply clip_at_least; [|reflexivity].
    apply div_pos_not_nan; try reflexivity; assumption.
Qed.

Lemma C6_max_distance_witness :
  get_gaia_data SoftLibm.libm (Sample.catalog [Sample.star]) Sample.coord
    None None 1 ∅ = Ok Sample.star_record
  /\ (∅ : gmap string pyobj) !! "max_distance" = None
  /\ exists r,
       head (candidates (Sample.catalog [Sample.star]) Sample.coord
               None None 1) = Some r
       /\ Sample.star_record !! "max_distance"
          = (if 0 <? parallax r + 0.082
             then Some (Float64 (Np.clip (2000 / (parallax r + 0.082))
                                         100 Np.inf))
             else None)
       /\ (if 0 <? parallax r + 0.082
           then 100 <=? Np.clip (2000 / (parallax r + 0.082)) 100 Np.inf
           else true) = true.
Proof.
  assert (H : get_gaia_data SoftLibm.libm (Sample.catalog [Sample.star])
                Sample.coord None None 1 ∅ = Ok Sample.star_record)
    by (vm_compute; reflexivity).
  split; [exact H|]. split; [apply lookup_empty|].
  exact (C6_max_distance SoftLibm.libm (Sample.catalog [Sample.star])
           Sample.coord None None 1 ∅ Sample.star_record H (lookup_empty _)).
Defined.

(** Comparisons of IEEE 754 values, in any format. *)
Lemma SFltb_false_iff (x y : spec_float) :
  SFltb x y = negb (SFleb y x || F32.is_nan x || F32.is_nan y).
Proof.
  unfold SFltb, SFleb. rewrite (SFcompare_antisym x y).
  destruct (SFcompare x y) as [[]|] eqn:E;
    destruct x as [sx | sx | | sx mx ex], y as [sy | sy | | sy my ey];
    simpl in E; try discriminate E; reflexivity.
Qed.

Lemma SFltb_irrefl (x : spec_float) : SFltb x x = false.
Proof.
  unfold SFltb. destruct x as [s | s | | s m e]; try reflexivity.
  - destruct s; reflexivity.
  - rewrite SFcompare_refl by discriminate. reflexivity.
Qed.

(** The cut is made in single precision: a star of G magnitude
    float32(6.1) differs from the approximate magnitude 5.1 by less than
    1 in double precision and by exactly 1 in single precision, and it is
    cut at the tolerance 1. *)
Lemma mag_cut_in_single_precision :
  (abs (phot_g_mean_mag Cases.single_precision_star - 5.1) <? 1) = true
  /\ mag_diff 5.1 Cases.single_precision_star = F32.of_float64 1
  /\ mag_mask 5.1 1 Cases.single_precision_star = false.
Proof. repeat split; vm_compute; reflexivity. Qed.

(** C7 as stated fails: the star of magnitude 6 differs from the
    approximate magnitude 5 by exactly the tolerance 1, which is not more
    than the tolerance, and it is discarded (the lookup then finds no
    match). *)
Lemma C7_tie_is_discarded :
  mag_diff 5 Sample.star = F32.of_float64 1
  /\ F32.ltb (F32.of_float64 1) (mag_diff 5 Sample.star) = false
  /\ candidates (Sample.catalog [Sample.star]) Sample.coord (Some 5) None 1
     = []
  /\ get_gaia_data SoftLibm.libm (Sample.catalog [Sample.star]) Sample.coord
       (Some 5) None 1 ∅
     = Raise (ValueError "no matches found").
Proof. repeat split; vm_compute; reflexivity. Qed.

(** C7, amended.  With an approximate magnitude, a candidate of the cone
    search is kept exactly when the absolute difference between its G
    magnitude and the approximate magnitude, taken in the single precision
    of the magnitude column, is strictly less than the tolerance rounded
    to that precision; so it is discarded exactly when the difference is
    greater than or equal to the tolerance, or the difference or the
    tolerance is a NaN, and a candidate whose difference equals the
    tolerance is discarded. *)
Theorem C7_candidate_kept_iff (gaia : Gaia) (coord : SkyCoord)
    (approx_mag : float) (radius : option Quantity) (mag_tol : float)
    (r : Row) :
  (In r (candidates gaia coord (Some approx_mag) radius mag_tol)
   <-> In r (cone_search gaia coord (default default_radius radius))
       /\ F32.ltb (mag_diff approx_mag r) (F32.of_float64 mag_tol) = true)
  /\ mag_mask approx_mag mag_tol r
     = negb (F32.leb (F32.of_float64 mag_tol) (mag_diff approx_mag r)
             || F32.is_nan (mag_diff approx_mag r)
             || F32.is_nan (F32.of_float64 mag_tol))
  /\ (F32.of_float64 mag_tol = mag_diff approx_mag r ->
      mag_mask approx_mag mag_tol r = false).
Proof.
  split; [|split].
  - unfold candidates, select_candidates. rewrite List.filter_In.
    reflexivity.
  - unfold mag_mask, F32.ltb, F32.leb. apply SFltb_false_iff.
  - intros H. unfold mag_mask, F32.ltb. rewrite H. apply SFltb_irrefl.
Qed.

(** C8 as stated fails: an extra keyword field named G replaces the
    computed G pair in the returned record. *)
Lemma C8_extra_field_replaces_computed :
  computed_record SoftLibm.libm Sample.star = Ok Sample.star_record
  /\ get_gaia_data SoftLibm.libm (Sample.catalog [Sample.star]) Sample.coord
       None None 1 {[ "G" := Float64 0 ]}
     = Ok (<["G" := Float64 0]> Sample.star_record)
  /\ Sample.star_record !! "G"
     = Some (NdArray [6; 40 / 80000 * (2.5 / SoftLibm.log 10)])
  /\ (<["G" := Float64 0]> Sample.star_record) !! "G" = Some (Float64 0)
  /\ (<["G" := Float64 0]> Sample.star_record) !! "G"
     <> Sample.star_record !! "G".
Proof.
  assert (HG : Sample.star_record !! "G"
               = Some (NdArray [6; 40 / 80000 * (2.5 / SoftLibm.log 10)]))
    by (vm_compute; reflexivity).
  split; [vm_compute; reflexivity|].
  split; [vm_compute; reflexivity|].
  split; [exact HG|].
  split; [apply lookup_insert_eq|].
  rewrite lookup_insert_eq, HG. discriminate.
Qed.

(** C8, amended.  The returned record is the computed record updated with
    the extra keyword fields: a key that is not an extra field keeps its
    computed value, and on a key that is also an extra field the extra
    field's value is the one returned. *)
Theorem C8_merge_last_write_wins (libm : Np.Libm) (gaia : Gaia)
    (coord : SkyCoord) (approx_mag : option float)
    (radius : option Quantity) (mag_tol : float)
    (kwargs rec : gmap string pyobj) :
  get_gaia_data libm gaia coord approx_mag radius mag_tol kwargs = Ok rec ->
  exists r computed,
    head (candidates gaia coord approx_mag radius mag_tol) = Some r
    /\ computed_record libm r = Ok computed
    /\ forall k : string,
         rec !! k = match kwargs !! k with
                    | Some v => Some v
                    | None => computed !! k
                    end.
Proof.
  intros H.
  apply get_gaia_data_inv in H as (r & computed & Hr & Hc & ->).
  exists r, computed. split; [exact Hr|]. split; [exact Hc|].
  intros k. destruct (kwargs !! k) as [v|] eqn:E.
  - apply lookup_union_Some_l. exact E.
  - apply lookup_union_r. exact E.
Qed.

Lemma C8_merge_last_write_wins_witness :
  get_gaia_data SoftLibm.libm (Sample.catalog [Sample.star]) Sample.coord
    None None 1 {[ "teff" := Float64 5800 ]}
  = Ok (<["teff" := Float64 5800]> Sample.star_record)
  /\ exists r computed,
       head (candidates (Sample.catalog [Sample.star]) Sample.coord
               None None 1) = Some r
       /\ computed_record SoftLibm.libm r = Ok computed
       /\ forall k : string,
            (<["teff" := Float64 5800]> Sample.star_record) !! k
            = match ({[ "teff" := Float64 5800 ]} : gmap string pyobj) !! k
              with
              | Some v => Some v
              | None => computed !! k
              end.
Proof.
  assert (H : get_gaia_data SoftLibm.libm (Sample.catalog [Sample.star])
                Sample.coord None None 1 {[ "teff" := Float64 5800 ]}
              = Ok (<["teff" := Float64 5800]> Sample.star_record))
    by (vm_compute; reflexivity).
  split; [exact H|].
  exact (C8_merge_last_write_wins SoftLibm.libm
           (Sample.catalog [Sample.star]) Sample.coord None None 1
           {[ "teff" := Float64 5800 ]} _ H).
Defined.

(* ===================================================================== *)
(** ** The log-likelihood closure                                        *)
(* ===================================================================== *)

Lemma with_heap_id (w : World) : with_heap (heap w) w = w.
Proof. destruct w; reflexivity. Qed.

Lemma writes_only_refl (l : loc) (w : World) : writes_only l w w.
Proof.
  rewrite <- (with_heap_id w) at 2. constructor. reflexivity.
Qed.

Lemma writes_only_trans (l : loc) (w1 w2 w3 : World) :
  writes_only l w1 w2 -> writes_only l w2 w3 -> writes_only l w1 w3.
Proof.
  intros [h2 H2] [h3 H3].
  change (with_heap h3 (with_heap h2 w1)) with (with_heap h3 w1).
  constructor. intros l' Hl. rewrite (H3 l' Hl). apply (H2 l' Hl).
Qed.

Lemma writes_only_insert (l : loc) (w : World) (d : gmap string pyobj) :
  writes_only l w (with_heap (<[l := d]> (heap w)) w).
Proof.
  constructor. intros l' Hl. apply lookup_insert_ne. congruence.
Qed.

Lemma writes_only_lookup (l l' : loc) (w w' : World) :
  writes_only l w w' -> l' <> l -> heap w' !! l' = heap w !! l'.
Proof. intros [h H] Hl. apply H, Hl. Qed.

Section MonadFacts.

Lemma bind_writes_only {A B} (l : loc) (c : M A) (k : A -> M B) :
  (forall w, writes_only l w (c w).2) ->
  (forall a w, writes_only l w (k a w).2) ->
  forall w, writes_only l w (bind c k w).2.
Proof.
  intros Hc Hk w. unfold bind. specialize (Hc w).
  destruct (c w) as [[a|e] w']; simpl in *.
  - eapply writes_only_trans; [exact Hc | apply Hk].
  - exact Hc.
Qed.

Lemma mfor_writes_only {A S} (l : loc) (body : S -> A -> M S)
    (xs : list A) :
  (forall s x w, writes_only l w (body s x w).2) ->
  forall s w, writes_only l w (mfor xs s body w).2.
Proof.
  intros Hbody. induction xs as [|x xs IH]; intros s w; simpl.
  - apply writes_only_refl.
  - apply bind_writes_only; [apply Hbody | apply IH].
Qed.

Lemma deref_writes_only (l l0 : loc) (w : World) :
  writes_only l w (deref l0 w).2.
Proof.
  unfold deref. destruct (heap w !! l0); apply writes_only_refl.
Qed.

Lemma lift_writes_only {A} (l : loc) (r : result A) (w : World) :
  writes_only l w (lift r w).2.
Proof. apply writes_only_refl. Qed.

Lemma ret_writes_only {A} (l : loc) (a : A) (w : World) :
  writes_only l w (ret a w).2.
Proof. apply writes_only_refl. Qed.

Lemma dict_setitem_writes_only (l : loc) (k : string) (v : pyobj)
    (w : World) :
  writes_only l w (dict_setitem l k v w).2.
Proof.
  unfold dict_setitem, bind, deref.
  destruct (heap w !! l); simpl.
  - apply writes_only_insert.
  - apply writes_only_refl.
Qed.

End MonadFacts.

Section LoglikeFacts.
Variable libm : Np.Libm.
Variable iso : Isochrones.
Variable mod_ : SingleStarModel.
Variable gaia_data : loc.

(** One evaluation writes to the model's dictionary only, whether it
    returns or raises. *)
Lemma loglike_band_writes_only (theta : list float) (ind0 : nat)
    (lp0 : float) (ik : nat * string) (w : World) :
  writes_only (kwargs mod_) w
    (loglike_band libm mod_ gaia_data theta ind0 lp0 ik w).2.
Proof.
  destruct ik as [i k]. unfold loglike_band.
  repeat (apply bind_writes_only; intros;
          try apply deref_writes_only; try apply lift_writes_only;
          try apply dict_setitem_writes_only).
Qed.

Lemma loglike_writes_only (theta : list float) (w : World) :
  writes_only (kwargs mod_) w (loglike libm iso mod_ gaia_data theta w).2.
Proof.
  unfold loglike.
  apply bind_writes_only;
    [intros; apply mfor_writes_only; intros;
     apply loglike_band_writes_only|].
  intros lp0 w1.
  apply bind_writes_only; [intros; apply deref_writes_only|].
  intros kw w2. destruct (Np.isfinite _); apply ret_writes_only.
Qed.

Lemma run_sampler_writes_only (p : SamplerRun) (w : World) :
  writes_only (kwargs mod_) w (run_sampler libm iso mod_ gaia_data p w).2.
Proof.
  revert w.
  induction p as [theta k IH | u k IH | r]; intros w; cbn [run_sampler].
  - apply bind_writes_only; [intros; apply loglike_writes_only|].
    intros v w'. apply (IH v).
  - apply (IH (prior_transform iso u)).
  - apply ret_writes_only.
Qed.

(** One band: the step of the loop on well-formed inputs. *)
Lemma loglike_band_run (theta : list float) (ind0 i : nat) (k : string)
    (lp0 m e t : float) (gd kw : gmap string pyobj) (w : World) :
  heap w !! gaia_data = Some gd ->
  heap w !! kwargs mod_ = Some kw ->
  band_pair gd k m e ->
  nth_error theta (ind0 + i) = Some t ->
  loglike_band libm mod_ gaia_data theta ind0 lp0 (i, k) w
  = (Ok (lp0 - 2 * Np.log libm (inflated_error libm e t)),
     with_heap (<[kwargs mod_ :=
                    <[k := Tuple [m; inflated_error libm e t]]> kw]>
                  (heap w)) w).
Proof.
  intros Hgd Hkw (v & Hv & Hm & He) Ht.
  assert (Ht' : getitem (NdArray theta) (ind0 + i) = Ok t)
    by (cbn [getitem]; rewrite Ht; reflexivity).
  unfold loglike_band, bind, deref, lift, dict_setitem, dict_getitem, ret.
  repeat (first [rewrite Hgd | rewrite Hv | rewrite He | rewrite Ht'
                | rewrite Hm | rewrite Hkw | progress unfold bind, deref];
          cbv beta iota zeta).
  reflexivity.
Qed.

(** One evaluation on well-formed inputs: the value returned and the
    world it leaves. *)
Lemma loglike_run (theta : list float) (w : World)
    (gd kw : gmap string pyobj) (mg eg mb eb mr er : float) :
  heap w !! gaia_data = Some gd ->
  heap w !! kwargs mod_ = Some kw ->
  kwargs mod_ <> gaia_data ->
  band_pair gd "G" mg eg -> band_pair gd "BP" mb eb ->
  band_pair gd "RP" mr er ->
  length theta = (n_params iso + 3)%nat ->
  loglike libm iso mod_ gaia_data theta w
  = (Ok (floored
           (total_logprob libm iso mg eg mb eb mr er kw theta).1),
     with_heap
       (<[kwargs mod_ :=
            (total_logprob libm iso mg eg mb eb mr er kw theta).2]>
          (heap w)) w).
Proof.
  intros Hgd Hkw Hne HG HB HR Hlen.
  assert (Hnth : forall i, (i < 3)%nat ->
            nth_error theta (n_params iso + i)
            = Some (nth (n_params iso + i) theta nan)).
  { intros i Hi. apply nth_error_nth'. lia. }
  assert (H0 : nth_error theta (n_params iso + 0)
               = Some (nth (n_params iso) theta nan)).
  { rewrite (Hnth 0%nat) by lia. rewrite Nat.add_0_r. reflexivity. }
  pose proof (Hnth 1%nat ltac:(lia)) as H1.
  pose proof (Hnth 2%nat ltac:(lia)) as H2.
  set (n := n_params iso) in *.
  set (e1 := inflated_error libm eg (nth n theta nan)).
  set (e2 := inflated_error libm eb (nth (n + 1) theta nan)).
  set (e3 := inflated_error libm er (nth (n + 2) theta nan)).
  set (kw1 := <["G" := Tuple [mg; e1]]> kw).
  set (kw2 := <["BP" := Tuple [mb; e2]]> kw1).
  set (kw3 := <["RP" := Tuple [mr; e3]]> kw2).
  set (w1 := with_heap (<[kwargs mod_ := kw1]> (heap w)) w).
  set (w2 := with_heap (<[kwargs mod_ := kw2]> (heap w1)) w1).
  set (w3 := with_heap (<[kwargs mod_ := kw3]> (heap w2)) w2).
  assert (Hgd1 : heap w1 !! gaia_data = Some gd).
  { cbn [w1 heap with_heap]. rewrite lookup_insert_ne by exact Hne.
    exact Hgd. }
  assert (Hkw1 : heap w1 !! kwargs mod_ = Some kw1)
    by apply lookup_insert_eq.
  assert (Hgd2 : heap w2 !! gaia_data = Some gd).
  { cbn [w2 heap with_heap]. rewrite lookup_insert_ne by exact Hne.
    exact Hgd1. }
  assert (Hkw2 : heap w2 !! kwargs mod_ = Some kw2)
    by apply lookup_insert_eq.
  assert (Hkw3 : heap w3 !! kwargs mod_ = Some kw3)
    by apply lookup_insert_eq.
  assert (Hw3 : w3 = with_heap (<[kwargs mod_ := kw3]> (heap w)) w).
  { unfold w3, w2, w1. cbn [heap with_heap].
    rewrite !insert_insert_eq. reflexivity. }
  unfold loglike, enumerate, jitter_vars.
  cbn [length seq combine mfor].
  fold n.
  unfold bind at 1. unfold bind at 1.
  rewrite (loglike_band_run theta n 0%nat "G" 0 mg eg _ gd kw w
             Hgd Hkw HG H0).
  fold e1 kw1 w1.
  unfold bind at 1.
  rewrite (loglike_band_run theta n 1%nat "BP" _ mb eb _ gd kw1 w1
             Hgd1 Hkw1 HB H1).
  fold e2 kw2 w2.
  unfold bind at 1.
  rewrite (loglike_band_run theta n 2%nat "RP" _ mr er _ gd kw2 w2
             Hgd2 Hkw2 HR H2).
  fold e3 kw3 w3.
  cbn [ret]. unfold bind, deref. rewrite Hkw3, Hw3.
  unfold total_logprob, substituted, correction_total, floored.
  cbn [fold_left fst snd].
  fold n.
  fold e1 e2 e3 kw1 kw2 kw3.
  destruct (Np.isfinite _) eqn:Hfin.
  - unfold ret, clipped_below. f_equal. f_equal.
    apply (proj1 (clip_finite _ (-1e10) Hfin eq_refl)).
  - reflexivity.
Qed.

End LoglikeFacts.

(** Lookups in maps written with inserts, without computing the maps. *)
Ltac map_lookup :=
  repeat first
    [ apply lookup_insert_eq
    | apply lookup_singleton_eq
    | rewrite lookup_insert_ne by discriminate ].

Ltac band_pair_here :=
  eexists; split;
    [unfold Sample.exact_g_record, Sample.record; map_lookup
    | split; reflexivity].

Lemma new_model_inv (iso : Isochrones) (gaia_data : loc) (w0 w1 : World)
    (m : SingleStarModel) :
  new_model iso gaia_data w0 = (Ok m, w1) ->
  exists d,
    heap w0 !! gaia_data = Some d
    /\ (kwargs m ∉ dom (heap w0))
    /\ w1 = with_heap (<[kwargs m := init_kwargs iso d]> (heap w0)) w0
    /\ _samples m = None /\ _derived_samples m = None.
Proof.
  unfold new_model, bind, deref, alloc, ret.
  destruct (heap w0 !! gaia_data) as [d|] eqn:E; [|discriminate].
  intros [= <- <-]. exists d. cbn [kwargs _samples _derived_samples].
  repeat split. apply is_fresh.
Qed.

Lemma loglike_many_writes_only (libm : Np.Libm) (iso : Isochrones)
    (mod_ : SingleStarModel) (gaia_data : loc) (thetas : list (list float))
    (w : World) :
  writes_only (kwargs mod_) w
    (fold_left (fun w theta => (loglike libm iso mod_ gaia_data theta w).2)
       thetas w).
Proof.
  revert w. induction thetas as [|theta thetas IH]; intros w; simpl.
  - apply writes_only_refl.
  - eapply writes_only_trans; [apply loglike_writes_only | apply IH].
Qed.

(** Whatever the inputs, a value the log-likelihood returns is finite and
    at least -1e10. *)
Lemma loglike_value_finite (libm : Np.Libm) (iso : Isochrones)
    (mod_ : SingleStarModel) (gaia_data : loc) (theta : list float)
    (w w' : World) (v : float) :
  loglike libm iso mod_ gaia_data theta w = (Ok v, w') ->
  is_finite v = true /\ (-1e10 <=? v) = true.
Proof.
  unfold loglike, bind.
  destruct (mfor _ _ _ w) as [[lp0|e] w1]; [|discriminate].
  destruct (deref _ w1) as [[kw|e] w2]; [|discriminate].
  destruct (Np.isfinite _) eqn:Hfin; unfold ret; intros [= <- _].
  - apply (clip_finite _ (-1e10) Hfin eq_refl).
  - split; reflexivity.
Qed.

(** C1 as stated fails: with a G error of zero and a G log-jitter of
    -1000, whose exponential is zero, the inflated G error is zero, the
    correction total and the total log-probability are plus infinity, and
    so is the total clipped below at -1e10; the code returns -1e10. *)
Lemma C1_infinite_total_returns_floor :
  length Sample.theta_underflow = (n_params Sample.iso + 3)%nat
  /\ inflated_error SoftLibm.libm 0 (-1000) = 0
  /\ (total_logprob SoftLibm.libm Sample.iso 6 0 6.25 0.001 5.5 0.001
        Sample.exact_g_record Sample.theta_underflow).1 = infinity
  /\ claimed_loglike SoftLibm.libm Sample.iso 6 0 6.25 0.001 5.5 0.001
       Sample.exact_g_record Sample.theta_underflow = infinity
  /\ (loglike SoftLibm.libm Sample.iso Sample.model 0 Sample.theta_underflow
        (Sample.modelled Sample.exact_g_record)).1 = Ok (-1e10).
Proof. repeat split; vm_compute; reflexivity. Qed.

(** C1, amended.  For a parameter vector of length n_params + 3 and a
    record with the pairs of G, BP and RP, the log-likelihood computes for
    each band in order the inflated error sqrt(error^2 + exp(theta[n_params
    + k])), subtracts 2 ln of it from the correction total, stores
    (magnitude, inflated error) as the band's model parameter, and adds the
    model's log-posterior at theta[0..n_params); it returns this total
    clipped below at -1e10 when the total is finite, and -1e10 when the
    total is not finite. *)
Theorem C1_loglike_computes (libm : Np.Libm) (iso : Isochrones)
    (mod_ : SingleStarModel) (gaia_data : loc) (theta : list float)
    (w : World) (gd kw : gmap string pyobj) (mg eg mb eb mr er : float) :
  heap w !! gaia_data = Some gd ->
  heap w !! kwargs mod_ = Some kw ->
  kwargs mod_ <> gaia_data ->
  band_pair gd "G" mg eg -> band_pair gd "BP" mb eb ->
  band_pair gd "RP" mr er ->
  length theta = (n_params iso + 3)%nat ->
  loglike libm iso mod_ gaia_data theta w
  = (Ok (if Np.isfinite
              (total_logprob libm iso mg eg mb eb mr er kw theta).1
         then clipped_below
                (total_logprob libm iso mg eg mb eb mr er kw theta).1 (-1e10)
         else -1e10),
     with_heap
       (<[kwargs mod_ :=
            (total_logprob libm iso mg eg mb eb mr er kw theta).2]>
          (heap w)) w).
Proof. apply loglike_run. Qed.

Lemma C1_loglike_computes_witness :
  heap (Sample.modelled Sample.record) !! 0%nat = Some Sample.record
  /\ heap (Sample.modelled Sample.record) !! kwargs Sample.model
     = Some Sample.record
  /\ kwargs Sample.model <> 0%nat
  /\ band_pair Sample.record "G" 6 0.0005
  /\ band_pair Sample.record "BP" 6.25 0.001
  /\ band_pair Sample.record "RP" 5.5 0.001
  /\ length Sample.theta0 = (n_params Sample.iso + 3)%nat
  /\ (loglike SoftLibm.libm Sample.iso Sample.model 0 Sample.theta0
        (Sample.modelled Sample.record)).1
     = Ok (if Np.isfinite
                (total_logprob SoftLibm.libm Sample.iso 6 0.0005 6.25 0.001
                   5.5 0.001 Sample.record Sample.theta0).1
           then clipped_below
                  (total_logprob SoftLibm.libm Sample.iso 6 0.0005 6.25 0.001
                     5.5 0.001 Sample.record Sample.theta0).1 (-1e10)
           else -1e10).
Proof.
  assert (H0 : heap (Sample.modelled Sample.record) !! 0%nat
               = Some Sample.record) by (unfold Sample.modelled, Sample.model; cbn [heap with_heap kwargs];
        map_lookup).
  assert (H1 : heap (Sample.modelled Sample.record) !! kwargs Sample.model
               = Some Sample.record) by (unfold Sample.modelled, Sample.model; cbn [heap with_heap kwargs];
        map_lookup).
  assert (Hne : kwargs Sample.model <> 0%nat) by discriminate.
  assert (HG : band_pair Sample.record "G" 6 0.0005)
    by band_pair_here.
  assert (HB : band_pair Sample.record "BP" 6.25 0.001)
    by band_pair_here.
  assert (HR : band_pair Sample.record "RP" 5.5 0.001)
    by band_pair_here.
  assert (Hlen : length Sample.theta0 = (n_params Sample.iso + 3)%nat)
    by reflexivity.
  repeat (split; [assumption|]).
  rewrite (C1_loglike_computes SoftLibm.libm Sample.iso Sample.model 0
             Sample.theta0 _ _ _ 6 0.0005 6.25 0.001 5.5 0.001
             H0 H1 Hne HG HB HR Hlen).
  reflexivity.
Defined.

(** C2.  On a vector of length n_params + 3 and a record with the three
    band pairs the log-likelihood returns, and what it returns is finite
    and at least -1e10: -1e10 itself when the total log-probability is not
    finite, and the total clipped to that floor otherwise. *)
Theorem C2_loglike_finite (libm : Np.Libm) (iso : Isochrones)
    (mod_ : SingleStarModel) (gaia_data : loc) (theta : list float)
    (w : World) (gd kw : gmap string pyobj) (mg eg mb eb mr er : float) :
  heap w !! gaia_data = Some gd ->
  heap w !! kwargs mod_ = Some kw ->
  kwargs mod_ <> gaia_data ->
  band_pair gd "G" mg eg -> band_pair gd "BP" mb eb ->
  band_pair gd "RP" mr er ->
  length theta = (n_params iso + 3)%nat ->
  exists v w',
    loglike libm iso mod_ gaia_data theta w = (Ok v, w')
    /\ is_finite v = true
    /\ (-1e10 <=? v) = true
    /\ v = (if Np.isfinite
                 (total_logprob libm iso mg eg mb eb mr er kw theta).1
            then Np.clip
                   (total_logprob libm iso mg eg mb eb mr er kw theta).1
                   (-1e10) Np.inf
            else -1e10).
Proof.
  intros Hgd Hkw Hne HG HB HR Hlen.
  pose proof (loglike_run libm iso mod_ gaia_data theta w gd kw
                mg eg mb eb mr er Hgd Hkw Hne HG HB HR Hlen) as Hrun.
  eexists _, _. split; [exact Hrun|].
  destruct (loglike_value_finite _ _ _ _ _ _ _ _ Hrun) as [Hf Hle].
  split; [exact Hf|]. split; [exact Hle|].
  unfold floored.
  destruct (Np.isfinite _) eqn:Hfin; [|reflexivity].
  symmetry. apply (clip_finite _ (-1e10) Hfin eq_refl).
Qed.

Lemma C2_loglike_finite_witness :
  heap (Sample.modelled Sample.exact_g_record) !! 0%nat
  = Some Sample.exact_g_record
  /\ length Sample.theta_underflow = (n_params Sample.iso + 3)%nat
  /\ exists v w',
       loglike SoftLibm.libm Sample.iso Sample.model 0
         Sample.theta_underflow (Sample.modelled Sample.exact_g_record)
       = (Ok v, w')
       /\ is_finite v = true /\ (-1e10 <=? v) = true.
Proof.
  assert (H0 : heap (Sample.modelled Sample.exact_g_record) !! 0%nat
               = Some Sample.exact_g_record) by (unfold Sample.modelled, Sample.model; cbn [heap with_heap kwargs];
        map_lookup).
  assert (H1 : heap (Sample.modelled Sample.exact_g_record)
                 !! kwargs Sample.model
               = Some Sample.exact_g_record)
    by (unfold Sample.modelled, Sample.model; cbn [heap with_heap kwargs];
        map_lookup).
  assert (Hne : kwargs Sample.model <> 0%nat) by discriminate.
  assert (HG : band_pair Sample.exact_g_record "G" 6 0)
    by band_pair_here.
  assert (HB : band_pair Sample.exact_g_record "BP" 6.25 0.001)
    by band_pair_here.
  assert (HR : band_pair Sample.exact_g_record "RP" 5.5 0.001)
    by band_pair_here.
  assert (Hlen : length Sample.theta_underflow
                 = (n_params Sample.iso + 3)%nat) by reflexivity.
  split; [exact H0|]. split; [exact Hlen|].
  destruct (C2_loglike_finite SoftLibm.libm Sample.iso Sample.model 0
              Sample.theta_underflow _ _ _ 6 0 6.25 0.001 5.5 0.001
              H0 H1 Hne HG HB HR Hlen) as (v & w' & Hv & Hf & Hle & _).
  exists v, w'. auto.
Defined.

(** C10.  The model built by the fit has a keyword dictionary of its own,
    created at its construction, and every evaluation of the
    log-likelihood, whether it returns or raises, writes to that
    dictionary only: after any number of evaluations, in a list or as the
    sampler asks for them, the caller's record is what it was, and so is
    every other dictionary. *)
Theorem C10_loglike_leaves_gaia_data (libm : Np.Libm) (iso : Isochrones)
    (gaia_data : loc) (w0 w1 : World) (mod_ : SingleStarModel)
    (thetas : list (list float)) (p : SamplerRun) :
  new_model iso gaia_data w0 = (Ok mod_, w1) ->
  (kwargs mod_ ∉ dom (heap w0))
  /\ kwargs mod_ <> gaia_data
  /\ (forall w2,
        w2 = fold_left
               (fun w theta => (loglike libm iso mod_ gaia_data theta w).2)
               thetas w1
        \/ w2 = (run_sampler libm iso mod_ gaia_data p w1).2 ->
        heap w2 !! gaia_data = heap w0 !! gaia_data
        /\ forall l, l <> kwargs mod_ -> heap w2 !! l = heap w0 !! l).
Proof.
  intros Hnew.
  apply new_model_inv in Hnew as (d & Hd & Hfresh & -> & _).
  assert (Hne : kwargs mod_ <> gaia_data).
  { intros E. apply Hfresh. rewrite E. apply elem_of_dom. eauto. }
  split; [exact Hfresh|]. split; [exact Hne|].
  intros w2 Hw2.
  assert (Hw : writes_only (kwargs mod_) w0 w2).
  { eapply writes_only_trans; [apply writes_only_insert|].
    destruct Hw2 as [-> | ->].
    - apply loglike_many_writes_only.
    - apply run_sampler_writes_only. }
  split.
  - apply (writes_only_lookup _ _ _ _ Hw). congruence.
  - intros l Hl. apply (writes_only_lookup _ _ _ _ Hw Hl).
Qed.

Lemma C10_loglike_leaves_gaia_data_witness :
  new_model Sample.iso 0 (Sample.world Sample.record ∅)
  = (Ok Sample.model, Sample.modelled Sample.record)
  /\ heap (fold_left
             (fun w theta =>
                (loglike SoftLibm.libm Sample.iso Sample.model 0 theta w).2)
             [Sample.theta0; Sample.theta_underflow; []]
             (Sample.modelled Sample.record)) !! 0%nat
     = heap (Sample.world Sample.record ∅) !! 0%nat.
Proof.
  assert (H : new_model Sample.iso 0 (Sample.world Sample.record ∅)
              = (Ok Sample.model, Sample.modelled Sample.record))
    by (vm_compute; reflexivity).
  split; [exact H|].
  destruct (C10_loglike_leaves_gaia_data SoftLibm.libm Sample.iso 0 _ _ _
              [Sample.theta0; Sample.theta_underflow; []]
              (run_nested Sample.dynesty 8) H) as (_ & _ & Hframe).
  exact (proj1 (Hframe _ (or_introl eq_refl))).
Defined.

(* ===================================================================== *)
(** ** The fit                                                           *)
(* ===================================================================== *)

Lemma derived_frame_inv (iso : Isochrones) (df derived : DataFrame) :
  derived_frame iso df = Ok derived ->
  exists distance,
    df !! "distance" = Some distance
    /\ derived !! "distance" = Some distance
    /\ derived !! "parallax" = Some (map (fun d => 1000 / d) distance).
Proof.
  unfold derived_frame, rbind, column.
  destruct (for_each _ _ _) as [cols|]; [|discriminate].
  destruct (df !! "distance") as [distance|]; [|discriminate].
  destruct (df !! "AV") as [av|]; [|discriminate].
  intros [= <-]. exists distance. split; [reflexivity|]. split.
  - rewrite lookup_insert_ne by discriminate. apply lookup_insert_eq.
  - rewrite !lookup_insert_ne by discriminate. apply lookup_insert_eq.
Qed.

(** A fit that ends with a model and a sampler has gone through every
    step of the fresh run. *)
Lemma fit_fresh_inv (libm : Np.Libm) (iso : Isochrones) (dynesty : Dynesty)
    (describe : DataFrame -> DataFrame) (version name : string)
    (gaia_data : loc) (clobber : bool) (output_dir : string)
    (w0 w1 : World) (mod_ : SingleStarModel) (results : Results) :
  fit_gaia_data libm iso dynesty describe version name gaia_data clobber
    output_dir w0 = (Ok (Fitted mod_ results), w1) ->
  exists df derived,
    _samples mod_ = Some df /\ _derived_samples mod_ = Some derived
    /\ derived_frame iso df = Ok derived.
Proof.
  intros H. unfold fit_gaia_data in H.
  unfold bind in H.
  destruct (new_model iso gaia_data w0) as [[m|] wa]; [|discriminate].
  destruct (makedirs _ wa) as [[[]|] wb]; [|discriminate].
  destruct (path_exists _ wb) as [[found|] wc]; [|discriminate].
  destruct (negb clobber && found).
  { destruct (read_hdf _ _ wc) as [[s|] wd]; [|discriminate].
    destruct (read_hdf _ _ wd) as [[d|] we]; discriminate. }
  repeat match type of H with
  | (let (_, _) := ?c in _) = _ =>
      destruct c as [[?|?] ?] eqn:?; [|discriminate]
  | match ?c with _ => _ end = _ =>
      destruct c as [[?|?] ?] eqn:?; [|discriminate]
  end.
  unfold ret in H. injection H as <- <- <-.
  cbn [_samples _derived_samples].
  match goal with
  | E : lift (derived_frame iso ?df) _ = (Ok ?d, _) |- _ =>
      exists df, d; unfold lift in E; injection E as E _;
      repeat split; exact E
  end.
Qed.

(** The short cut of lines 99-102, step by step. *)
Lemma fit_reuse (libm : Np.Libm) (iso : Isochrones) (dynesty : Dynesty)
    (describe : DataFrame -> DataFrame) (version name : string)
    (gaia_data : loc) (output_dir : string) (w0 : World)
    (gd : gmap string pyobj) (tables : gmap string DataFrame)
    (S D : DataFrame) :
  heap w0 !! gaia_data = Some gd ->
  files w0 !! path_join (path_join output_dir version) name = None ->
  files w0 !! path_join (path_join (path_join output_dir version) name)
                "star.h5" = Some (HDFStore tables) ->
  tables !! "samples" = Some S ->
  tables !! "derived_samples" = Some D ->
  fit_gaia_data libm iso dynesty describe version name gaia_data false
    output_dir w0
  = (Ok (Loaded {| kwargs := fresh (dom (heap w0)); _samples := Some S;
                   _derived_samples := Some D |}),
     with_dirs ({[path_join (path_join output_dir version) name]} ∪ dirs w0)
       (with_heap (<[fresh (dom (heap w0)) := init_kwargs iso gd]> (heap w0))
          w0)).
Proof.
  intros Hgd Hout Hfn HS HD.
  unfold fit_gaia_data, new_model, bind, deref, alloc, ret.
  rewrite Hgd. cbv beta iota zeta.
  unfold makedirs. cbn [files with_heap]. rewrite Hout.
  unfold path_exists. cbn [files with_heap with_dirs]. rewrite Hfn.
  rewrite (bool_decide_true (is_Some (Some _))) by eauto.
  cbn [negb andb orb].
  unfold read_hdf. cbn [files with_heap with_dirs]. rewrite Hfn, HS.
  cbv beta iota zeta. cbn [files with_heap with_dirs]. rewrite Hfn, HD.
  reflexivity.
Qed.

(** C3.  Without overwrite, when the store star.h5 exists under
    output_root/version/identity and holds the two sample sets, the fit
    loads them into a model it has just constructed and returns that
    model: whatever the sampler, it is neither created nor run (the trace
    of the world is unchanged), no file is written, and the sample sets of
    the returned model are the persisted ones. *)
Theorem C3_fit_reuses_artifact (libm : Np.Libm) (iso : Isochrones)
    (version name : string) (gaia_data : loc) (output_dir : string)
    (w0 : World) (gd : gmap string pyobj) (tables : gmap string DataFrame)
    (S D : DataFrame) :
  heap w0 !! gaia_data = Some gd ->
  files w0 !! path_join (path_join output_dir version) name = None ->
  files w0 !! path_join (path_join (path_join output_dir version) name)
                "star.h5" = Some (HDFStore tables) ->
  tables !! "samples" = Some S ->
  tables !! "derived_samples" = Some D ->
  exists mod_ w1,
    (forall (dynesty : Dynesty) (describe : DataFrame -> DataFrame),
       fit_gaia_data libm iso dynesty describe version name gaia_data false
         output_dir w0 = (Ok (Loaded mod_), w1))
    /\ _samples mod_ = Some S
    /\ _derived_samples mod_ = Some D
    /\ trace w1 = trace w0
    /\ files w1 = files w0
    /\ (kwargs mod_ ∉ dom (heap w0))
    /\ heap w1 !! kwargs mod_ = Some (init_kwargs iso gd).
Proof.
  intros Hgd Hout Hfn HS HD.
  eexists _, _. split.
  { intros dynesty describe.
    apply (fit_reuse libm iso dynesty describe version name gaia_data
             output_dir w0 gd tables S D Hgd Hout Hfn HS HD). }
  cbn [_samples _derived_samples kwargs trace files heap with_dirs with_heap].
  repeat split.
  - apply is_fresh.
  - apply lookup_insert_eq.
Qed.

Lemma C3_fit_reuses_artifact_witness :
  heap Sample.stored_world !! 0%nat = Some Sample.record
  /\ files Sample.stored_world
       !! path_join (path_join "results" "0.1.0") "kic1" = None
  /\ files Sample.stored_world
       !! path_join (path_join (path_join "results" "0.1.0") "kic1")
            "star.h5"
     = Some Sample.store
  /\ exists mod_ w1,
       fit_gaia_data SoftLibm.libm Sample.iso Sample.dynesty Sample.describe
         "0.1.0" "kic1" 0 false "results" Sample.stored_world
       = (Ok (Loaded mod_), w1)
       /\ _samples mod_ = Some Sample.persisted_samples
       /\ _derived_samples mod_ = Some Sample.persisted_derived
       /\ trace w1 = [].
Proof.
  assert (H0 : heap Sample.stored_world !! 0%nat = Some Sample.record)
    by apply lookup_singleton_eq.
  assert (H1 : files Sample.stored_world
                 !! path_join (path_join "results" "0.1.0") "kic1" = None)
    by (apply lookup_singleton_ne; discriminate).
  assert (H2 : files Sample.stored_world
                 !! path_join (path_join (path_join "results" "0.1.0") "kic1")
                      "star.h5"
               = Some Sample.store)
    by apply lookup_singleton_eq.
  assert (HS : ({[ "samples" := Sample.persisted_samples;
                   "derived_samples" := Sample.persisted_derived ]}
                : gmap string DataFrame) !! "samples"
               = Some Sample.persisted_samples) by map_lookup.
  assert (HD : ({[ "samples" := Sample.persisted_samples;
                   "derived_samples" := Sample.persisted_derived ]}
                : gmap string DataFrame) !! "derived_samples"
               = Some Sample.persisted_derived) by map_lookup.
  split; [exact H0|]. split; [exact H1|]. split; [exact H2|].
  destruct (C3_fit_reuses_artifact SoftLibm.libm Sample.iso "0.1.0" "kic1"
              0 "results" Sample.stored_world _ _ _ _ H0 H1 H2 HS HD)
    as (mod_ & w1 & Hfit & Hs & Hd & Ht & _).
  exists mod_, w1. repeat split; try assumption.
  apply Hfit.
Defined.

(** C9.  A fresh run of the fit returns a model whose derived sample set
    has, as its distance column, the distance column of the posterior
    sample set, and as its parallax column 1000 / distance, row by row. *)
Theorem C9_derived_parallax (libm : Np.Libm) (iso : Isochrones)
    (dynesty : Dynesty) (describe : DataFrame -> DataFrame)
    (version name : string) (gaia_data : loc) (clobber : bool)
    (output_dir : string) (w0 w1 : World) (mod_ : SingleStarModel)
    (results : Results) :
  fit_gaia_data libm iso dynesty describe version name gaia_data clobber
    output_dir w0 = (Ok (Fitted mod_ results), w1) ->
  exists (df derived : DataFrame) (distance plx : list float),
    _samples mod_ = Some df
    /\ _derived_samples mod_ = Some derived
    /\ df !! "distance" = Some distance
    /\ derived !! "distance" = Some distance
    /\ derived !! "parallax" = Some plx
    /\ length plx = length distance
    /\ forall i : nat, plx !! i = (fun d => 1000.0 / d) <$> (distance !! i).
Proof.
  intros H.
  apply fit_fresh_inv in H as (df & derived & Hs & Hd & Hder).
  apply derived_frame_inv in Hder as (distance & Hdist & Hdd & Hp).
  exists df, derived, distance, (map (fun d => 1000 / d) distance).
  repeat (split; [assumption|]). split.
  - apply length_map.
  - intros i. apply list_lookup_fmap.
Qed.

Lemma C9_derived_parallax_witness :
  exists mod_ results w1,
    Sample.fit_run = (Ok (Fitted mod_ results), w1)
    /\ exists (df derived : DataFrame) (distance plx : list float),
         _samples mod_ = Some df
         /\ _derived_samples mod_ = Some derived
         /\ df !! "distance" = Some distance
         /\ derived !! "distance" = Some distance
         /\ derived !! "parallax" = Some plx
         /\ length plx = length distance
         /\ forall i : nat,
              plx !! i = (fun d => 1000.0 / d) <$> (distance !! i).
Proof.
  destruct Sample.fit_run as [[[mod_ | mod_ results] | e] w1] eqn:E.
  - exfalso. vm_compute in E. discriminate E.
  - exists mod_, results, w1. split; [reflexivity|].
    exact (C9_derived_parallax _ _ _ _ _ _ _ _ _ _ _ _ _ E).
  - exfalso. vm_compute in E. discriminate E.
Defined.

(* ===================================================================== *)
(** ** The catalog lookup: when it returns, how it fails                 *)
(* ===================================================================== *)

Lemma lookup_Ok_record (libm : Np.Libm) (gaia : Gaia) (coord : SkyCoord)
    (approx_mag : option float) (radius : option Quantity) (mag_tol : float)
    (kwargs rec : gmap string pyobj) :
  get_gaia_data libm gaia coord approx_mag radius mag_tol kwargs = Ok rec <->
  exists r,
    head (candidates gaia coord approx_mag radius mag_tol) = Some r
    /\ Np.isfinite (corrected_parallax r) = true
    /\ Np.isfinite (corrected_parallax_error libm r) = true
    /\ (phot_g_mean_flux r =? 0) = false
    /\ (phot_bp_mean_flux r =? 0) = false
    /\ (phot_rp_mean_flux r =? 0) = false
    /\ photometry_finite libm r = true
    /\ rec = kwargs ∪ expected_record libm r.
Proof.
  rewrite lookup_outcomes.
  destruct (head _) as [r|].
  2:{ split; [discriminate | intros (r & H & _); discriminate]. }
  destruct (Np.isfinite (corrected_parallax r)) eqn:Hp;
    destruct (Np.isfinite (corrected_parallax_error libm r)) eqn:He;
    cbn [andb negb];
    try (split; [discriminate
                | intros (r' & [= <-] & H1 & H2 & _); congruence]).
  assert (Hph : photometry_finite libm r = true ->
          (Np.isfinite (phot_g_mean_mag r)
           && Np.isfinite (propagated_error libm (phot_g_mean_flux_error r)
                             (phot_g_mean_flux r))) = true
          /\ (Np.isfinite (phot_bp_mean_mag r)
           && Np.isfinite (propagated_error libm (phot_bp_mean_flux_error r)
                             (phot_bp_mean_flux r))) = true).
  { unfold photometry_finite. rewrite !andb_true_iff. tauto. }
  destruct (phot_g_mean_flux r =? 0) eqn:Zg; cbn [orb].
  { split; [discriminate | intros (r' & [= <-] & _ & _ & H & _); congruence]. }
  destruct (photometry_finite libm r) eqn:Hf.
  - destruct (Hph eq_refl) as [-> ->]. cbn [andb orb negb].
    destruct (phot_bp_mean_flux r =? 0) eqn:Zb; cbn [orb].
    { split; [discriminate
             | intros (r' & [= <-] & _ & _ & _ & H & _); congruence]. }
    destruct (phot_rp_mean_flux r =? 0) eqn:Zr.
    { split; [discriminate
             | intros (r' & [= <-] & _ & _ & _ & _ & H & _); congruence]. }
    split.
    + intros [= <-]. exists r. repeat split; congruence.
    + intros (r' & [= <-] & _ & _ & _ & _ & _ & _ & ->). reflexivity.
  - split.
    + destruct (_ && _); [|discriminate].
      cbn [andb]. destruct (_ || _); discriminate.
    + intros (r' & [= <-] & _ & _ & _ & _ & _ & H & _). congruence.
Qed.

(** X1.  The lookup returns a record exactly when the search, after the
    magnitude cut, has a first row whose corrected parallax and parallax
    error are finite, whose three fluxes are not zero and whose three
    magnitudes and propagated errors are finite; the record is then the
    computed one with the extra fields written over it. *)
Theorem lookup_succeeds_iff (libm : Np.Libm) (gaia : Gaia) (coord : SkyCoord)
    (approx_mag : option float) (radius : option Quantity) (mag_tol : float)
    (kwargs rec : gmap string pyobj) :
  get_gaia_data libm gaia coord approx_mag radius mag_tol kwargs = Ok rec <->
  exists r,
    head (candidates gaia coord approx_mag radius mag_tol) = Some r
    /\ Np.isfinite (corrected_parallax r) = true
    /\ Np.isfinite (corrected_parallax_error libm r) = true
    /\ (phot_g_mean_flux r =? 0) = false
    /\ (phot_bp_mean_flux r =? 0) = false
    /\ (phot_rp_mean_flux r =? 0) = false
    /\ photometry_finite libm r = true
    /\ rec = kwargs ∪ expected_record libm r.
Proof. apply lookup_Ok_record. Qed.

(** X2.  An exception of the lookup is one of the three value errors
    "no matches found", "non finite parallax", "non finite params", or a
    division by zero. *)
Theorem lookup_error_kinds (libm : Np.Libm) (gaia : Gaia) (coord : SkyCoord)
    (approx_mag : option float) (radius : option Quantity) (mag_tol : float)
    (kwargs : gmap string pyobj) (e : exn) :
  get_gaia_data libm gaia coord approx_mag radius mag_tol kwargs = Raise e ->
  e = ValueError "no matches found"
  \/ e = ValueError "non finite parallax"
  \/ e = ValueError "non finite params"
  \/ e = ZeroDivisionError.
Proof.
  rewrite lookup_outcomes.
  destruct (head _) as [r|]; [|intros [= <-]; auto].
  destruct (negb _); [intros [= <-]; auto|].
  destruct (_ || _); [intros [= <-]; auto|].
  destruct (negb _); [intros [= <-]; auto|discriminate].
Qed.

Lemma lookup_error_kinds_witness :
  get_gaia_data SoftLibm.libm (Sample.catalog [Sample.no_bp_flux])
    Sample.coord None None 1 ∅ = Raise ZeroDivisionError
  /\ (ZeroDivisionError = ValueError "no matches found"
      \/ ZeroDivisionError = ValueError "non finite parallax"
      \/ ZeroDivisionError = ValueError "non finite params"
      \/ ZeroDivisionError = ZeroDivisionError).
Proof.
  assert (H : get_gaia_data SoftLibm.libm (Sample.catalog [Sample.no_bp_flux])
                Sample.coord None None 1 ∅ = Raise ZeroDivisionError)
    by (vm_compute; reflexivity).
  split; [exact H|].
  exact (lookup_error_kinds SoftLibm.libm (Sample.catalog [Sample.no_bp_flux])
           Sample.coord None None 1 ∅ ZeroDivisionError H).
Defined.

(** Rounding to a format keeps the sign. *)
Lemma binary_round_shape (prec emax : Z) (s : bool) (m : positive) (e : Z) :
  binary_round prec emax s m e = S754_nan
  \/ binary_round prec emax s m e = S754_zero s
  \/ binary_round prec emax s m e = S754_infinity s
  \/ exists m' e', binary_round prec emax s m e = S754_finite s m' e'.
Proof.
  unfold binary_round.
  destruct (shl_align m e _) as [mz ez].
  unfold binary_round_aux.
  destruct (shr_fexp prec emax (Z.pos mz) ez loc_Exact) as [mrs' e'].
  destruct (shr_fexp prec emax _ e' loc_Exact) as [mrs'' e''].
  destruct (shr_m mrs'') as [|p|p]; [auto | | auto].
  destruct (Z.leb e'' _); eauto 6.
Qed.

Lemma of_float64_nan (x : float) :
  is_nan x = true -> F32.of_float64 x = S754_nan.
Proof.
  intros H. apply is_nan_Prim2SF in H. unfold F32.of_float64.
  rewrite H. reflexivity.
Qed.

(** A tolerance that is zero or negative in double precision is zero,
    negative or a NaN in single precision: no absolute value is below
    it. *)
Lemma abs_ltb_nonpos (d : spec_float) (tol : float) :
  (tol <=? 0) = true -> SFltb (SFabs d) (F32.of_float64 tol) = false.
Proof.
  rewrite FloatAxioms.leb_spec. unfold F32.of_float64.
  replace (Prim2SF 0) with (S754_zero false) by reflexivity.
  destruct (Prim2SF tol) as [st | st | | st mt et].
  - intros _. destruct d as [sd | sd | | sd md ed]; reflexivity.
  - destruct st; [|discriminate]. intros _.
    destruct d as [sd | sd | | sd md ed]; reflexivity.
  - discriminate.
  - destruct st; [|discriminate]. intros _.
    destruct (binary_round_shape F32.prec F32.emax true mt et)
      as [-> | [-> | [-> | (m' & e' & ->)]]];
      destruct d as [sd | sd | | sd md ed]; reflexivity.
Qed.

Lemma mag_mask_never (approx_mag mag_tol : float) (r : Row) :
  is_nan approx_mag = true \/ is_nan mag_tol = true
  \/ (mag_tol <=? 0) = true ->
  mag_mask approx_mag mag_tol r = false.
Proof.
  unfold mag_mask, mag_diff, F32.ltb, F32.abs, F32.sub.
  intros [H | [H | H]].
  - rewrite (of_float64_nan _ H).
    destruct (F32.of_float64 (phot_g_mean_mag r)); reflexivity.
  - rewrite (of_float64_nan _ H).
    destruct (SFabs _); reflexivity.
  - apply abs_ltb_nonpos, H.
Qed.

Lemma filter_none {A} (f : A -> bool) (l : list A) :
  (forall x, f x = false) -> List.filter f l = [].
Proof.
  intros H. induction l as [|x l IH]; simpl; [reflexivity|].
  rewrite H. exact IH.
Qed.

(** X3.  With an approximate magnitude that is NaN, or a tolerance that
    is NaN, zero or negative, the magnitude cut keeps no row and the lookup
    raises "no matches found" whatever the catalog answers. *)
Theorem lookup_degenerate_tolerance (libm : Np.Libm) (gaia : Gaia)
    (coord : SkyCoord) (approx_mag : float) (radius : option Quantity)
    (mag_tol : float) (kwargs : gmap string pyobj) :
  is_nan approx_mag = true \/ is_nan mag_tol = true
  \/ (mag_tol <=? 0) = true ->
  get_gaia_data libm gaia coord (Some approx_mag) radius mag_tol kwargs
  = Raise (ValueError "no matches found").
Proof.
  intros H. unfold get_gaia_data, candidates, select_candidates.
  rewrite filter_none; [reflexivity|].
  intros r. apply mag_mask_never, H.
Qed.

Lemma lookup_degenerate_tolerance_witness :
  (is_nan 5 = true \/ is_nan 0 = true \/ (0 <=? 0) = true)
  /\ get_gaia_data SoftLibm.libm (Sample.catalog [Sample.star]) Sample.coord
       (Some 5) None 0 ∅
     = Raise (ValueError "no matches found").
Proof.
  assert (H : is_nan 5 = true \/ is_nan 0 = true \/ (0 <=? 0) = true)
    by (right; right; reflexivity).
  split; [exact H|].
  exact (lookup_degenerate_tolerance SoftLibm.libm
           (Sample.catalog [Sample.star]) Sample.coord 5 None 0 ∅ H).
Defined.

Lemma expected_record_values (libm : Np.Libm) (r : Row) :
  map_Forall (fun _ v => is_Some (json_value v)) (expected_record libm r).
Proof.
  unfold expected_record. cbv zeta.
  destruct (0 <? corrected_parallax r);
    repeat (apply map_Forall_insert_2; [cbn; eauto|]);
    apply map_Forall_empty.
Qed.

Lemma expected_record_dom (libm : Np.Libm) (r : Row) :
  dom (expected_record libm r)
  = {[ "G"; "BP"; "RP"; "parallax" ]}%string
    ∪ (if 0 <? corrected_parallax r
       then {[ "max_distance"%string ]} else ∅).
Proof.
  unfold expected_record. cbv zeta.
  destruct (0 <? corrected_parallax r);
    rewrite !dom_insert_L, dom_empty_L; set_solver.
Qed.

Lemma expected_record_band (libm : Np.Libm) (r : Row) (k : string) :
  k ∈ ["G"; "BP"; "RP"; "parallax"]%string ->
  exists a b, expected_record libm r !! k = Some (NdArray [a; b]).
Proof.
  intros Hk. unfold expected_record. cbv zeta.
  assert (Hmd : forall (v : pyobj) (m : gmap string pyobj),
            (if 0 <? corrected_parallax r
             then <["max_distance" := v]> m else m) !! k = m !! k).
  { intros v m. destruct (0 <? corrected_parallax r); [|reflexivity].
    apply lookup_insert_ne. intros <-. set_solver. }
  rewrite Hmd.
  repeat (apply elem_of_cons in Hk as [-> | Hk]);
    [ | | | | by apply elem_of_nil in Hk].
  - rewrite !lookup_insert_ne by discriminate.
    rewrite lookup_insert_eq. eauto.
  - rewrite !lookup_insert_ne by discriminate.
    rewrite lookup_insert_eq. eauto.
  - rewrite !lookup_insert_ne by discriminate.
    rewrite lookup_insert_eq. eauto.
  - rewrite lookup_insert_eq. eauto.
Qed.

(** X4.  The fields of a returned record are the extra fields, G, BP, RP
    and parallax, and max_distance when the corrected parallax is positive;
    each of G, BP, RP and parallax that no extra field replaces is an array
    of two finite numbers. *)
Theorem lookup_record_shape (libm : Np.Libm) (gaia : Gaia) (coord : SkyCoord)
    (approx_mag : option float) (radius : option Quantity) (mag_tol : float)
    (kwargs rec : gmap string pyobj) :
  get_gaia_data libm gaia coord approx_mag radius mag_tol kwargs = Ok rec ->
  exists r,
    head (candidates gaia coord approx_mag radius mag_tol) = Some r
    /\ dom rec
       = dom kwargs ∪ {[ "G"; "BP"; "RP"; "parallax" ]}%string
         ∪ (if 0 <? corrected_parallax r
            then {[ "max_distance"%string ]} else ∅)
    /\ forall k : string,
         k ∈ ["G"; "BP"; "RP"; "parallax"]%string ->
         kwargs !! k = None ->
         exists a b, rec !! k = Some (NdArray [a; b])
                     /\ is_finite a = true /\ is_finite b = true.
Proof.
  intros H. apply lookup_Ok_record in H
    as (r & Hr & Hp & He & _ & _ & _ & Hph & ->).
  exists r. split; [exact Hr|]. split.
  - rewrite dom_union_L, expected_record_dom. set_solver.
  - intros k Hk Hkw. rewrite lookup_union_r by exact Hkw.
    unfold photometry_finite in Hph.
    rewrite !andb_true_iff in Hph.
    destruct Hph as [[[[[H1 H2] H3] H4] H5] H6].
    unfold expected_record. cbv zeta.
    assert (Hmd : forall (v : pyobj) (m : gmap string pyobj),
              (if 0 <? corrected_parallax r
               then <["max_distance" := v]> m else m) !! k = m !! k).
    { intros v m. destruct (0 <? corrected_parallax r); [|reflexivity].
      apply lookup_insert_ne. intros <-. set_solver. }
    rewrite Hmd.
    repeat (apply elem_of_cons in Hk as [-> | Hk]);
      [ | | | | by apply elem_of_nil in Hk].
    + rewrite !lookup_insert_ne by discriminate.
      rewrite lookup_insert_eq. eauto.
    + rewrite !lookup_insert_ne by discriminate.
      rewrite lookup_insert_eq. eauto.
    + rewrite !lookup_insert_ne by discriminate.
      rewrite lookup_insert_eq. eauto.
    + rewrite lookup_insert_eq. eauto.
Qed.

Lemma lookup_record_shape_witness :
  get_gaia_data SoftLibm.libm (Sample.catalog [Sample.star]) Sample.coord
    None None 1 ∅ = Ok Sample.star_record
  /\ exists r,
       head (candidates (Sample.catalog [Sample.star]) Sample.coord
               None None 1) = Some r
       /\ dom Sample.star_record
          = dom (∅ : gmap string pyobj)
            ∪ {[ "G"; "BP"; "RP"; "parallax" ]}%string
            ∪ (if 0 <? corrected_parallax r
               then {[ "max_distance"%string ]} else ∅)
       /\ forall k : string,
            k ∈ ["G"; "BP"; "RP"; "parallax"]%string ->
            (∅ : gmap string pyobj) !! k = None ->
            exists a b, Sample.star_record !! k = Some (NdArray [a; b])
                        /\ is_finite a = true /\ is_finite b = true.
Proof.
  assert (H : get_gaia_data SoftLibm.libm (Sample.catalog [Sample.star])
                Sample.coord None None 1 ∅ = Ok Sample.star_record)
    by (vm_compute; reflexivity).
  split; [exact H|].
  exact (lookup_record_shape SoftLibm.libm (Sample.catalog [Sample.star])
           Sample.coord None None 1 ∅ Sample.star_record H).
Defined.

(* ===================================================================== *)
(** ** Paths and the JSON document of the record                         *)
(* ===================================================================== *)

Lemma string_length_app (a b : string) :
  String.length (a ++ b) = (String.length a + String.length b)%nat.
Proof.
  induction a as [|c a IH]; [reflexivity|].
  change (String c a ++ b)%string with (String c (a ++ b)).
  cbn [String.length]. rewrite IH. reflexivity.
Qed.

(** The separator [os.path.join] puts after [a]. *)
Lemma path_join_relative (a b : string) :
  starts_with_sep b = false ->
  exists sep : string, forall b', starts_with_sep b' = false ->
    path_join a b' = (a ++ sep ++ b')%string.
Proof.
  intros _. unfold path_join.
  destruct (String.eqb a "" || ends_with_sep a)%bool.
  - exists ""%string. intros b' ->. reflexivity.
  - exists "/"%string. intros b' ->. reflexivity.
Qed.

Lemma path_join_inj (a b c : string) :
  starts_with_sep b = false -> starts_with_sep c = false ->
  path_join a b = path_join a c -> b = c.
Proof.
  intros Hb Hc. destruct (path_join_relative a b Hb) as [sep Hsep].
  rewrite (Hsep b Hb), (Hsep c Hc). intros H.
  apply (inj (String.app a)) in H. apply (inj (String.app sep)) in H.
  exact H.
Qed.

Lemma path_join_ne_self (a b : string) :
  starts_with_sep b = false -> b <> ""%string -> path_join a b <> a.
Proof.
  intros Hb Hne. destruct (path_join_relative a b Hb) as [sep Hsep].
  rewrite (Hsep b Hb). intros H.
  apply (f_equal String.length) in H.
  rewrite !string_length_app in H.
  destruct b; [congruence|]. cbn [String.length] in H. lia.
Qed.

Lemma tolist_raises (v : pyobj) (e : exn) :
  tolist v = Raise e -> e = AttributeError.
Proof. destruct v; simpl; congruence. Qed.

Lemma json_value_tolist (v : pyobj) (j : json) :
  json_value v = Some j <-> tolist v = Ok j.
Proof.
  unfold json_value. destruct (tolist v); split; congruence.
Qed.

Lemma dump_list (l : list (string * pyobj)) (acc : gmap string json) :
  NoDup l.*1 ->
  match for_each l acc dump_step with
  | Ok doc =>
      Forall (fun kv => is_Some (json_value kv.2)) l
      /\ forall k, doc !! k
                   = match (list_to_map l : gmap string pyobj) !! k with
                     | Some v => json_value v
                     | None => acc !! k
                     end
  | Raise e =>
      e = AttributeError
      /\ Exists (fun kv => json_value kv.2 = None) l
  end.
Proof.
  revert acc. induction l as [|[k0 v0] l IH]; intros acc Hnd.
  - simpl. split; [constructor|]. intros k. rewrite lookup_empty.
    reflexivity.
  - rewrite fmap_cons in Hnd. apply NoDup_cons in Hnd as [Hk0 Hnd].
    cbn [fst] in Hk0. cbn [for_each].
    unfold dump_step at 1, rbind at 2. cbn [fst snd].
    assert (Hj : json_value v0 = match tolist v0 with
                                 | Ok j => Some j
                                 | Raise _ => None
                                 end) by reflexivity.
    destruct (tolist v0) as [j|e] eqn:Ev.
    + cbn [rbind]. specialize (IH (<[k0 := j]> acc) Hnd).
      destruct (for_each l _ dump_step) as [doc|e].
      * destruct IH as [Hall Hdoc]. split.
        { constructor; [|exact Hall]. exists j. exact Hj. }
        intros k. rewrite Hdoc.
        change (list_to_map ((k0, v0) :: l) : gmap string pyobj)
          with (<[k0 := v0]> (list_to_map l : gmap string pyobj)).
        destruct (decide (k = k0)) as [->|Hne].
        -- rewrite (not_elem_of_list_to_map_1 _ _ Hk0).
           rewrite !lookup_insert_eq, Hj.
           reflexivity.
        -- rewrite !lookup_insert_ne by congruence. reflexivity.
      * destruct IH as [-> Hex]. split; [reflexivity|].
        apply Exists_cons_tl, Hex.
    + cbn [rbind]. split; [apply (tolist_raises _ _ Ev)|].
      apply Exists_cons_hd. exact Hj.
Qed.

Lemma json_of_record_cases (gd : gmap string pyobj) :
  match json_of_record gd with
  | Ok doc =>
      map_Forall (fun _ v => is_Some (json_value v)) gd
      /\ doc = omap json_value gd
  | Raise e =>
      e = AttributeError
      /\ exists k v, gd !! k = Some v /\ json_value v = None
  end.
Proof.
  unfold json_of_record.
  pose proof (dump_list (map_to_list gd) ∅ (NoDup_fst_map_to_list gd)) as H.
  change (fun (acc : gmap string json) (kv : string * pyobj) =>
            rbind (tolist kv.2) (fun j => Ok (<[kv.1 := j]> acc)))
    with dump_step.
  destruct (for_each _ _ dump_step) as [doc|e].
  - destruct H as [Hall Hdoc]. split.
    + intros k v Hkv. rewrite Forall_forall in Hall.
      apply (Hall (k, v)). apply elem_of_map_to_list, Hkv.
    + apply map_eq. intros k. rewrite Hdoc, list_to_map_to_list.
      rewrite lookup_omap. destruct (gd !! k); reflexivity.
  - destruct H as [-> Hex]. split; [reflexivity|].
    apply Exists_exists in Hex as ([k v] & Hin & Hnone).
    exists k, v. split; [|exact Hnone].
    apply elem_of_map_to_list, Hin.
Qed.

(** X5.  The dump of a record either finds [tolist] on every value and
    writes each field's list or number under its name, or meets a value
    without it and raises an attribute error. *)
Theorem json_dump_outcome (gd : gmap string pyobj) :
  (map_Forall (fun _ v => is_Some (json_value v)) gd
   /\ json_of_record gd = Ok (omap json_value gd))
  \/ ((exists k v, gd !! k = Some v /\ json_value v = None)
      /\ json_of_record gd = Raise AttributeError).
Proof.
  pose proof (json_of_record_cases gd) as Hc.
  destruct (json_of_record gd) as [doc|e].
  - left. destruct Hc as [H ->]. auto.
  - right. destruct Hc as [-> H]. auto.
Qed.

(** X6.  A record the lookup returned, whose extra fields are NumPy
    values, is one the fit can dump: every field gets an entry. *)
Theorem lookup_record_dumps (libm : Np.Libm) (gaia : Gaia) (coord : SkyCoord)
    (approx_mag : option float) (radius : option Quantity) (mag_tol : float)
    (kwargs rec : gmap string pyobj) :
  get_gaia_data libm gaia coord approx_mag radius mag_tol kwargs = Ok rec ->
  map_Forall (fun _ v => is_Some (json_value v)) kwargs ->
  json_of_record rec = Ok (omap json_value rec)
  /\ dom (omap json_value rec : gmap string json) = dom rec.
Proof.
  intros H Hkw.
  apply lookup_Ok_record in H as (r & _ & _ & _ & _ & _ & _ & _ & ->).
  assert (Hall : map_Forall (fun _ v => is_Some (json_value v))
                   (kwargs ∪ expected_record libm r)).
  { apply map_Forall_union_2; [exact Hkw | apply expected_record_values]. }
  pose proof (json_of_record_cases (kwargs ∪ expected_record libm r)) as Hc.
  destruct (json_of_record _) as [doc|e].
  - destruct Hc as [_ ->]. split; [reflexivity|].
    apply set_eq. intros k. rewrite !elem_of_dom, lookup_omap.
    destruct (_ !! k) as [v|] eqn:E; cbn.
    + destruct (Hall k v E) as [j ->]. split; eauto.
    + split; intros [? ?]; discriminate.
  - exfalso. destruct Hc as (_ & k & v & Hk & Hnone).
    destruct (Hall k v Hk) as [j Hj]. congruence.
Qed.

Lemma lookup_record_dumps_witness :
  get_gaia_data SoftLibm.libm (Sample.catalog [Sample.star]) Sample.coord
    None None 1 ∅ = Ok Sample.star_record
  /\ json_of_record Sample.star_record
     = Ok (omap json_value Sample.star_record)
  /\ dom (omap json_value Sample.star_record : gmap string json)
     = dom Sample.star_record.
Proof.
  assert (H : get_gaia_data SoftLibm.libm (Sample.catalog [Sample.star])
                Sample.coord None None 1 ∅ = Ok Sample.star_record)
    by (vm_compute; reflexivity).
  split; [exact H|].
  exact (lookup_record_dumps SoftLibm.libm (Sample.catalog [Sample.star])
           Sample.coord None None 1 ∅ Sample.star_record H
           (map_Forall_empty _)).
Defined.

(* ===================================================================== *)
(** ** The closures: repeated calls, failing calls, whole sampler runs   *)
(* ===================================================================== *)

(** The hypotheses of the statements at the sample model and record. *)
Lemma sample_heap_record (d : gmap string pyobj) :
  heap (Sample.modelled d) !! 0%nat = Some d.
Proof.
  unfold Sample.modelled. cbn [heap with_heap]. map_lookup.
Qed.

Lemma sample_heap_kwargs (d : gmap string pyobj) :
  heap (Sample.modelled d) !! kwargs Sample.model = Some d.
Proof.
  unfold Sample.modelled, Sample.model. cbn [heap with_heap kwargs].
  map_lookup.
Qed.

Lemma sample_star_lookup :
  get_gaia_data SoftLibm.libm (Sample.catalog [Sample.star]) Sample.coord
    None None 1 ∅ = Ok Sample.star_record.
Proof. vm_compute; reflexivity. Qed.

Lemma insert3_absorb {V} (kw : gmap string V) (a b c a' b' c' : V)
    (k1 k2 k3 : string) :
  <[k3 := c]> (<[k2 := b]> (<[k1 := a]>
     (<[k3 := c']> (<[k2 := b']> (<[k1 := a']> kw)))))
  = <[k3 := c]> (<[k2 := b]> (<[k1 := a]> kw)).
Proof.
  apply map_eq. intros k.
  destruct (decide (k = k3)) as [->|H3]; [rewrite !lookup_insert_eq; done|].
  rewrite !(lookup_insert_ne _ k3) by congruence.
  destruct (decide (k = k2)) as [->|H2]; [rewrite !lookup_insert_eq; done|].
  rewrite !(lookup_insert_ne _ k2) by congruence.
  destruct (decide (k = k1)) as [->|H1]; [rewrite !lookup_insert_eq; done|].
  rewrite !(lookup_insert_ne _ k1) by congruence.
  rewrite !(lookup_insert_ne _ k3) by congruence.
  rewrite !(lookup_insert_ne _ k2) by congruence.
  rewrite !(lookup_insert_ne _ k1) by congruence.
  reflexivity.
Qed.

Lemma total_logprob_absorb (libm : Np.Libm) (iso : Isochrones)
    (mg eg mb eb mr er mg' eg' mb' eb' mr' er' : float)
    (kw : gmap string pyobj) (theta theta' : list float) :
  total_logprob libm iso mg eg mb eb mr er
    (total_logprob libm iso mg' eg' mb' eb' mr' er' kw theta').2 theta
  = total_logprob libm iso mg eg mb eb mr er kw theta.
Proof.
  unfold total_logprob, substituted. cbn [fold_left fst snd].
  rewrite insert3_absorb. reflexivity.
Qed.

(** X7.  An evaluation of the log-likelihood does not depend on the
    evaluations before it: at a point [theta], after an evaluation at any
    other point, it returns the value and leaves the model's dictionary
    that it returns and leaves when it is the first. *)
Theorem loglike_forgets_history (libm : Np.Libm) (iso : Isochrones)
    (mod_ : SingleStarModel) (gaia_data : loc) (theta theta' : list float)
    (w : World) (gd kw : gmap string pyobj) (mg eg mb eb mr er : float) :
  heap w !! gaia_data = Some gd ->
  heap w !! kwargs mod_ = Some kw ->
  kwargs mod_ <> gaia_data ->
  band_pair gd "G" mg eg -> band_pair gd "BP" mb eb ->
  band_pair gd "RP" mr er ->
  length theta = (n_params iso + 3)%nat ->
  length theta' = (n_params iso + 3)%nat ->
  loglike libm iso mod_ gaia_data theta
    (loglike libm iso mod_ gaia_data theta' w).2
  = loglike libm iso mod_ gaia_data theta w.
Proof.
  intros Hgd Hkw Hne HG HB HR Hlen Hlen'.
  rewrite (loglike_run libm iso mod_ gaia_data theta' w gd kw
             mg eg mb eb mr er Hgd Hkw Hne HG HB HR Hlen').
  cbn [snd].
  rewrite (loglike_run libm iso mod_ gaia_data theta w gd kw
             mg eg mb eb mr er Hgd Hkw Hne HG HB HR Hlen).
  erewrite (loglike_run libm iso mod_ gaia_data theta _ gd _
              mg eg mb eb mr er _ _ Hne HG HB HR Hlen).
  rewrite total_logprob_absorb. cbn [heap with_heap].
  rewrite insert_insert_eq. reflexivity.
  Unshelve.
  - cbn [heap with_heap]. rewrite lookup_insert_ne by exact Hne. exact Hgd.
  - cbn [heap with_heap]. apply lookup_insert_eq.
Qed.

Lemma loglike_forgets_history_witness :
  heap (Sample.modelled Sample.record) !! 0%nat = Some Sample.record
  /\ heap (Sample.modelled Sample.record) !! kwargs Sample.model
     = Some Sample.record
  /\ kwargs Sample.model <> 0%nat
  /\ band_pair Sample.record "G" 6 0.0005
  /\ band_pair Sample.record "BP" 6.25 0.001
  /\ band_pair Sample.record "RP" 5.5 0.001
  /\ length Sample.theta0 = (n_params Sample.iso + 3)%nat
  /\ length Sample.theta_underflow = (n_params Sample.iso + 3)%nat
  /\ loglike SoftLibm.libm Sample.iso Sample.model 0 Sample.theta0
       (loglike SoftLibm.libm Sample.iso Sample.model 0
          Sample.theta_underflow (Sample.modelled Sample.record)).2
     = loglike SoftLibm.libm Sample.iso Sample.model 0 Sample.theta0
         (Sample.modelled Sample.record).
Proof.
  assert (Hne : kwargs Sample.model <> 0%nat) by discriminate.
  assert (HG : band_pair Sample.record "G" 6 0.0005) by band_pair_here.
  assert (HB : band_pair Sample.record "BP" 6.25 0.001) by band_pair_here.
  assert (HR : band_pair Sample.record "RP" 5.5 0.001) by band_pair_here.
  assert (Hlen : length Sample.theta0 = (n_params Sample.iso + 3)%nat)
    by reflexivity.
  assert (Hlen' : length Sample.theta_underflow
                  = (n_params Sample.iso + 3)%nat) by reflexivity.
  repeat (split; [first [assumption | apply sample_heap_record
                        | apply sample_heap_kwargs]|]).
  exact (loglike_forgets_history SoftLibm.libm Sample.iso Sample.model 0
           Sample.theta0 Sample.theta_underflow _ _ _ 6 0.0005 6.25 0.001
           5.5 0.001 (sample_heap_record _) (sample_heap_kwargs _) Hne
           HG HB HR Hlen Hlen').
Defined.

Section Band.
Variable libm : Np.Libm.
Variable iso : Isochrones.
Variable mod_ : SingleStarModel.
Variable gaia_data : loc.

Lemma loglike_band_key_error (theta : list float) (ind0 i : nat)
    (k : string) (lp0 : float) (gd : gmap string pyobj) (w : World) :
  heap w !! gaia_data = Some gd ->
  gd !! k = None ->
  loglike_band libm mod_ gaia_data theta ind0 lp0 (i, k) w
  = (Raise (KeyError k), w).
Proof.
  intros Hgd Hk.
  unfold loglike_band, bind, deref, lift, dict_getitem.
  rewrite Hgd. cbv beta iota zeta. rewrite Hk. reflexivity.
Qed.

Lemma loglike_band_index_error (theta : list float) (ind0 i : nat)
    (k : string) (lp0 m e : float) (gd : gmap string pyobj) (w : World) :
  heap w !! gaia_data = Some gd ->
  band_pair gd k m e ->
  nth_error theta (ind0 + i) = None ->
  loglike_band libm mod_ gaia_data theta ind0 lp0 (i, k) w
  = (Raise IndexError, w).
Proof.
  intros Hgd (v & Hv & Hm & He) Ht.
  assert (Ht' : getitem (NdArray theta) (ind0 + i) = Raise IndexError)
    by (cbn [getitem]; rewrite Ht; reflexivity).
  unfold loglike_band, bind, deref, lift, dict_getitem.
  repeat (first [rewrite Hgd | rewrite Hv | rewrite He | rewrite Ht'];
          cbv beta iota zeta).
  reflexivity.
Qed.

(** The loop over the bands when the step of position [j] raises: the
    bands before it are substituted, the others are not reached. *)
Lemma loglike_loop_fails (theta : list float) (w : World)
    (gd kw : gmap string pyobj) (j : nat) (e : exn)
    (bands : list (string * (float * float))) :
  heap w !! gaia_data = Some gd ->
  heap w !! kwargs mod_ = Some kw ->
  kwargs mod_ <> gaia_data ->
  (j < 3)%nat ->
  length bands = j ->
  (forall i k m er, bands !! i = Some (k, (m, er)) ->
     jitter_vars !! i = Some k
     /\ exists eo, band_pair gd k m eo
          /\ nth_error theta (n_params iso + i)
             = Some (nth (n_params iso + i) theta nan)
          /\ er = inflated_error libm eo (nth (n_params iso + i) theta nan)) ->
  (forall k lp0 w', jitter_vars !! j = Some k ->
     heap w' !! gaia_data = Some gd ->
     loglike_band libm mod_ gaia_data theta (n_params iso) lp0 (j, k) w'
     = (Raise e, w')) ->
  loglike libm iso mod_ gaia_data theta w
  = (Raise e,
     with_heap (<[kwargs mod_ := substituted kw bands]> (heap w)) w).
Proof.
  intros Hgd Hkw Hne Hj Hlen Hok Hfail.
  assert (Hw : w = with_heap (<[kwargs mod_ := kw]> (heap w)) w).
  { rewrite insert_id by exact Hkw. symmetry. apply with_heap_id. }
  unfold loglike, enumerate, jitter_vars.
  cbn [length seq combine mfor].
  destruct bands as [|[k1 [m1 e1]] bands].
  { cbn in Hlen. subst j. unfold bind at 1. unfold bind at 1.
    rewrite (Hfail "G"%string 0 w eq_refl Hgd). cbn [substituted fold_left].
    rewrite <- Hw. reflexivity. }
  destruct (Hok 0%nat k1 m1 e1 eq_refl) as ([= <-] & eo1 & Hb1 & Hn1 & ->).
  unfold bind at 1. unfold bind at 1.
  rewrite (loglike_band_run libm mod_ gaia_data theta _ 0%nat "G" 0 m1 eo1
             _ gd kw w Hgd Hkw Hb1 Hn1).
  set (w1 := with_heap _ w).
  assert (Hgd1 : heap w1 !! gaia_data = Some gd).
  { cbn [w1 heap with_heap]. rewrite lookup_insert_ne by exact Hne.
    exact Hgd. }
  assert (Hkw1 : heap w1 !! kwargs mod_ = Some _) by apply lookup_insert_eq.
  destruct bands as [|[k2 [m2 e2]] bands].
  { cbn in Hlen. subst j. unfold bind at 1.
    rewrite (Hfail "BP"%string _ w1 eq_refl Hgd1). reflexivity. }
  destruct (Hok 1%nat k2 m2 e2 eq_refl) as ([= <-] & eo2 & Hb2 & Hn2 & ->).
  unfold bind at 1.
  rewrite (loglike_band_run libm mod_ gaia_data theta _ 1%nat "BP" _ m2 eo2
             _ gd _ w1 Hgd1 Hkw1 Hb2 Hn2).
  set (w2 := with_heap _ w1).
  assert (Hgd2 : heap w2 !! gaia_data = Some gd).
  { cbn [w2 heap with_heap]. rewrite lookup_insert_ne by exact Hne.
    exact Hgd1. }
  destruct bands as [|b3 bands].
  { cbn in Hlen. subst j. unfold bind at 1.
    rewrite (Hfail "RP"%string _ w2 eq_refl Hgd2).
    unfold w2, w1. cbn [heap with_heap substituted fold_left fst snd].
    rewrite insert_insert_eq. reflexivity. }
  cbn in Hlen. lia.
Qed.

End Band.

(** X8.  Called with fewer than [n_params + 3] coordinates, the
    log-likelihood raises an index error at the first band whose jitter
    coordinate is missing, and leaves in the model's dictionary the pairs
    of the bands before it. *)
Theorem loglike_short_theta (libm : Np.Libm) (iso : Isochrones)
    (mod_ : SingleStarModel) (gaia_data : loc) (theta : list float)
    (w : World) (gd kw : gmap string pyobj) (mg eg mb eb mr er : float) :
  heap w !! gaia_data = Some gd ->
  heap w !! kwargs mod_ = Some kw ->
  kwargs mod_ <> gaia_data ->
  band_pair gd "G" mg eg -> band_pair gd "BP" mb eb ->
  band_pair gd "RP" mr er ->
  (length theta < n_params iso + 3)%nat ->
  loglike libm iso mod_ gaia_data theta w
  = (Raise IndexError,
     with_heap
       (<[kwargs mod_ :=
            substituted kw
              (take (length theta - n_params iso)
                 [("G", (mg, inflated_error libm eg
                               (nth (n_params iso) theta nan)));
                  ("BP", (mb, inflated_error libm eb
                                (nth (n_params iso + 1) theta nan)));
                  ("RP", (mr, inflated_error libm er
                                (nth (n_params iso + 2) theta nan)))]%string)]>
          (heap w)) w).
Proof.
  intros Hgd Hkw Hne HG HB HR Hlen.
  set (n := n_params iso) in *.
  set (j := (length theta - n)%nat).
  assert (Hj : (j < 3)%nat) by (unfold j; lia).
  apply (loglike_loop_fails libm iso mod_ gaia_data theta w gd kw j);
    try assumption.
  - rewrite length_take. cbn [length]. lia.
  - intros i k m e Hi.
    apply lookup_take_Some in Hi as [Hi Hij].
    assert (Hn : nth_error theta (n + i) = Some (nth (n + i) theta nan))
      by (apply nth_error_nth'; unfold j in Hij; lia).
    destruct i as [|[|[|i]]]; cbn in Hi; try discriminate;
      injection Hi as <- <- <-; (split; [reflexivity|]).
    + exists eg. rewrite Nat.add_0_r in *. auto.
    + exists eb. auto.
    + exists er. auto.
  - intros k lp0 w' Hk Hgd'.
    assert (Hn : nth_error theta (n + j) = None)
      by (apply nth_error_None; unfold j; lia).
    destruct j as [|[|[|j']]]; [| | |lia]; cbn in Hk;
      injection Hk as <-.
    + apply (loglike_band_index_error libm mod_ gaia_data theta n 0%nat
               "G" lp0 mg eg gd w' Hgd' HG Hn).
    + apply (loglike_band_index_error libm mod_ gaia_data theta n 1%nat
               "BP" lp0 mb eb gd w' Hgd' HB Hn).
    + apply (loglike_band_index_error libm mod_ gaia_data theta n 2%nat
               "RP" lp0 mr er gd w' Hgd' HR Hn).
Qed.

Lemma loglike_short_theta_witness :
  (length Cases.short_theta < n_params Sample.iso + 3)%nat
  /\ loglike SoftLibm.libm Sample.iso Sample.model 0 Cases.short_theta
       (Sample.modelled Sample.record)
     = (Raise IndexError,
        with_heap
          (<[kwargs Sample.model :=
               substituted Sample.record
                 (take (length Cases.short_theta - n_params Sample.iso)
                    [("G", (6, inflated_error SoftLibm.libm 0.0005
                                 (nth (n_params Sample.iso)
                                    Cases.short_theta nan)));
                     ("BP", (6.25, inflated_error SoftLibm.libm 0.001
                                     (nth (n_params Sample.iso + 1)
                                        Cases.short_theta nan)));
                     ("RP", (5.5, inflated_error SoftLibm.libm 0.001
                                    (nth (n_params Sample.iso + 2)
                                       Cases.short_theta nan)))]%string)]>
             (heap (Sample.modelled Sample.record)))
          (Sample.modelled Sample.record)).
Proof.
  assert (Hne : kwargs Sample.model <> 0%nat) by discriminate.
  assert (HG : band_pair Sample.record "G" 6 0.0005) by band_pair_here.
  assert (HB : band_pair Sample.record "BP" 6.25 0.001) by band_pair_here.
  assert (HR : band_pair Sample.record "RP" 5.5 0.001) by band_pair_here.
  assert (Hlen : (length Cases.short_theta < n_params Sample.iso + 3)%nat)
    by (cbn; lia).
  split; [exact Hlen|].
  exact (loglike_short_theta SoftLibm.libm Sample.iso Sample.model 0
           Cases.short_theta _ _ _ 6 0.0005 6.25 0.001 5.5 0.001
           (sample_heap_record _) (sample_heap_kwargs _) Hne HG HB HR Hlen).
Defined.

(** X9.  With a record that lacks one of G, BP, RP, the log-likelihood
    raises a key error naming the first band that is missing, after it has
    written to the model's dictionary, for each band before it, the pair
    of the record's magnitude and of the record's error inflated by that
    band's jitter. *)
Theorem loglike_missing_band (libm : Np.Libm) (iso : Isochrones)
    (mod_ : SingleStarModel) (gaia_data : loc) (theta : list float)
    (w : World) (gd kw : gmap string pyobj) (j : nat) (k : string) :
  heap w !! gaia_data = Some gd ->
  heap w !! kwargs mod_ = Some kw ->
  kwargs mod_ <> gaia_data ->
  length theta = (n_params iso + 3)%nat ->
  jitter_vars !! j = Some k ->
  gd !! k = None ->
  (forall i k', (i < j)%nat -> jitter_vars !! i = Some k' ->
     exists m e, band_pair gd k' m e) ->
  exists bands : list (string * (float * float)),
    length bands = j
    /\ bands.*1 = take j jitter_vars
    /\ (forall (i : nat) (k' : string) (m e : float),
          bands !! i = Some (k', (m, e)) ->
          jitter_vars !! i = Some k'
          /\ exists eo : float,
               band_pair gd k' m eo
               /\ e = inflated_error libm eo
                        (nth (n_params iso + i) theta nan))
    /\ loglike libm iso mod_ gaia_data theta w
       = (Raise (KeyError k),
          with_heap (<[kwargs mod_ := substituted kw bands]> (heap w)) w).
Proof.
  intros Hgd Hkw Hne Hlen Hk Hmiss Hpres.
  set (n := n_params iso) in *.
  assert (Hnth : forall i, (i < 3)%nat ->
            nth_error theta (n + i) = Some (nth (n + i) theta nan))
    by (intros i Hi; apply nth_error_nth'; lia).
  assert (Hj : (j < 3)%nat).
  { apply lookup_lt_Some in Hk. exact Hk. }
  assert (Hfail : forall k0 lp0 w', jitter_vars !! j = Some k0 ->
            heap w' !! gaia_data = Some gd ->
            loglike_band libm mod_ gaia_data theta n lp0 (j, k0) w'
            = (Raise (KeyError k), w')).
  { intros k0 lp0 w' Hk0 Hgd'. rewrite Hk in Hk0. injection Hk0 as <-.
    apply (loglike_band_key_error libm mod_ gaia_data theta n j k lp0 gd w'
             Hgd' Hmiss). }
  assert (Hgoal : forall bands : list (string * (float * float)),
            length bands = j ->
            bands.*1 = take j jitter_vars ->
            (forall i k' m e, bands !! i = Some (k', (m, e)) ->
               jitter_vars !! i = Some k'
               /\ exists eo, band_pair gd k' m eo
                    /\ nth_error theta (n + i)
                       = Some (nth (n + i) theta nan)
                    /\ e = inflated_error libm eo (nth (n + i) theta nan)) ->
            exists bands : list (string * (float * float)),
              length bands = j
              /\ bands.*1 = take j jitter_vars
              /\ (forall (i : nat) (k' : string) (m e : float),
                    bands !! i = Some (k', (m, e)) ->
                    jitter_vars !! i = Some k'
                    /\ exists eo : float,
                         band_pair gd k' m eo
                         /\ e = inflated_error libm eo
                                  (nth (n + i) theta nan))
              /\ loglike libm iso mod_ gaia_data theta w
                 = (Raise (KeyError k),
                    with_heap (<[kwargs mod_ := substituted kw bands]>
                                 (heap w)) w)).
  { intros bands Hl Hkeys Hpin. exists bands.
    split; [exact Hl|]. split; [exact Hkeys|]. split.
    - intros i k' m e Hi.
      destruct (Hpin i k' m e Hi) as (H1 & eo & H2 & _ & H3).
      split; [exact H1|]. exists eo. split; assumption.
    - apply (loglike_loop_fails libm iso mod_ gaia_data theta w gd kw j);
        assumption. }
  destruct j as [|[|[|j']]]; [| | |lia].
  - apply (Hgoal []); [reflexivity | reflexivity |].
    intros i ? ? ? Hi. discriminate.
  - destruct (Hpres 0%nat "G"%string ltac:(lia) eq_refl) as (mg & eg & HG).
    apply (Hgoal [("G"%string,
                   (mg, inflated_error libm eg (nth (n + 0) theta nan)))]);
      [reflexivity | reflexivity |].
    intros i k' m e Hi. destruct i as [|i]; cbn in Hi; [|discriminate].
    injection Hi as <- <- <-. split; [reflexivity|].
    exists eg. repeat split; [exact HG | apply Hnth; lia].
  - destruct (Hpres 0%nat "G"%string ltac:(lia) eq_refl) as (mg & eg & HG).
    destruct (Hpres 1%nat "BP"%string ltac:(lia) eq_refl) as (mb & eb & HB).
    apply (Hgoal [("G"%string,
                   (mg, inflated_error libm eg (nth (n + 0) theta nan)));
                  ("BP"%string,
                   (mb, inflated_error libm eb (nth (n + 1) theta nan)))]);
      [reflexivity | reflexivity |].
    intros i k' m e Hi. destruct i as [|[|i]]; cbn in Hi; [| |discriminate];
      injection Hi as <- <- <-; (split; [reflexivity|]).
    + exists eg. repeat split; [exact HG | apply Hnth; lia].
    + exists eb. repeat split; [exact HB | apply Hnth; lia].
Qed.

Lemma loglike_missing_band_witness :
  Cases.no_rp_record !! "RP" = None
  /\ exists bands : list (string * (float * float)),
       length bands = 2%nat
       /\ bands.*1 = take 2 jitter_vars
       /\ (forall (i : nat) (k' : string) (m e : float),
             bands !! i = Some (k', (m, e)) ->
             jitter_vars !! i = Some k'
             /\ exists eo : float,
                  band_pair Cases.no_rp_record k' m eo
                  /\ e = inflated_error SoftLibm.libm eo
                           (nth (n_params Sample.iso + i) Sample.theta0 nan))
       /\ loglike SoftLibm.libm Sample.iso Sample.model 0 Sample.theta0
            (Sample.modelled Cases.no_rp_record)
          = (Raise (KeyError "RP"),
             with_heap
               (<[kwargs Sample.model
                    := substituted Cases.no_rp_record bands]>
                  (heap (Sample.modelled Cases.no_rp_record)))
               (Sample.modelled Cases.no_rp_record)).
Proof.
  assert (Hne : kwargs Sample.model <> 0%nat) by discriminate.
  assert (Hlen : length Sample.theta0 = (n_params Sample.iso + 3)%nat)
    by reflexivity.
  assert (Hk : jitter_vars !! 2%nat = Some "RP"%string) by reflexivity.
  assert (Hmiss : Cases.no_rp_record !! "RP" = None).
  { unfold Cases.no_rp_record.
    rewrite lookup_insert_ne by discriminate.
    apply lookup_singleton_ne. discriminate. }
  assert (Hpres : forall (i : nat) (k' : string), (i < 2)%nat ->
            jitter_vars !! i = Some k' ->
            exists m e, band_pair Cases.no_rp_record k' m e).
  { intros [|[|i]] k' Hi Hk'; [| |lia]; injection Hk' as <-.
    - exists 6, 0.0005, (NdArray [6; 0.0005]).
      split; [unfold Cases.no_rp_record; map_lookup | split; reflexivity].
    - exists 6.25, 0.001, (NdArray [6.25; 0.001]).
      split; [unfold Cases.no_rp_record; map_lookup | split; reflexivity]. }
  split; [exact Hmiss|].
  exact (loglike_missing_band SoftLibm.libm Sample.iso Sample.model 0
           Sample.theta0 _ _ _ 2 "RP" (sample_heap_record _)
           (sample_heap_kwargs _) Hne Hlen Hk Hmiss Hpres).
Defined.

Lemma writes_only_rest (l : loc) (w w' : World) :
  writes_only l w w' ->
  dirs w' = dirs w /\ files w' = files w /\ clock w' = clock w
  /\ ticks w' = ticks w /\ trace w' = trace w.
Proof. intros [h _]. repeat split. Qed.

(** X10.  Whatever the sampler asks of the two closures, and whether a
    call raises or not, the run writes no file, creates no directory,
    prints nothing and does not read the clock. *)
Theorem sampler_callbacks_no_io (libm : Np.Libm) (iso : Isochrones)
    (mod_ : SingleStarModel) (gaia_data : loc) (p : SamplerRun) (w : World) :
  let w' := (run_sampler libm iso mod_ gaia_data p w).2 in
  files w' = files w /\ dirs w' = dirs w /\ trace w' = trace w
  /\ ticks w' = ticks w /\ clock w' = clock w.
Proof.
  destruct (writes_only_rest _ _ _
              (run_sampler_writes_only libm iso mod_ gaia_data p w))
    as (? & ? & ? & ? & ?).
  auto.
Qed.

Lemma run_sampler_total (libm : Np.Libm) (iso : Isochrones)
    (mod_ : SingleStarModel) (gaia_data : loc) (p : SamplerRun)
    (gd : gmap string pyobj) (mg eg mb eb mr er : float) :
  kwargs mod_ <> gaia_data ->
  band_pair gd "G" mg eg -> band_pair gd "BP" mb eb ->
  band_pair gd "RP" mr er ->
  well_dimensioned iso p ->
  forall (w : World) (kw : gmap string pyobj),
    heap w !! gaia_data = Some gd ->
    heap w !! kwargs mod_ = Some kw ->
    exists results w',
      run_sampler libm iso mod_ gaia_data p w = (Ok results, w')
      /\ heap w' !! gaia_data = Some gd
      /\ is_Some (heap w' !! kwargs mod_).
Proof.
  intros Hne HG HB HR Hp.
  induction Hp as [theta k Hlen _ IH | u k _ IH | r]; intros w kw Hgd Hkw;
    cbn [run_sampler].
  - unfold bind.
    rewrite (loglike_run libm iso mod_ gaia_data theta w gd kw
               mg eg mb eb mr er Hgd Hkw Hne HG HB HR Hlen).
    eapply IH.
    + cbn [heap with_heap]. rewrite lookup_insert_ne by exact Hne. exact Hgd.
    + cbn [heap with_heap]. apply lookup_insert_eq.
  - eapply IH; eassumption.
  - exists r, w. unfold ret. eauto.
Qed.

(** X11.  With a record that has the three band pairs, a sampler that
    keeps to its dimension gets a value from every likelihood call and
    ends with its results; the record is as it was. *)
Theorem sampler_run_completes (libm : Np.Libm) (iso : Isochrones)
    (mod_ : SingleStarModel) (gaia_data : loc) (p : SamplerRun)
    (w : World) (gd kw : gmap string pyobj) (mg eg mb eb mr er : float) :
  heap w !! gaia_data = Some gd ->
  heap w !! kwargs mod_ = Some kw ->
  kwargs mod_ <> gaia_data ->
  band_pair gd "G" mg eg -> band_pair gd "BP" mb eb ->
  band_pair gd "RP" mr er ->
  well_dimensioned iso p ->
  exists results w',
    run_sampler libm iso mod_ gaia_data p w = (Ok results, w')
    /\ heap w' !! gaia_data = Some gd.
Proof.
  intros Hgd Hkw Hne HG HB HR Hp.
  destruct (run_sampler_total libm iso mod_ gaia_data p gd mg eg mb eb mr er
              Hne HG HB HR Hp w kw Hgd Hkw) as (r & w' & H1 & H2 & _).
  eauto.
Qed.

Lemma sample_run_well_dimensioned :
  well_dimensioned Sample.iso (run_nested Sample.dynesty 8).
Proof.
  cbn [run_nested Sample.dynesty].
  apply wd_prior. apply wd_loglike; [reflexivity|].
  intros v. apply wd_finished.
Qed.

Lemma sampler_run_completes_witness :
  well_dimensioned Sample.iso (run_nested Sample.dynesty 8)
  /\ exists results w',
       run_sampler SoftLibm.libm Sample.iso Sample.model 0
         (run_nested Sample.dynesty 8) (Sample.modelled Sample.record)
       = (Ok results, w')
       /\ heap w' !! 0%nat = Some Sample.record.
Proof.
  assert (Hne : kwargs Sample.model <> 0%nat) by discriminate.
  assert (HG : band_pair Sample.record "G" 6 0.0005) by band_pair_here.
  assert (HB : band_pair Sample.record "BP" 6.25 0.001) by band_pair_here.
  assert (HR : band_pair Sample.record "RP" 5.5 0.001) by band_pair_here.
  split; [exact sample_run_well_dimensioned|].
  exact (sampler_run_completes SoftLibm.libm Sample.iso Sample.model 0
           (run_nested Sample.dynesty 8) _ _ _ 6 0.0005 6.25 0.001 5.5 0.001
           (sample_heap_record _) (sample_heap_kwargs _) Hne HG HB HR
           sample_run_well_dimensioned).
Defined.

(** X12.  The record of a lookup whose extra fields replace none of G,
    BP, RP is one the sampler can run on: a run that keeps to its
    dimension ends with its results. *)
Theorem looked_up_record_runs (libm : Np.Libm) (iso : Isochrones)
    (gaia : Gaia) (coord : SkyCoord) (approx_mag : option float)
    (radius : option Quantity) (mag_tol : float)
    (extra rec kw : gmap string pyobj)
    (mod_ : SingleStarModel) (gaia_data : loc) (p : SamplerRun) (w : World) :
  get_gaia_data libm gaia coord approx_mag radius mag_tol extra = Ok rec ->
  extra !! "G" = None -> extra !! "BP" = None -> extra !! "RP" = None ->
  heap w !! gaia_data = Some rec ->
  heap w !! kwargs mod_ = Some kw ->
  kwargs mod_ <> gaia_data ->
  well_dimensioned iso p ->
  exists results w',
    run_sampler libm iso mod_ gaia_data p w = (Ok results, w')
    /\ heap w' !! gaia_data = Some rec.
Proof.
  intros H HG HB HR Hgd Hkw Hne Hp.
  apply lookup_Ok_record in H as (r & _ & _ & _ & _ & _ & _ & _ & ->).
  assert (Hband : forall k : string,
            k ∈ ["G"; "BP"; "RP"; "parallax"]%string -> extra !! k = None ->
            exists m e, band_pair (extra ∪ expected_record libm r) k m e).
  { intros k Hk Hx.
    destruct (expected_record_band libm r k Hk) as (a & b & Hab).
    exists a, b, (NdArray [a; b]).
    rewrite lookup_union_r by exact Hx. auto. }
  destruct (Hband "G"%string ltac:(set_solver) HG) as (mg & eg & HbG).
  destruct (Hband "BP"%string ltac:(set_solver) HB) as (mb & eb & HbB).
  destruct (Hband "RP"%string ltac:(set_solver) HR) as (mr & er & HbR).
  destruct (run_sampler_total libm iso mod_ gaia_data p _ mg eg mb eb mr er
              Hne HbG HbB HbR Hp w kw Hgd Hkw) as (res & w' & H1 & H2 & _).
  eauto.
Qed.

Lemma looked_up_record_runs_witness :
  get_gaia_data SoftLibm.libm (Sample.catalog [Sample.star]) Sample.coord
    None None 1 ∅ = Ok Sample.star_record
  /\ exists results w',
       run_sampler SoftLibm.libm Sample.iso Sample.model 0
         (run_nested Sample.dynesty 8) (Sample.modelled Sample.star_record)
       = (Ok results, w')
       /\ heap w' !! 0%nat = Some Sample.star_record.
Proof.
  assert (Hne : kwargs Sample.model <> 0%nat) by discriminate.
  split; [exact sample_star_lookup|].
  exact (looked_up_record_runs SoftLibm.libm Sample.iso
           (Sample.catalog [Sample.star]) Sample.coord None None 1 ∅
           Sample.star_record Sample.star_record Sample.model 0
           (run_nested Sample.dynesty 8) _ sample_star_lookup
           (lookup_empty _) (lookup_empty _) (lookup_empty _)
           (sample_heap_record _) (sample_heap_kwargs _) Hne
           sample_run_well_dimensioned).
Defined.

(** X13.  For a model prior that keeps the length of its argument and a
    cube of at least [n_params] coordinates, the prior transform keeps the
    dimension, gives the first [n_params] coordinates to the model's
    prior, and maps every later coordinate [c] to [-10 + 20 c]. *)
Theorem prior_transform_cube (iso : Isochrones) (u : list float) :
  (forall c, length (mnest_prior iso c) = length c) ->
  (n_params iso <= length u)%nat ->
  length (prior_transform iso u) = length u
  /\ take (n_params iso) (prior_transform iso u)
     = mnest_prior iso (take (n_params iso) u)
  /\ (forall i : nat,
        prior_transform iso u !! (n_params iso + i)%nat
        = (fun c => -10 + 20 * c) <$> u !! (n_params iso + i)%nat).
Proof.
  intros Hlen Hn. unfold prior_transform. cbv zeta.
  assert (Hl : length (mnest_prior iso (take (n_params iso) u))
               = n_params iso).
  { rewrite Hlen, length_take. lia. }
  split; [|split].
  - rewrite length_app, length_map, length_drop, Hl. lia.
  - rewrite take_app_length' by (symmetry; exact Hl). reflexivity.
  - intros i. rewrite lookup_app_r by lia. rewrite Hl.
    replace (n_params iso + i - n_params iso)%nat with i by lia.
    rewrite list_lookup_fmap, lookup_drop. reflexivity.
Qed.

Lemma prior_transform_cube_witness :
  (n_params Sample.iso <= length Sample.theta0)%nat
  /\ length (prior_transform Sample.iso Sample.theta0)
     = length Sample.theta0
  /\ take (n_params Sample.iso) (prior_transform Sample.iso Sample.theta0)
     = mnest_prior Sample.iso (take (n_params Sample.iso) Sample.theta0)
  /\ (forall i : nat,
        prior_transform Sample.iso Sample.theta0
          !! (n_params Sample.iso + i)%nat
        = (fun c => -10 + 20 * c)
            <$> Sample.theta0 !! (n_params Sample.iso + i)%nat).
Proof.
  assert (Hlen : forall c, length (mnest_prior Sample.iso c) = length c)
    by (intros c; apply length_map).
  assert (Hn : (n_params Sample.iso <= length Sample.theta0)%nat)
    by (cbn; lia).
  split; [exact Hn|].
  exact (prior_transform_cube Sample.iso Sample.theta0 Hlen Hn).
Defined.

(* ===================================================================== *)
(** ** The two sample sets                                               *)
(* ===================================================================== *)

Lemma columns_loop (df : DataFrame) (names : list string)
    (acc : list (list float)) :
  match for_each names acc
          (fun acc c => (v <- column df c ;; Ok (acc ++ [v]))%res) with
  | Ok cols =>
      exists vs, cols = acc ++ vs
                 /\ Forall2 (fun c v => df !! c = Some v) names vs
  | Raise e => exists c, e = KeyError c /\ c ∈ names /\ df !! c = None
  end.
Proof.
  revert acc. induction names as [|c names IH]; intros acc; cbn [for_each].
  - exists []. split; [symmetry; apply app_nil_r | constructor].
  - unfold column at 1. destruct (df !! c) as [v|] eqn:Hc; cbn [rbind].
    + specialize (IH (acc ++ [v])).
      destruct (for_each names _ _) as [cols|e].
      * destruct IH as (vs & -> & Hvs). exists (v :: vs). split.
        -- rewrite <- app_assoc. reflexivity.
        -- constructor; assumption.
      * destruct IH as (c' & -> & Hin & Hnone). exists c'.
        split; [reflexivity|]. split; [right; exact Hin | exact Hnone].
    + exists c. split; [reflexivity|]. split; [left | exact Hc].
Qed.

Lemma derived_frame_cases (iso : Isochrones) (df : DataFrame) :
  match derived_frame iso df with
  | Ok derived =>
      exists cols distance av,
        Forall2 (fun c v => df !! c = Some v) (param_names iso) cols
        /\ df !! "distance" = Some distance
        /\ df !! "AV" = Some av
        /\ derived
           = <["AV" := av]>
               (<["distance" := distance]>
                  (<["parallax" := map (fun d => 1000 / d) distance]>
                     (ic iso cols)))
  | Raise e =>
      exists c, e = KeyError c /\ df !! c = None
                /\ (c ∈ param_names iso \/ c = "distance" \/ c = "AV")%string
  end.
Proof.
  unfold derived_frame.
  pose proof (columns_loop df (param_names iso) []) as Hc.
  destruct (for_each _ _ _) as [cols|e]; cbn [rbind].
  - destruct Hc as (vs & -> & Hvs). cbn [app].
    unfold column.
    destruct (df !! "distance") as [distance|] eqn:Hd; cbn [rbind].
    + destruct (df !! "AV") as [av|] eqn:Ha; cbn [rbind].
      * exists vs, distance, av. auto.
      * exists "AV"%string. auto.
    + exists "distance"%string. auto.
  - destruct Hc as (c & -> & Hin & Hnone). exists c. auto.
Qed.

(** X14.  The derived sample set is the interpolator's table for the
    parameter columns of the posterior sample set, with the columns
    parallax, distance and AV written over it: AV and distance are the
    posterior's, and every other column is the interpolator's. *)
Theorem derived_frame_columns (iso : Isochrones) (df derived : DataFrame) :
  derived_frame iso df = Ok derived ->
  exists cols : list (list float),
    Forall2 (fun c v => df !! c = Some v) (param_names iso) cols
    /\ derived !! "AV" = df !! "AV"
    /\ derived !! "distance" = df !! "distance"
    /\ dom derived
       = dom (ic iso cols) ∪ {[ "parallax"; "distance"; "AV" ]}%string
    /\ forall c : string,
         c <> "parallax"%string -> c <> "distance"%string ->
         c <> "AV"%string ->
         derived !! c = ic iso cols !! c.
Proof.
  intros H. pose proof (derived_frame_cases iso df) as Hc.
  rewrite H in Hc. destruct Hc as (cols & distance & av & Hcols & Hd & Ha & ->).
  exists cols. split; [exact Hcols|]. split.
  { rewrite lookup_insert_eq. symmetry. exact Ha. }
  split.
  { rewrite lookup_insert_ne by discriminate.
    rewrite lookup_insert_eq. symmetry. exact Hd. }
  split.
  { rewrite !dom_insert_L. set_solver. }
  intros c H1 H2 H3.
  rewrite !lookup_insert_ne by congruence. reflexivity.
Qed.

Lemma derived_frame_columns_witness :
  exists derived,
    derived_frame Sample.iso Cases.posterior = Ok derived
    /\ exists cols : list (list float),
         Forall2 (fun c v => Cases.posterior !! c = Some v)
           (param_names Sample.iso) cols
         /\ derived !! "AV" = Cases.posterior !! "AV"
         /\ derived !! "distance" = Cases.posterior !! "distance"
         /\ dom derived
            = dom (ic Sample.iso cols)
              ∪ {[ "parallax"; "distance"; "AV" ]}%string
         /\ forall c : string,
              c <> "parallax"%string -> c <> "distance"%string ->
              c <> "AV"%string ->
              derived !! c = ic Sample.iso cols !! c.
Proof.
  assert (H : match derived_frame Sample.iso Cases.posterior with
              | Ok _ => true
              | Raise _ => false
              end = true) by (vm_compute; reflexivity).
  destruct (derived_frame Sample.iso Cases.posterior) as [derived|e] eqn:E;
    [|discriminate H].
  exists derived. split; [reflexivity|].
  exact (derived_frame_columns Sample.iso Cases.posterior derived E).
Defined.

(** X15.  The derived sample set exists exactly when the posterior
    sample set has every model parameter, the distance and AV as columns;
    otherwise a key error names a column that is missing. *)
Theorem derived_frame_defined_iff (iso : Isochrones) (df : DataFrame) :
  ((exists derived, derived_frame iso df = Ok derived)
   <-> Forall (fun c => is_Some (df !! c))
         (param_names iso ++ ["distance"; "AV"]%string))
  /\ forall e, derived_frame iso df = Raise e ->
       exists c, e = KeyError c /\ df !! c = None.
Proof.
  pose proof (derived_frame_cases iso df) as Hc.
  destruct (derived_frame iso df) as [derived|e].
  - destruct Hc as (cols & distance & av & Hcols & Hd & Ha & _).
    split; [|discriminate].
    split; [intros _ | eauto].
    apply Forall_app. split.
    + clear -Hcols. induction Hcols; constructor; eauto.
    + repeat constructor; eauto.
  - destruct Hc as (c & -> & Hnone & Hin).
    split.
    + split; [intros [? ?]; discriminate|].
      intros Hall. exfalso.
      rewrite Forall_forall in Hall.
      assert (Hc : c ∈ param_names iso ++ ["distance"; "AV"]%string).
      { apply elem_of_app. destruct Hin as [Hin | [-> | ->]];
          [left; exact Hin | right; set_solver | right; set_solver]. }
      destruct (Hall c Hc) as [? Hsome]. congruence.
    + intros e [= <-]. eauto.
Qed.

Lemma py_dict_fold {V} (pairs : list (string * V)) (m : gmap string V) :
  fold_left (fun d kv => <[kv.1 := kv.2]> d) pairs m
  = list_to_map (reverse pairs) ∪ m.
Proof.
  revert m. induction pairs as [|[k v] pairs IH]; intros m; cbn [fold_left].
  - cbn. symmetry. apply (left_id_L ∅ (∪)).
  - rewrite IH, reverse_cons, list_to_map_app. cbn [list_to_map foldr].
    rewrite <- (assoc_L (∪)). f_equal.
    rewrite insert_empty, <- insert_union_singleton_l. reflexivity.
Qed.

Lemma py_dict_lookup {V} (pairs : list (string * V)) (j : nat) (k : string)
    (v : V) :
  NoDup pairs.*1 -> pairs !! j = Some (k, v) -> py_dict pairs !! k = Some v.
Proof.
  intros Hnd Hj. unfold py_dict. rewrite py_dict_fold.
  rewrite (right_id_L ∅ (∪)).
  apply elem_of_list_to_map_1.
  - rewrite fmap_reverse, reverse_Permutation. exact Hnd.
  - apply elem_of_reverse. eapply list_elem_of_lookup_2. exact Hj.
Qed.

Lemma py_dict_lookup_None {V} (pairs : list (string * V)) (k : string) :
  k ∉ pairs.*1 -> py_dict pairs !! k = None.
Proof.
  intros Hk. unfold py_dict. rewrite py_dict_fold.
  rewrite (right_id_L ∅ (∪)).
  apply not_elem_of_list_to_map_1.
  rewrite fmap_reverse, elem_of_reverse. exact Hk.
Qed.

Lemma fst_combine_take {A B} (xs : list A) (ys : list B) :
  (combine xs ys).*1 = take (length ys) xs.
Proof.
  revert ys. induction xs as [|x xs IH]; intros [|y ys]; cbn;
    try reflexivity.
  f_equal. apply IH.
Qed.

Lemma combine_lookup {A B} (xs : list A) (ys : list B) (j : nat) (x : A)
    (y : B) :
  xs !! j = Some x -> ys !! j = Some y -> combine xs ys !! j = Some (x, y).
Proof.
  revert ys j. induction xs as [|x0 xs IH]; intros [|y0 ys] [|j];
    cbn; try discriminate.
  - intros [= ->] [= ->]. reflexivity.
  - apply IH.
Qed.

Lemma transpose_length (a : Array2) : length (transpose a) = ncols a.
Proof. unfold transpose. rewrite length_map, length_seq. reflexivity. Qed.

Lemma transpose_lookup (a : Array2) (j : nat) :
  (j < ncols a)%nat ->
  transpose a !! j = Some (map (fun r => nth j r nan) (rows a)).
Proof.
  intros Hj. unfold transpose. rewrite list_lookup_fmap.
  rewrite lookup_seq_lt by exact Hj. reflexivity.
Qed.

(** X16.  When the parameter names and the three jitter names are all
    different, the posterior sample set has under the [j]-th name the
    [j]-th column of the resampled chain, and no column under a name at or
    beyond the chain's width. *)
Theorem posterior_frame_column (iso : Isochrones) (samples : Array2) :
  let names := param_names iso
               ++ map (fun k => ("log_jitter_" ++ k)%string) jitter_vars in
  NoDup names ->
  (forall (j : nat) (c : string),
     names !! j = Some c -> (j < ncols samples)%nat ->
     posterior_frame iso samples !! c
     = Some (map (fun r => nth j r nan) (rows samples)))
  /\ (forall c : string,
        c ∉ take (ncols samples) names ->
        posterior_frame iso samples !! c = None).
Proof.
  intros names Hnd. unfold posterior_frame. fold names. split.
  - intros j c Hj Hlt.
    apply (py_dict_lookup _ j).
    + rewrite fst_combine_take.
      eapply sublist_NoDup; [exact Hnd | apply sublist_take].
    + apply combine_lookup; [exact Hj | apply transpose_lookup, Hlt].
  - intros c Hc. apply py_dict_lookup_None.
    rewrite fst_combine_take, transpose_length. exact Hc.
Qed.

Lemma posterior_frame_column_witness :
  NoDup (param_names Sample.iso
         ++ map (fun k => ("log_jitter_" ++ k)%string) jitter_vars)
  /\ (forall (j : nat) (c : string),
        (param_names Sample.iso
         ++ map (fun k => ("log_jitter_" ++ k)%string) jitter_vars) !! j
        = Some c ->
        (j < ncols Cases.chain)%nat ->
        posterior_frame Sample.iso Cases.chain !! c
        = Some (map (fun r => nth j r nan) (rows Cases.chain)))
  /\ (forall c : string,
        c ∉ take (ncols Cases.chain)
              (param_names Sample.iso
               ++ map (fun k => ("log_jitter_" ++ k)%string) jitter_vars) ->
        posterior_frame Sample.iso Cases.chain !! c = None).
Proof.
  assert (Hnd : NoDup (param_names Sample.iso
                       ++ map (fun k => ("log_jitter_" ++ k)%string)
                            jitter_vars)).
  { apply (bool_decide_unpack _). vm_compute. reflexivity. }
  split; [exact Hnd|].
  exact (posterior_frame_column Sample.iso Cases.chain Hnd).
Defined.

(* ===================================================================== *)
(** ** The fit: what a fresh run does, leaves on disk and leaves alone   *)
(* ===================================================================== *)

Lemma fit_fresh_full_inv (libm : Np.Libm) (iso : Isochrones)
    (dynesty : Dynesty) (describe : DataFrame -> DataFrame)
    (version name : string) (gaia_data : loc) (clobber : bool)
    (output_dir : string) (w0 w1 : World) (mod_ : SingleStarModel)
    (results : Results) :
  fit_gaia_data libm iso dynesty describe version name gaia_data clobber
    output_dir w0 = (Ok (Fitted mod_ results), w1) ->
  let out := path_join (path_join output_dir version) name in
  let fn := path_join out "star.h5" in
  let l := fresh (dom (heap w0)) in
  let ndim := (n_params iso + 3)%nat in
  let total_time :=
    (clock w0 (S (ticks w0)) - clock w0 (ticks w0)) / 60 in
  exists (gd : gmap string pyobj) (doc summary : gmap string json)
         (z : float) (derived : DataFrame) (wS : World)
         (t1 : gmap string DataFrame),
    let df := posterior_frame iso
                (resample_equal dynesty (samples results)
                   (map (fun lw => Np.exp libm (lw - z)) (logwt results))) in
    let files0 := <[path_join out "gaia.json" := JsonFile doc]>
                    (<[path_join out "gaia.json" := EmptyFile]> (files w0)) in
    heap w0 !! gaia_data = Some gd
    /\ files w0 !! out = None
    /\ (clobber = true
        \/ (files w0 !! fn = None /\ fn ∉ dirs w0))
    /\ json_of_record gd = Ok doc
    /\ run_sampler libm iso
         {| kwargs := l; _samples := None; _derived_samples := None |}
         gaia_data (run_nested dynesty ndim)
         (with_trace (RunNested :: NestedSamplerCreated ndim :: trace w0)
            (with_ticks (S (ticks w0))
               (with_files files0
                  (with_dirs ({[out]} ∪ dirs w0)
                     (with_heap (<[l := init_kwargs iso gd]> (heap w0))
                        w0)))))
       = (Ok results, wS)
    /\ last_item (logz results) = Ok z
    /\ derived_frame iso df = Ok derived
    /\ sampling_summary results total_time = Ok summary
    /\ mod_ = {| kwargs := l; _samples := Some df;
                 _derived_samples := Some derived |}
    /\ ((files w0 !! fn = None /\ t1 = {[ "samples" := df ]})
        \/ exists t0, files w0 !! fn = Some (HDFStore t0)
                      /\ t1 = <["samples" := df]> t0)
    /\ heap w1 = heap wS
    /\ dirs w1 = {[out]} ∪ dirs w0
    /\ ticks w1 = S (S (ticks w0))
    /\ trace w1 = Printed "Sampling took {0} minutes" total_time
                    :: RunNested :: NestedSamplerCreated ndim :: trace w0
    /\ files w1
       = <[path_join out "star_sampling_summary.json" := JsonFile summary]>
           (<[path_join out "star_sampling_summary.json" := EmptyFile]>
              (<[path_join out "star_summary.csv"
                   := CsvFile (describe derived)]>
                 (<[fn := HDFStore (<["derived_samples" := derived]> t1)]>
                    (<[fn := HDFStore t1]> files0)))).
Proof.
  intros H out fn l ndim total_time.
  assert (Hjson : path_join out "gaia.json" <> fn).
  { intros E. apply path_join_inj in E; [discriminate | reflexivity..]. }
  unfold fit_gaia_data, new_model, bind, deref in H.
  fold out in H. fold fn in H.
  destruct (heap w0 !! gaia_data) as [gd|] eqn:Hgd; [|discriminate].
  unfold alloc, ret, makedirs in H. fold l in H.
  cbn [files heap dirs with_heap with_dirs] in H.
  destruct (files w0 !! out) as [?|] eqn:Hout; [discriminate|].
  unfold path_exists in H.
  cbn [files heap dirs with_heap with_dirs] in H.
  destruct (negb clobber && _) eqn:Hfound.
  { unfold read_hdf in H. cbn [files with_heap with_dirs] in H.
    destruct (files w0 !! fn) as [[]|]; try discriminate.
    destruct (_ !! "samples"); [|discriminate].
    cbn [files with_heap with_dirs] in H.
    destruct (files w0 !! fn) as [[]|]; try discriminate.
    destruct (_ !! "derived_samples"); discriminate. }
  assert (Hl : l <> gaia_data).
  { intros E. apply (is_fresh (dom (heap w0))). fold l. rewrite E.
    apply elem_of_dom. eauto. }
  unfold open_w, write_file, emit, time_time, lift in H.
  cbn [files heap dirs ticks trace clock with_heap with_dirs with_files
       with_ticks with_trace] in H.
  rewrite lookup_insert_ne in H by exact Hl. rewrite Hgd in H.
  change (for_each (map_to_list gd) ∅ _) with (json_of_record gd) in H.
  destruct (json_of_record gd) as [doc|] eqn:Hdoc; [|discriminate].
  cbn [length jitter_vars] in H. fold ndim in H.
  match type of H with
  | context [run_sampler ?a ?b ?c ?d ?p ?w] =>
      pose proof (run_sampler_writes_only a b c d p w) as Hwo;
      destruct (run_sampler a b c d p w) as [[r|?] wS] eqn:Hrun;
        [|discriminate]
  end.
  apply writes_only_rest in Hwo as (Hd & Hf & Hc & Ht & Htr).
  cbn [snd files heap dirs ticks trace clock with_heap with_dirs with_files
       with_ticks with_trace] in Hd, Hf, Hc, Ht, Htr.
  cbn [files heap dirs ticks trace clock with_heap with_dirs with_files
       with_ticks with_trace] in H.
  rewrite Hc, Ht, Htr in H.
  destruct (last_item (logz r)) as [z|] eqn:Hz; [|discriminate].
  destruct (derived_frame iso _) as [derived|] eqn:Hder; [|discriminate].
  unfold to_hdf in H.
  cbn [files heap dirs ticks trace clock with_heap with_dirs with_files
       with_ticks with_trace] in H.
  rewrite Hf in H.
  rewrite !(lookup_insert_ne _ (path_join out "gaia.json") fn) in H
    by exact Hjson.
  cbn [files heap dirs ticks trace clock with_heap with_dirs with_files
       with_ticks with_trace] in Hrun.
  assert (Hclob : clobber = true \/ (files w0 !! fn = None /\ fn ∉ dirs w0)).
  { destruct clobber; [left; reflexivity | right].
    cbn [negb andb] in Hfound. apply orb_false_iff in Hfound as [H1 H2].
    apply bool_decide_eq_false in H1, H2. split.
    - destruct (files w0 !! fn); [exfalso; apply H1; eauto | reflexivity].
    - intros Hin. apply H2. set_solver. }
  destruct (files w0 !! fn) as [[| t0 | |]|] eqn:Hfn; try discriminate;
    cbv beta iota zeta in H;
    cbn [files heap dirs ticks trace clock with_heap with_dirs with_files
         with_ticks with_trace] in H;
    rewrite lookup_insert_eq in H;
    cbv beta iota zeta in H;
    (destruct (sampling_summary r _) as [summary|] eqn:Hsum;
       [|discriminate]);
    cbn [files heap dirs ticks trace clock with_heap with_dirs with_files
         with_ticks with_trace] in H;
    injection H as <- <- <-;
    eexists gd, doc, summary, z, derived, wS, _;
    cbn [files heap dirs ticks trace clock with_heap with_dirs with_files
         with_ticks with_trace kwargs];
    do 9 (split; [first [assumption | reflexivity]|]).
  - split; [right; eexists; split; reflexivity|].
    repeat split; try assumption; try reflexivity.
  - split; [left; split; reflexivity|].
    repeat split; try assumption; try reflexivity.
Qed.

Lemma keeps_heap_refl (l : loc) (w : World) : keeps_heap l w w.
Proof. intros l' _. reflexivity. Qed.

Lemma keeps_heap_trans (l : loc) (w1 w2 w3 : World) :
  keeps_heap l w1 w2 -> keeps_heap l w2 w3 -> keeps_heap l w1 w3.
Proof. intros H1 H2 l' Hl. rewrite (H2 l' Hl). apply (H1 l' Hl). Qed.

Lemma writes_only_keeps_heap (l : loc) (w w' : World) :
  writes_only l w w' -> keeps_heap l w w'.
Proof. intros H l' Hl. apply (writes_only_lookup _ _ _ _ H Hl). Qed.

Lemma bind_keeps_heap {A B} (l : loc) (c : M A) (k : A -> M B) :
  (forall w, keeps_heap l w (c w).2) ->
  (forall a w, keeps_heap l w (k a w).2) ->
  forall w, keeps_heap l w (bind c k w).2.
Proof.
  intros Hc Hk w. unfold bind. specialize (Hc w).
  destruct (c w) as [[a|e] w']; cbn [snd] in *.
  - eapply keeps_heap_trans; [exact Hc | apply Hk].
  - exact Hc.
Qed.

Lemma bind_run {A B} (c : M A) (k : A -> M B) (w w' : World) (a : A) :
  c w = (Ok a, w') -> bind c k w = k a w'.
Proof. intros H. unfold bind. rewrite H. reflexivity. Qed.

Lemma bind_raise {A B} (c : M A) (k : A -> M B) (w w' : World) (e : exn) :
  c w = (Raise e, w') -> bind c k w = (Raise e, w').
Proof. intros H. unfold bind. rewrite H. reflexivity. Qed.

Lemma same_heap_keeps {A} (l : loc) (c : M A) :
  (forall w, heap (c w).2 = heap w) -> forall w, keeps_heap l w (c w).2.
Proof. intros H w l' _. rewrite H. reflexivity. Qed.

Lemma out_ne_file (out b : string) :
  starts_with_sep b = false -> b <> ""%string -> out <> path_join out b.
Proof.
  intros H1 H2 E. symmetry in E. revert E.
  apply path_join_ne_self; assumption.
Qed.

(** The four files of a fresh run are distinct from each other and from
    the directory. *)
Lemma fresh_files_lookup (out : string) (files0 : gmap string File)
    (doc summary : gmap string json)
    (t1 t2 : gmap string DataFrame) (csv : DataFrame) :
  let files1 :=
    <[path_join out "star_sampling_summary.json" := JsonFile summary]>
      (<[path_join out "star_sampling_summary.json" := EmptyFile]>
         (<[path_join out "star_summary.csv" := CsvFile csv]>
            (<[path_join out "star.h5" := HDFStore t2]>
               (<[path_join out "star.h5" := HDFStore t1]>
                  (<[path_join out "gaia.json" := JsonFile doc]>
                     (<[path_join out "gaia.json" := EmptyFile]>
                        files0)))))) in
  files1 !! path_join out "star.h5" = Some (HDFStore t2)
  /\ files1 !! path_join out "gaia.json" = Some (JsonFile doc)
  /\ files1 !! path_join out "star_summary.csv" = Some (CsvFile csv)
  /\ files1 !! path_join out "star_sampling_summary.json"
     = Some (JsonFile summary)
  /\ files1 !! out = files0 !! out
  /\ forall p, p <> path_join out "star.h5" ->
       p <> path_join out "gaia.json" ->
       p <> path_join out "star_summary.csv" ->
       p <> path_join out "star_sampling_summary.json" ->
       files1 !! p = files0 !! p.
Proof.
  intros files1.
  assert (Hne : forall a b : string,
            starts_with_sep a = false -> starts_with_sep b = false ->
            a <> b -> path_join out a <> path_join out b).
  { intros a b Ha Hb Hab E. apply Hab.
    apply (path_join_inj out a b Ha Hb E). }
  assert (Hrest : forall p, p <> path_join out "star.h5" ->
            p <> path_join out "gaia.json" ->
            p <> path_join out "star_summary.csv" ->
            p <> path_join out "star_sampling_summary.json" ->
            files1 !! p = files0 !! p).
  { intros p H1 H2 H3 H4. unfold files1.
    rewrite !lookup_insert_ne by congruence. reflexivity. }
  unfold files1. repeat split.
  - rewrite !(lookup_insert_ne _ (path_join out "star_sampling_summary.json"))
      by (apply Hne; [reflexivity | reflexivity | discriminate]).
    rewrite (lookup_insert_ne _ (path_join out "star_summary.csv"))
      by (apply Hne; [reflexivity | reflexivity | discriminate]).
    apply lookup_insert_eq.
  - rewrite !(lookup_insert_ne _ (path_join out "star_sampling_summary.json"))
      by (apply Hne; [reflexivity | reflexivity | discriminate]).
    rewrite (lookup_insert_ne _ (path_join out "star_summary.csv"))
      by (apply Hne; [reflexivity | reflexivity | discriminate]).
    rewrite !(lookup_insert_ne _ (path_join out "star.h5"))
      by (apply Hne; [reflexivity | reflexivity | discriminate]).
    apply lookup_insert_eq.
  - rewrite !(lookup_insert_ne _ (path_join out "star_sampling_summary.json"))
      by (apply Hne; [reflexivity | reflexivity | discriminate]).
    apply lookup_insert_eq.
  - apply lookup_insert_eq.
  - apply Hrest; apply out_ne_file; first [reflexivity | discriminate].
  - exact Hrest.
Qed.

(** X17.  A fit that returns a model and a sampler has created one
    sampler of dimension [n_params + 3] and run it once, has read the clock
    twice, and has printed the difference of the two readings over 60 as
    the minutes. *)
Theorem fit_fresh_run_trace (libm : Np.Libm) (iso : Isochrones)
    (dynesty : Dynesty) (describe : DataFrame -> DataFrame)
    (version name : string) (gaia_data : loc) (output_dir : string)
    (clobber : bool) (w0 w1 : World)
    (mod_ : SingleStarModel) (results : Results) :
  fit_gaia_data libm iso dynesty describe version name gaia_data clobber
    output_dir w0 = (Ok (Fitted mod_ results), w1) ->
  trace w1
  = Printed "Sampling took {0} minutes"
      ((clock w0 (S (ticks w0)) - clock w0 (ticks w0)) / 60)
    :: RunNested :: NestedSamplerCreated (n_params iso + 3) :: trace w0
  /\ ticks w1 = S (S (ticks w0)).
Proof.
  intros H. apply fit_fresh_full_inv in H.
  destruct H as (gd & doc & summary & z & derived & wS & t1 & H).
  cbv zeta in H.
  destruct H as (_ & _ & _ & _ & _ & _ & _ & _ & _ & _ & _ & _ & Hticks
                 & Htrace & _).
  auto.
Qed.

(** X18.  A fit that returns a model and a sampler leaves on disk what it
    returns: star.h5 holds the two sample sets of the model under samples
    and derived_samples, next to the tables an overwritten store had under
    other names; gaia.json holds the record, star_summary.csv the summary
    of the derived set, star_sampling_summary.json exists, and no other
    path is touched. *)
Theorem fit_fresh_run_persists (libm : Np.Libm) (iso : Isochrones)
    (dynesty : Dynesty) (describe : DataFrame -> DataFrame)
    (version name : string) (gaia_data : loc) (output_dir : string)
    (clobber : bool) (w0 w1 : World)
    (mod_ : SingleStarModel) (results : Results) :
  fit_gaia_data libm iso dynesty describe version name gaia_data clobber
    output_dir w0 = (Ok (Fitted mod_ results), w1) ->
  exists (gd : gmap string pyobj) (tables : gmap string DataFrame)
         (derived : DataFrame),
    heap w0 !! gaia_data = Some gd
    /\ _derived_samples mod_ = Some derived
    /\ files w1
         !! path_join (path_join (path_join output_dir version) name)
              "star.h5"
       = Some (HDFStore tables)
    /\ tables !! "samples" = _samples mod_
    /\ tables !! "derived_samples" = _derived_samples mod_
    /\ (forall key : string,
          key <> "samples"%string -> key <> "derived_samples"%string ->
          tables !! key
          = match files w0
                    !! path_join
                         (path_join (path_join output_dir version) name)
                         "star.h5" with
            | Some (HDFStore t0) => t0 !! key
            | _ => None
            end)
    /\ files w1
         !! path_join (path_join (path_join output_dir version) name)
              "gaia.json"
       = Some (JsonFile (omap json_value gd))
    /\ files w1
         !! path_join (path_join (path_join output_dir version) name)
              "star_summary.csv"
       = Some (CsvFile (describe derived))
    /\ is_Some
         (files w1
            !! path_join (path_join (path_join output_dir version) name)
                 "star_sampling_summary.json")
    /\ forall p : string,
         p <> path_join (path_join (path_join output_dir version) name)
                "star.h5" ->
         p <> path_join (path_join (path_join output_dir version) name)
                "gaia.json" ->
         p <> path_join (path_join (path_join output_dir version) name)
                "star_summary.csv" ->
         p <> path_join (path_join (path_join output_dir version) name)
                "star_sampling_summary.json" ->
         files w1 !! p = files w0 !! p.
Proof.
  intros H. apply fit_fresh_full_inv in H.
  destruct H as (gd & doc & summary & z & derived & wS & t1 & H).
  cbv zeta in H.
  destruct H as (Hgd & Hout & Hclob & Hdoc & Hrun & Hz & Hder & Hsum & ->
                 & Ht1 & Hheap & Hdirs & Hticks & Htrace & Hfiles).
  pose proof (json_of_record_cases gd) as Hc. rewrite Hdoc in Hc.
  destruct Hc as [_ ->].
  destruct (fresh_files_lookup
              (path_join (path_join output_dir version) name) (files w0)
              (omap json_value gd) summary t1
              (<["derived_samples" := derived]> t1) (describe derived))
    as (F1 & F2 & F3 & F4 & _ & F6).
  rewrite <- Hfiles in F1, F2, F3, F4, F6.
  exists gd, (<["derived_samples" := derived]> t1), derived.
  cbn [_samples _derived_samples].
  repeat split; try assumption.
  - rewrite lookup_insert_ne by discriminate.
    destruct Ht1 as [[_ ->] | (t0 & _ & ->)].
    + apply lookup_singleton_eq.
    + apply lookup_insert_eq.
  - apply lookup_insert_eq.
  - intros key Hk1 Hk2. rewrite lookup_insert_ne by congruence.
    destruct Ht1 as [[-> ->] | (t0 & -> & ->)].
    + apply lookup_singleton_ne. congruence.
    + apply lookup_insert_ne. congruence.
  - rewrite F4. eauto.
Qed.

(** X19.  Fit, then fit again without overwrite: the second call returns
    a model with the sample sets the first one returned, runs no sampler,
    prints nothing and writes no file. *)
Theorem fit_then_reuse (libm : Np.Libm) (iso : Isochrones)
    (dynesty : Dynesty) (describe : DataFrame -> DataFrame)
    (version name : string) (gaia_data : loc) (output_dir : string)
    (clobber : bool) (w0 w1 : World)
    (mod_ : SingleStarModel) (results : Results)
    (dynesty' : Dynesty) (describe' : DataFrame -> DataFrame) :
  fit_gaia_data libm iso dynesty describe version name gaia_data clobber
    output_dir w0 = (Ok (Fitted mod_ results), w1) ->
  exists mod' w2,
    fit_gaia_data libm iso dynesty' describe' version name gaia_data false
      output_dir w1 = (Ok (Loaded mod'), w2)
    /\ _samples mod' = _samples mod_
    /\ _derived_samples mod' = _derived_samples mod_
    /\ trace w2 = trace w1
    /\ files w2 = files w1.
Proof.
  intros H. apply fit_fresh_full_inv in H.
  destruct H as (gd & doc & summary & z & derived & wS & t1 & H).
  cbv zeta in H.
  destruct H as (Hgd & Hout & Hclob & Hdoc & Hrun & Hz & Hder & Hsum & ->
                 & Ht1 & Hheap & Hdirs & Hticks & Htrace & Hfiles).
  destruct (fresh_files_lookup
              (path_join (path_join output_dir version) name) (files w0)
              doc summary t1
              (<["derived_samples" := derived]> t1) (describe derived))
    as (F1 & _ & _ & _ & F5 & _).
  rewrite <- Hfiles in F1, F5.
  assert (Hl : fresh (dom (heap w0)) <> gaia_data).
  { intros E. apply (is_fresh (dom (heap w0))). rewrite E.
    apply elem_of_dom. eauto. }
  assert (Hgd1 : heap w1 !! gaia_data = Some gd).
  { rewrite Hheap.
    match type of Hrun with
    | run_sampler _ _ ?m _ ?p ?w = _ =>
        pose proof (run_sampler_writes_only libm iso m gaia_data p w) as Hwo
    end.
    rewrite Hrun in Hwo. cbn [snd] in Hwo.
    rewrite (writes_only_lookup _ _ _ _ Hwo) by (cbn [kwargs]; congruence).
    cbn [heap with_heap with_dirs with_files with_ticks with_trace].
    rewrite lookup_insert_ne by exact Hl. exact Hgd. }
  match type of Hder with
  | derived_frame _ ?df = _ => set (S := df) in *
  end.
  assert (HS : (<["derived_samples" := derived]> t1 : gmap string DataFrame)
               !! "samples" = Some S).
  { rewrite lookup_insert_ne by discriminate.
    destruct Ht1 as [[_ ->] | (t0 & _ & ->)].
    - apply lookup_singleton_eq.
    - apply lookup_insert_eq. }
  assert (HD : (<["derived_samples" := derived]> t1 : gmap string DataFrame)
               !! "derived_samples" = Some derived)
    by apply lookup_insert_eq.
  rewrite Hout in F5.
  pose proof (fit_reuse libm iso dynesty' describe' version name gaia_data
                output_dir w1 gd _ S derived Hgd1 F5 F1 HS HD) as Hfit.
  eexists _, _. split; [exact Hfit|].
  cbn [_samples _derived_samples trace files with_dirs with_heap].
  repeat split.
Qed.

(** X20.  The fit returns a model alone only when overwrite is off and
    star.h5 was there before the call with both tables; the model's sample
    sets are those tables, and the call has printed and written nothing. *)
Theorem fit_loaded_inv (libm : Np.Libm) (iso : Isochrones)
    (dynesty : Dynesty) (describe : DataFrame -> DataFrame)
    (version name : string) (gaia_data : loc) (output_dir : string)
    (clobber : bool) (w0 w1 : World)
    (mod_ : SingleStarModel) :
  fit_gaia_data libm iso dynesty describe version name gaia_data clobber
    output_dir w0 = (Ok (Loaded mod_), w1) ->
  clobber = false
  /\ exists tables,
       files w0
         !! path_join (path_join (path_join output_dir version) name)
              "star.h5"
       = Some (HDFStore tables)
       /\ tables !! "samples" = _samples mod_
       /\ tables !! "derived_samples" = _derived_samples mod_
       /\ is_Some (_samples mod_) /\ is_Some (_derived_samples mod_)
       /\ trace w1 = trace w0 /\ files w1 = files w0.
Proof.
  intros H. unfold fit_gaia_data, new_model, bind, deref in H.
  destruct (heap w0 !! gaia_data) as [gd|] eqn:Hgd; [|discriminate].
  unfold alloc, ret, makedirs in H.
  cbn [files heap dirs with_heap with_dirs] in H.
  destruct (files w0 !! path_join (path_join output_dir version) name)
    as [?|] eqn:Hout; [discriminate|].
  unfold path_exists in H.
  cbn [files heap dirs with_heap with_dirs] in H.
  destruct (negb clobber && _) eqn:Hfound.
  - apply andb_true_iff in Hfound as [Hc _].
    split; [destruct clobber; [discriminate | reflexivity]|].
    unfold read_hdf in H. cbn [files with_heap with_dirs] in H.
    destruct (files w0
                !! path_join (path_join (path_join output_dir version) name)
                     "star.h5")
      as [[| tables | |]|] eqn:Hfn; try discriminate.
    destruct (tables !! "samples") as [s|] eqn:Hs; [|discriminate].
    cbn [files with_heap with_dirs] in H. rewrite Hfn in H.
    destruct (tables !! "derived_samples") as [d|] eqn:Hd; [|discriminate].
    injection H as <- <-. exists tables.
    cbn [_samples _derived_samples trace files with_dirs with_heap].
    repeat split; eauto.
  - exfalso.
    repeat match type of H with
    | (let (_, _) := ?c in _) = _ =>
        destruct c as [[?|?] ?]; [|discriminate]
    | match ?c with _ => _ end = _ =>
        destruct c as [[?|?] ?]; [|discriminate]
    end.
    discriminate.
Qed.

(** X21.  Where no parent of the output directory and not the directory
    itself is a regular file, and gaia.json is not a directory, a record
    with a value that has no [tolist] stops a fresh run with an attribute
    error before the sampler exists: nothing is printed or run, and
    gaia.json is left empty on disk. *)
Theorem fit_rejects_non_numpy (libm : Np.Libm) (iso : Isochrones)
    (dynesty : Dynesty) (describe : DataFrame -> DataFrame)
    (version name : string) (gaia_data : loc) (output_dir : string)
    (clobber : bool) (w0 : World)
    (gd : gmap string pyobj) (k : string) (v : pyobj) :
  heap w0 !! gaia_data = Some gd ->
  files w0 !! path_join (path_join output_dir version) name = None ->
  (forall d : string,
     path_above d (path_join (path_join output_dir version) name) ->
     files w0 !! d = None) ->
  (path_join (path_join (path_join output_dir version) name) "gaia.json"
   ∉ dirs w0) ->
  clobber = true
  \/ (files w0
        !! path_join (path_join (path_join output_dir version) name)
             "star.h5" = None
      /\ (path_join (path_join (path_join output_dir version) name)
            "star.h5" ∉ dirs w0)) ->
  gd !! k = Some v ->
  json_value v = None ->
  exists w1,
    fit_gaia_data libm iso dynesty describe version name gaia_data clobber
      output_dir w0 = (Raise AttributeError, w1)
    /\ trace w1 = trace w0
    /\ files w1
       = <[path_join (path_join (path_join output_dir version) name)
             "gaia.json" := EmptyFile]> (files w0).
Proof.
  intros Hgd Hout _ _ Hclob Hk Hv.
  assert (Hl : fresh (dom (heap w0)) <> gaia_data).
  { intros E. apply (is_fresh (dom (heap w0))). rewrite E.
    apply elem_of_dom. eauto. }
  assert (Hfound :
            negb clobber
            && (bool_decide
                  (is_Some
                     (files w0
                        !! path_join
                             (path_join (path_join output_dir version) name)
                             "star.h5"))
                || bool_decide
                     (path_join
                        (path_join (path_join output_dir version) name)
                        "star.h5"
                      ∈ {[path_join (path_join output_dir version) name]}
                        ∪ dirs w0))
            = false).
  { destruct Hclob as [-> | [Hf Hd]]; [reflexivity|].
    rewrite Hf.
    rewrite (bool_decide_false (is_Some None)) by (intros [? ?]; discriminate).
    rewrite bool_decide_false; [apply andb_false_r|].
    intros Hin. apply elem_of_union in Hin as [Hin | Hin]; [|tauto].
    apply elem_of_singleton in Hin. revert Hin.
    apply path_join_ne_self; [reflexivity | discriminate]. }
  assert (Hdump : json_of_record gd = Raise AttributeError).
  { pose proof (json_of_record_cases gd) as Hc.
    destruct (json_of_record gd) as [doc|e].
    - destruct Hc as [Hall _]. destruct (Hall k v Hk) as [j Hj]. congruence.
    - destruct Hc as [-> _]. reflexivity. }
  eexists.
  unfold fit_gaia_data, new_model, bind, deref.
  rewrite Hgd. unfold alloc, ret, makedirs.
  cbn [files heap dirs with_heap with_dirs]. rewrite Hout.
  unfold path_exists. cbn [files heap dirs with_heap with_dirs].
  rewrite Hfound.
  unfold open_w, lift.
  cbn [files heap dirs ticks trace clock with_heap with_dirs with_files].
  rewrite lookup_insert_ne by exact Hl. rewrite Hgd.
  change (for_each (map_to_list gd) ∅ _) with (json_of_record gd).
  rewrite Hdump.
  split; [reflexivity|]. split; reflexivity.
Qed.

(** The sample run of the fit is a fresh one. *)
Lemma sample_fit_run_fitted :
  exists mod_ results w1, Sample.fit_run = (Ok (Fitted mod_ results), w1).
Proof.
  assert (H : match Sample.fit_run with
              | (Ok (Fitted _ _), _) => true
              | _ => false
              end = true) by (vm_compute; reflexivity).
  destruct Sample.fit_run as [[[mod_ | mod_ results] | e] w1];
    try discriminate H.
  eauto.
Qed.

Lemma fit_fresh_run_trace_witness :
  exists mod_ results w1,
    Sample.fit_run = (Ok (Fitted mod_ results), w1)
    /\ trace w1
       = Printed "Sampling took {0} minutes"
           ((clock (Sample.world Sample.record ∅)
               (S (ticks (Sample.world Sample.record ∅)))
             - clock (Sample.world Sample.record ∅)
                 (ticks (Sample.world Sample.record ∅))) / 60)
         :: RunNested :: NestedSamplerCreated (n_params Sample.iso + 3)
         :: trace (Sample.world Sample.record ∅)
    /\ ticks w1 = S (S (ticks (Sample.world Sample.record ∅))).
Proof.
  destruct sample_fit_run_fitted as (mod_ & results & w1 & E).
  exists mod_, results, w1. split; [exact E|].
  exact (fit_fresh_run_trace SoftLibm.libm Sample.iso Sample.dynesty
           Sample.describe "0.1.0" "kic1" 0 "results" false _ w1 mod_
           results E).
Defined.

Lemma fit_fresh_run_persists_witness :
  exists mod_ results w1,
    Sample.fit_run = (Ok (Fitted mod_ results), w1)
    /\ exists (tables : gmap string DataFrame) (derived : DataFrame),
         _derived_samples mod_ = Some derived
         /\ files w1
              !! path_join (path_join (path_join "results" "0.1.0") "kic1")
                   "star.h5"
            = Some (HDFStore tables)
         /\ tables !! "samples" = _samples mod_
         /\ tables !! "derived_samples" = _derived_samples mod_
         /\ files w1
              !! path_join (path_join (path_join "results" "0.1.0") "kic1")
                   "gaia.json"
            = Some (JsonFile (omap json_value Sample.record))
         /\ files w1
              !! path_join (path_join (path_join "results" "0.1.0") "kic1")
                   "star_summary.csv"
            = Some (CsvFile (Sample.describe derived)).
Proof.
  destruct sample_fit_run_fitted as (mod_ & results & w1 & E).
  exists mod_, results, w1. split; [exact E|].
  destruct (fit_fresh_run_persists SoftLibm.libm Sample.iso Sample.dynesty
              Sample.describe "0.1.0" "kic1" 0 "results" false _ w1 mod_
              results E)
    as (gd & tables & derived & Hgd & Hd & Hfn & Hs & Hds & _ & Hj & Hc
        & _).
  assert (Hrec : gd = Sample.record).
  { assert (H0 : heap (Sample.world Sample.record ∅) !! 0%nat
                 = Some Sample.record) by apply lookup_singleton_eq.
    congruence. }
  subst gd. exists tables, derived.
  repeat (split; [assumption|]). assumption.
Defined.

Lemma fit_then_reuse_witness :
  exists mod_ results w1,
    Sample.fit_run = (Ok (Fitted mod_ results), w1)
    /\ exists mod' w2,
         fit_gaia_data SoftLibm.libm Sample.iso Sample.dynesty
           Sample.describe "0.1.0" "kic1" 0 false "results" w1
         = (Ok (Loaded mod'), w2)
         /\ _samples mod' = _samples mod_
         /\ _derived_samples mod' = _derived_samples mod_
         /\ trace w2 = trace w1
         /\ files w2 = files w1.
Proof.
  destruct sample_fit_run_fitted as (mod_ & results & w1 & E).
  exists mod_, results, w1. split; [exact E|].
  exact (fit_then_reuse SoftLibm.libm Sample.iso Sample.dynesty
           Sample.describe "0.1.0" "kic1" 0 "results" false _ w1 mod_
           results Sample.dynesty Sample.describe E).
Defined.

Lemma fit_loaded_inv_witness :
  exists mod_ w1,
    fit_gaia_data SoftLibm.libm Sample.iso Sample.dynesty Sample.describe
      "0.1.0" "kic1" 0 false "results" Sample.stored_world
    = (Ok (Loaded mod_), w1)
    /\ false = false
    /\ exists tables,
         files Sample.stored_world
           !! path_join (path_join (path_join "results" "0.1.0") "kic1")
                "star.h5"
         = Some (HDFStore tables)
         /\ tables !! "samples" = _samples mod_
         /\ tables !! "derived_samples" = _derived_samples mod_
         /\ is_Some (_samples mod_) /\ is_Some (_derived_samples mod_)
         /\ trace w1 = trace Sample.stored_world
         /\ files w1 = files Sample.stored_world.
Proof.
  assert (H0 : heap Sample.stored_world !! 0%nat = Some Sample.record)
    by apply lookup_singleton_eq.
  assert (H1 : files Sample.stored_world
                 !! path_join (path_join "results" "0.1.0") "kic1" = None)
    by (apply lookup_singleton_ne; discriminate).
  assert (H2 : files Sample.stored_world
                 !! path_join (path_join (path_join "results" "0.1.0") "kic1")
                      "star.h5"
               = Some Sample.store)
    by apply lookup_singleton_eq.
  assert (HS : ({[ "samples" := Sample.persisted_samples;
                   "derived_samples" := Sample.persisted_derived ]}
                : gmap string DataFrame) !! "samples"
               = Some Sample.persisted_samples) by map_lookup.
  assert (HD : ({[ "samples" := Sample.persisted_samples;
                   "derived_samples" := Sample.persisted_derived ]}
                : gmap string DataFrame) !! "derived_samples"
               = Some Sample.persisted_derived) by map_lookup.
  pose proof (fit_reuse SoftLibm.libm Sample.iso Sample.dynesty
                Sample.describe "0.1.0" "kic1" 0 "results"
                Sample.stored_world Sample.record _ _ _ H0 H1 H2 HS HD)
    as E.
  eexists _, _. split; [exact E|].
  exact (fit_loaded_inv SoftLibm.libm Sample.iso Sample.dynesty
           Sample.describe "0.1.0" "kic1" 0 "results" false _ _ _ E).
Defined.

Lemma fit_rejects_non_numpy_witness :
  Cases.tuple_record !! "G" = Some (Tuple [6; 0.0005])
  /\ json_value (Tuple [6; 0.0005]) = None
  /\ (forall d : string,
        path_above d (path_join (path_join "results" "0.1.0") "kic1") ->
        files (Sample.world Cases.tuple_record ∅) !! d = None)
  /\ (path_join (path_join (path_join "results" "0.1.0") "kic1") "gaia.json"
      ∉ dirs (Sample.world Cases.tuple_record ∅))
  /\ exists w1,
       fit_gaia_data SoftLibm.libm Sample.iso Sample.dynesty Sample.describe
         "0.1.0" "kic1" 0 true "results" (Sample.world Cases.tuple_record ∅)
       = (Raise AttributeError, w1)
       /\ trace w1 = trace (Sample.world Cases.tuple_record ∅)
       /\ files w1
          = <[path_join (path_join (path_join "results" "0.1.0") "kic1")
                "gaia.json" := EmptyFile]>
              (files (Sample.world Cases.tuple_record ∅)).
Proof.
  assert (Hk : Cases.tuple_record !! "G" = Some (Tuple [6; 0.0005]))
    by apply lookup_insert_eq.
  assert (Hv : json_value (Tuple [6; 0.0005]) = None) by reflexivity.
  assert (Hup : forall d : string,
            path_above d (path_join (path_join "results" "0.1.0") "kic1") ->
            files (Sample.world Cases.tuple_record ∅) !! d = None)
    by (intros d _; apply lookup_empty).
  assert (Hjs : path_join (path_join (path_join "results" "0.1.0") "kic1")
                  "gaia.json"
                ∉ dirs (Sample.world Cases.tuple_record ∅))
    by apply not_elem_of_empty.
  split; [exact Hk|]. split; [exact Hv|].
  split; [exact Hup|]. split; [exact Hjs|].
  exact (fit_rejects_non_numpy SoftLibm.libm Sample.iso Sample.dynesty
           Sample.describe "0.1.0" "kic1" 0 "results" true
           (Sample.world Cases.tuple_record ∅) Cases.tuple_record "G"
           (Tuple [6; 0.0005]) (lookup_singleton_eq _ _) (lookup_empty _)
           Hup Hjs (or_introl eq_refl) Hk Hv).
Defined.

Lemma fit_rest_keeps_heap (libm : Np.Libm) (iso : Isochrones)
    (dynesty : Dynesty) (describe : DataFrame -> DataFrame)
    (version name : string) (gaia_data : loc) (clobber : bool)
    (output_dir : string) (w0 : World) (gd : gmap string pyobj) :
  heap w0 !! gaia_data = Some gd ->
  keeps_heap (fresh (dom (heap w0))) w0
    (fit_gaia_data libm iso dynesty describe version name gaia_data clobber
       output_dir w0).2.
Proof.
  intros Hgd.
  set (l := fresh (dom (heap w0))).
  set (m := {| kwargs := l; _samples := None; _derived_samples := None |}).
  assert (Hnew : new_model iso gaia_data w0
                 = (Ok m, with_heap (<[l := init_kwargs iso gd]> (heap w0))
                            w0)).
  { unfold new_model, bind, deref, alloc, ret. rewrite Hgd. reflexivity. }
  unfold fit_gaia_data.
  erewrite (bind_run _ _ _ _ _ Hnew). cbv beta zeta.
  apply (keeps_heap_trans l w0
           (with_heap (<[l := init_kwargs iso gd]> (heap w0)) w0)).
  { apply writes_only_keeps_heap. apply writes_only_insert. }
  generalize (with_heap (<[l := init_kwargs iso gd]> (heap w0)) w0).
  change l with (kwargs m) at 1.
  apply bind_keeps_heap.
  { apply same_heap_keeps. intros w. unfold makedirs.
    destruct (files w !! _); reflexivity. }
  intros _. apply bind_keeps_heap.
  { apply same_heap_keeps. reflexivity. }
  intros found.
  destruct (negb clobber && found).
  - apply bind_keeps_heap.
    { apply same_heap_keeps. intros w. unfold read_hdf.
      destruct (files w !! _) as [[| t | |]|]; try reflexivity.
      destruct (t !! _); reflexivity. }
    intros s. apply bind_keeps_heap.
    { apply same_heap_keeps. intros w. unfold read_hdf.
      destruct (files w !! _) as [[| t | |]|]; try reflexivity.
      destruct (t !! _); reflexivity. }
    intros d. apply same_heap_keeps. reflexivity.
  - repeat first
      [ apply bind_keeps_heap; [|intros ?]
      | apply same_heap_keeps; reflexivity
      | apply same_heap_keeps; intros w; unfold deref;
        destruct (heap w !! _); reflexivity
      | apply same_heap_keeps; intros w; unfold to_hdf;
        destruct (files w !! _) as [[| ? | |]|]; reflexivity
      | intros w; apply writes_only_keeps_heap;
        apply run_sampler_writes_only ].
Qed.

(** X22.  Whatever its outcome, the fit leaves every dictionary that
    existed before the call as it was, the measurement record among
    them. *)
Theorem fit_keeps_dictionaries (libm : Np.Libm) (iso : Isochrones)
    (dynesty : Dynesty) (describe : DataFrame -> DataFrame)
    (version name : string) (gaia_data : loc) (clobber : bool)
    (output_dir : string) (w0 : World) (l : loc) (d : gmap string pyobj) :
  heap w0 !! l = Some d ->
  heap (fit_gaia_data libm iso dynesty describe version name gaia_data
          clobber output_dir w0).2 !! l = Some d.
Proof.
  intros Hl.
  destruct (heap w0 !! gaia_data) as [gd|] eqn:Hgd.
  - rewrite (fit_rest_keeps_heap libm iso dynesty describe version name
               gaia_data clobber output_dir w0 gd Hgd l); [exact Hl|].
    intros E. apply (is_fresh (dom (heap w0))). rewrite <- E.
    apply elem_of_dom. eauto.
  - assert (Hnew : new_model iso gaia_data w0 = (Raise TypeError, w0)).
    { unfold new_model, bind, deref. rewrite Hgd. reflexivity. }
    unfold fit_gaia_data. erewrite (bind_raise _ _ _ _ _ Hnew). exact Hl.
Qed.

Lemma fit_keeps_dictionaries_witness :
  heap (Sample.world Sample.record ∅) !! 0%nat = Some Sample.record
  /\ heap Sample.fit_run.2 !! 0%nat = Some Sample.record.
Proof.
  assert (H0 : heap (Sample.world Sample.record ∅) !! 0%nat
               = Some Sample.record) by apply lookup_singleton_eq.
  split; [exact H0|].
  exact (fit_keeps_dictionaries SoftLibm.libm Sample.iso Sample.dynesty
           Sample.describe "0.1.0" "kic1" 0 false "results"
           (Sample.world Sample.record ∅) 0%nat Sample.record H0).
Defined.

(** X23.  A star name that starts with a separator is the output
    directory itself: the fit then does not depend on the output directory
    it was given nor on the version. *)
Theorem fit_absolute_name (libm : Np.Libm) (iso : Isochrones)
    (dynesty : Dynesty) (describe : DataFrame -> DataFrame)
    (version version' name : string) (gaia_data : loc) (clobber : bool)
    (output_dir output_dir' : string) (w : World) :
  starts_with_sep name = true ->
  fit_gaia_data libm iso dynesty describe version name gaia_data clobber
    output_dir w
  = fit_gaia_data libm iso dynesty describe version' name gaia_data clobber
      output_dir' w.
Proof.
  intros Hn.
  assert (Hp : forall a, path_join a name = name).
  { intros a. unfold path_join. rewrite Hn. reflexivity. }
  unfold fit_gaia_data. rewrite !Hp. reflexivity.
Qed.

Lemma fit_absolute_name_witness :
  starts_with_sep "/data/kic1" = true
  /\ fit_gaia_data SoftLibm.libm Sample.iso Sample.dynesty Sample.describe
       "0.1.0" "/data/kic1" 0 false "results" (Sample.world Sample.record ∅)
     = fit_gaia_data SoftLibm.libm Sample.iso Sample.dynesty Sample.describe
         "0.2.0" "/data/kic1" 0 false "elsewhere"
         (Sample.world Sample.record ∅).
Proof.
  assert (H : starts_with_sep "/data/kic1" = true) by reflexivity.
  split; [exact H|].
  exact (fit_absolute_name SoftLibm.libm Sample.iso Sample.dynesty
           Sample.describe "0.1.0" "0.2.0" "/data/kic1" 0 false "results"
           "elsewhere" (Sample.world Sample.record ∅) H).
Defined.

Lemma sampling_summary_inv (results : Results) (total_time : float)
    (summary : gmap string json) :
  sampling_summary results total_time = Ok summary ->
  exists z zerr,
    last (logz results) = Some z
    /\ last (logzerr results) = Some zerr
    /\ summary
       = <["total_time" := JFloat total_time]>
           (<["logzerr" := JFloat zerr]>
              (<["logz" := JFloat z]>
                 (<["eff" := JFloat (eff results)]>
                    (<["ncall" := JInt (fold_left Z.add (ncall results) 0%Z)]>
                       (<["niter" := JInt (niter results)]>
                          (<["nlive" := JInt (nlive results)]> ∅)))))).
Proof.
  unfold sampling_summary, last_item, rbind.
  destruct (last (logz results)) as [z|]; [|discriminate].
  destruct (last (logzerr results)) as [zerr|]; [|discriminate].
  intros [= <-]. exists z, zerr. repeat split.
Qed.

(** X24.  A fit that returns a model and a sampler has written to
    star_sampling_summary.json exactly seven entries: the sampler's nlive,
    niter and eff, the sum of its ncall, the last of its logz and of its
    logzerr, and as total_time the minutes it printed. *)
Theorem fit_fresh_run_summary (libm : Np.Libm) (iso : Isochrones)
    (dynesty : Dynesty) (describe : DataFrame -> DataFrame)
    (version name : string) (gaia_data : loc) (output_dir : string)
    (clobber : bool) (w0 w1 : World)
    (mod_ : SingleStarModel) (results : Results) :
  fit_gaia_data libm iso dynesty describe version name gaia_data clobber
    output_dir w0 = (Ok (Fitted mod_ results), w1) ->
  exists (summary : gmap string json) (z zerr : float),
    files w1
      !! path_join (path_join (path_join output_dir version) name)
           "star_sampling_summary.json"
    = Some (JsonFile summary)
    /\ last (logz results) = Some z
    /\ last (logzerr results) = Some zerr
    /\ dom summary
       = {[ "nlive"; "niter"; "ncall"; "eff"; "logz"; "logzerr";
            "total_time" ]}%string
    /\ summary !! "nlive" = Some (JInt (nlive results))
    /\ summary !! "niter" = Some (JInt (niter results))
    /\ summary !! "ncall" = Some (JInt (fold_left Z.add (ncall results) 0%Z))
    /\ summary !! "eff" = Some (JFloat (eff results))
    /\ summary !! "logz" = Some (JFloat z)
    /\ summary !! "logzerr" = Some (JFloat zerr)
    /\ summary !! "total_time"
       = Some (JFloat ((clock w0 (S (ticks w0)) - clock w0 (ticks w0)) / 60)).
Proof.
  intros H. apply fit_fresh_full_inv in H.
  destruct H as (gd & doc & summary & z0 & derived & wS & t1 & H).
  cbv zeta in H.
  destruct H as (_ & _ & _ & _ & _ & _ & _ & Hsum & _ & _ & _ & _ & _ & _
                 & Hfiles).
  apply sampling_summary_inv in Hsum as (z & zerr & Hz & Hzerr & Hsum).
  exists summary, z, zerr.
  split; [rewrite Hfiles; apply lookup_insert_eq|].
  split; [exact Hz|]. split; [exact Hzerr|].
  rewrite Hsum. split.
  { rewrite !dom_insert_L, dom_empty_L. set_solver. }
  repeat split; map_lookup.
Qed.

Lemma fit_fresh_run_summary_witness :
  exists mod_ results w1,
    Sample.fit_run = (Ok (Fitted mod_ results), w1)
    /\ exists (summary : gmap string json) (z zerr : float),
         files w1
           !! path_join (path_join (path_join "results" "0.1.0") "kic1")
                "star_sampling_summary.json"
         = Some (JsonFile summary)
         /\ last (logz results) = Some z
         /\ last (logzerr results) = Some zerr
         /\ summary !! "nlive" = Some (JInt (nlive results))
         /\ summary !! "logz" = Some (JFloat z)
         /\ summary !! "total_time"
            = Some (JFloat
                      ((clock (Sample.world Sample.record ∅)
                          (S (ticks (Sample.world Sample.record ∅)))
                        - clock (Sample.world Sample.record ∅)
                            (ticks (Sample.world Sample.record ∅))) / 60)).
Proof.
  destruct sample_fit_run_fitted as (mod_ & results & w1 & E).
  exists mod_, results, w1. split; [exact E|].
  destruct (fit_fresh_run_summary SoftLibm.libm Sample.iso Sample.dynesty
              Sample.describe "0.1.0" "kic1" 0 "results" false _ w1 mod_
              results E)
    as (summary & z & zerr & Hf & Hz & Hzerr & _ & Hn & _ & _ & _ & Hlz & _
        & Ht).
  exists summary, z, zerr.
  repeat (split; [assumption|]). assumption.
Defined.
